(** * preprocess_FE: calendar, weather and dead-period features of the
      bicycle-count table

    A shallow embedding of [preprocess_FE.py].  A pandas [DataFrame] is a row
    count with an ordered association list of named columns; the Python
    functions run in a state-and-error monad over a store of frames, because
    they assign columns to the object they are given and hand the same object
    back, while [drop] and [merge] build new objects. *)

From Stdlib Require Import ZArith QArith Lia Lqa Ascii String List Permutation.
From stdpp Require Import base list strings.

Local Open Scope string_scope.
Local Open Scope list_scope.

(** ** Calendar arithmetic of [pd.Timestamp]

    A timestamp is its count of nanoseconds since 1970-01-01T00:00, as pandas
    stores it; dates and hours are read off with floor division. *)

Module Calendar.
Local Open Scope Z_scope.

Definition ns_per_second : Z := 1000000000.
Definition ns_per_minute : Z := 60 * ns_per_second.
Definition ns_per_hour : Z := 60 * ns_per_minute.
Definition ns_per_day : Z := 24 * ns_per_hour.

(** Days since the epoch of the proleptic Gregorian date [y]-[m]-[d]. *)
Definition days_from_civil (y m d : Z) : Z :=
  let y' := if m <=? 2 then y - 1 else y in
  let era := y' / 400 in
  let yoe := y' - era * 400 in
  let mp := if 2 <? m then m - 3 else m + 9 in
  let doy := (153 * mp + 2) / 5 + d - 1 in
  let doe := yoe * 365 + yoe / 4 - yoe / 100 + doy in
  era * 146097 + doe - 719468.

(** The Gregorian date (year, month, day) of a day count. *)
Definition civil_from_days (z : Z) : Z * Z * Z :=
  let z' := z + 719468 in
  let era := z' / 146097 in
  let doe := z' - era * 146097 in
  let yoe := (doe - doe / 1460 + doe / 36524 - doe / 146096) / 365 in
  let doy := doe - (365 * yoe + yoe / 4 - yoe / 100) in
  let mp := (5 * doy + 2) / 153 in
  let d := doy - (153 * mp + 2) / 5 + 1 in
  let m := if mp <? 10 then mp + 3 else mp - 9 in
  (if m <=? 2 then yoe + era * 400 + 1 else yoe + era * 400, m, d).

(** [pd.Timestamp(year, month, day, hour, minute, second)]. *)
Definition Timestamp (y m d hh mm ss : Z) : Z :=
  days_from_civil y m d * ns_per_day
  + hh * ns_per_hour + mm * ns_per_minute + ss * ns_per_second.

Definition day_number (t : Z) : Z := t / ns_per_day.

Definition year (t : Z) : Z := fst (fst (civil_from_days (day_number t))).
Definition month (t : Z) : Z := snd (fst (civil_from_days (day_number t))).
Definition day (t : Z) : Z := snd (civil_from_days (day_number t)).
(** Monday is 0; 1970-01-01 was a Thursday. *)
Definition weekday (t : Z) : Z := (day_number t + 3) mod 7.
Definition hour (t : Z) : Z := (t mod ns_per_day) / ns_per_hour.

(** [.floor("D")]: midnight of the same calendar day. *)
Definition floor_D (t : Z) : Z := day_number t * ns_per_day.

(** *** Reading a date written YYYY-MM-DD, as [pd.Timestamp("2020-10-17")] *)

Definition digit_of (c : ascii) : option Z :=
  let n := Z.of_nat (nat_of_ascii c) in
  if (48 <=? n) && (n <=? 57) then Some (n - 48) else None.

Fixpoint number_of (cs : list ascii) (acc : Z) : option Z :=
  match cs with
  | [] => Some acc
  | c :: cs' =>
      match digit_of c with
      | Some k => number_of cs' (10 * acc + k)
      | None => None
      end
  end.

Definition parse_date (s : string) : option Z :=
  match list_ascii_of_string s with
  | [y1; y2; y3; y4; "-"%char; m1; m2; "-"%char; d1; d2] =>
      match number_of [y1; y2; y3; y4] 0, number_of [m1; m2] 0,
            number_of [d1; d2] 0 with
      | Some y, Some m, Some d => Some (Timestamp y m d 0 0 0)
      | _, _, _ => None
      end
  | _ => None
  end.

End Calendar.

(** ** Cells, columns and frames *)

Inductive trig := Sin | Cos.

(** A cell of a column.  Finite floating-point numbers are read as the
    rationals they denote; [VTrig f x p] stands for [f (2 * pi * x / p)],
    which is kept symbolic.  [VNaN] is the missing cell: NaN among numbers,
    NaT in a datetime64 column. *)
Inductive value :=
| VTimestamp (ns : Z)
| VInt (n : Z)
| VFloat (q : Q)
| VStr (s : string)
| VNaN
| VTrig (f : trig) (x : Q) (period : Z).

(** A column: its cells, and whether its dtype is datetime64.  This is all
    the program asks of a dtype: the [.dt] accessor exists on datetime64
    columns only, and a column has its dtype also when it has no rows. *)
Record Series := mkSeries {
  is_datetime64 : bool;
  cells :> list value
}.

(** A column of numbers, strings or categories. *)
Definition series (l : list value) : Series := mkSeries false l.

Inductive error :=
| KeyError (label : string)
| ValueError
| TypeError
| AttributeError.

Inductive result (A : Type) :=
| Ok (a : A)
| Err (e : error).
Arguments Ok {A} a.
Arguments Err {A} e.

Definition rbind {A B} (r : result A) (k : A -> result B) : result B :=
  match r with
  | Ok a => k a
  | Err e => Err e
  end.

Notation "'let?' x ':=' r 'in' k" := (rbind r (fun x => k))
  (at level 10, x name, r at level 100, k at level 200).

Fixpoint traverse {A B} (f : A -> result B) (l : list A) : result (list B) :=
  match l with
  | [] => Ok []
  | a :: l' =>
      let? b := f a in
      let? bs := traverse f l' in
      Ok (b :: bs)
  end.

Record DataFrame := mkDataFrame {
  nrows : nat;
  cols : list (string * Series)
}.

Definition columns (df : DataFrame) : list string := map fst (cols df).

(** Every column is as long as the index. *)
Definition well_formed (df : DataFrame) : Prop :=
  Forall (fun c : string * Series => length (snd c) = nrows df) (cols df).

Fixpoint lookup_col (c : string) (cs : list (string * Series)) : option Series :=
  match cs with
  | [] => None
  | (c', s) :: cs' => if String.eqb c c' then Some s else lookup_col c cs'
  end.

(** [cs[c] = s] on the column list: replace in place, or append. *)
Fixpoint assign_col (c : string) (s : Series) (cs : list (string * Series))
  : list (string * Series) :=
  match cs with
  | [] => [(c, s)]
  | (c', s') :: cs' =>
      if String.eqb c c' then (c, s) :: cs' else (c', s') :: assign_col c s cs'
  end.

Definition has_col (df : DataFrame) (c : string) : bool :=
  match lookup_col c (cols df) with Some _ => true | None => false end.

Definition mem_string (c : string) (l : list string) : bool :=
  existsb (String.eqb c) l.

(** [df[c]] *)
Definition df_get (df : DataFrame) (c : string) : result Series :=
  match lookup_col c (cols df) with
  | Some s => Ok s
  | None => Err (KeyError c)
  end.

Definition df_assign (df : DataFrame) (c : string) (s : Series) : DataFrame :=
  mkDataFrame (nrows df) (assign_col c s (cols df)).

(** [df[c] = s]: the series has to be as long as the index. *)
Definition df_set (df : DataFrame) (c : string) (s : Series) : result DataFrame :=
  if Nat.eqb (length s) (nrows df) then Ok (df_assign df c s) else Err ValueError.

Definition df_remove (names : list string) (df : DataFrame) : DataFrame :=
  mkDataFrame (nrows df)
    (List.filter (fun cs => negb (mem_string (fst cs) names)) (cols df)).

(** [df.drop(columns=names)]: every label has to be there. *)
Definition df_drop (df : DataFrame) (names : list string) : result DataFrame :=
  match find (fun c => negb (has_col df c)) names with
  | Some c => Err (KeyError c)
  | None => Ok (df_remove names df)
  end.

(** [df.iloc[idxs]]: the rows at the given positions, in that order. *)
Definition iloc (idxs : list nat) (s : Series) : Series :=
  mkSeries (is_datetime64 s) (map (fun i => nth i s VNaN) idxs).

Definition df_iloc (idxs : list nat) (df : DataFrame) : DataFrame :=
  mkDataFrame (length idxs) (map (fun cs => (fst cs, iloc idxs (snd cs))) (cols df)).

(** Positions of the [true] entries of a boolean mask. *)
Fixpoint mask_positions (i : nat) (mask : list bool) : list nat :=
  match mask with
  | [] => []
  | b :: mask' =>
      if b then i :: mask_positions (S i) mask' else mask_positions (S i) mask'
  end.

(** ** Column operations *)

(** A cell of a datetime64 column: a timestamp, or [None] for NaT.  Such a
    column holds no other cell; the last case only makes the function
    total. *)
Definition as_datetime (v : value) : result (option Z) :=
  match v with
  | VTimestamp t => Ok (Some t)
  | VNaN => Ok None
  | _ => Err AttributeError
  end.

(** [s.dt]: the accessor exists on datetime64 columns only, whatever the
    cells are and also when there are none. *)
Definition dt (s : Series) : result (list (option Z)) :=
  if is_datetime64 s then traverse as_datetime s else Err AttributeError.

Definition is_NaT (t : option Z) : bool :=
  match t with Some _ => false | None => true end.

(** A whole-number field of [s.dt]: integer cells, or, when some cell is
    NaT, float cells with NaN for NaT. *)
Definition dt_field (f : Z -> Z) (s : Series) : result Series :=
  let? ts := dt s in
  Ok (series
        (if existsb is_NaT ts
         then map (fun t => match t with
                            | Some t => VFloat (inject_Z (f t))
                            | None => VNaN
                            end) ts
         else map (fun t => match t with
                            | Some t => VInt (f t)
                            | None => VNaN
                            end) ts)).

Definition dt_year := dt_field Calendar.year.
Definition dt_month := dt_field Calendar.month.
Definition dt_day := dt_field Calendar.day.
Definition dt_weekday := dt_field Calendar.weekday.
Definition dt_hour := dt_field Calendar.hour.

(** [s.dt.floor("D")]: a datetime64 column again, NaT stays NaT. *)
Definition dt_floor_D (s : Series) : result Series :=
  let? ts := dt s in
  Ok (mkSeries true
        (map (fun t => match t with
                       | Some t => VTimestamp (Calendar.floor_D t)
                       | None => VNaN
                       end) ts)).

(** [Series.apply(f)] for an [f] that returns numbers: the first failing
    call raises. *)
Definition apply (f : value -> result value) (s : list value) : result Series :=
  let? l := traverse f s in Ok (series l).

(** Equality of two cells, as [isin], [groupby] and [merge] compare them. *)
Definition value_eqb (a b : value) : bool :=
  match a, b with
  | VTimestamp x, VTimestamp y => Z.eqb x y
  | VInt x, VInt y => Z.eqb x y
  | VFloat x, VFloat y => Qeq_bool x y
  | VInt x, VFloat y => Qeq_bool (inject_Z x) y
  | VFloat x, VInt y => Qeq_bool x (inject_Z y)
  | VStr x, VStr y => String.eqb x y
  | VNaN, VNaN => true
  | VTrig f x p, VTrig g y q =>
      match f, g with Sin, Sin | Cos, Cos => true | _, _ => false end
      && Qeq_bool x y && Z.eqb p q
  | _, _ => false
  end.

(** [s.isin(values)] *)
Definition isin (s : list value) (values : list value) : list bool :=
  map (fun v => existsb (value_eqb v) values) s.

(** [mask.astype(int)] *)
Definition astype_int (mask : list bool) : Series :=
  series (map (fun b : bool => VInt (if b then 1 else 0)%Z) mask).

(** The number in a numeric cell; [None] is NaN. *)
Definition num_of (v : value) : result (option Q) :=
  match v with
  | VInt n => Ok (Some (inject_Z n))
  | VFloat q => Ok (Some q)
  | VNaN => Ok None
  | _ => Err TypeError
  end.

Definition Qlt_bool (a b : Q) : bool := negb (Qle_bool b a).

(** [s > c] and [s < c]: a comparison with NaN is false. *)
Definition gt_scalar (s : list value) (c : Q) : result (list bool) :=
  let? ns := traverse num_of s in
  Ok (map (fun n => match n with Some q => Qlt_bool c q | None => false end) ns).

Definition lt_scalar (s : list value) (c : Q) : result (list bool) :=
  let? ns := traverse num_of s in
  Ok (map (fun n => match n with Some q => Qlt_bool q c | None => false end) ns).

Definition eq_scalar (s : list value) (c : Q) : result (list bool) :=
  let? ns := traverse num_of s in
  Ok (map (fun n => match n with Some q => Qeq_bool q c | None => false end) ns).

(** [np.select(condlist, choicelist, default)] over [n] rows: the first
    condition that holds picks the choice. *)
Fixpoint np_select (n : nat) (condlist : list (list bool)) (choicelist : list value)
    (default : value) : list value :=
  match condlist, choicelist with
  | c :: condlist', v :: choicelist' =>
      zip_with (fun (b : bool) rest => if b then v else rest) c
        (np_select n condlist' choicelist' default)
  | _, _ => repeat default n
  end.

(** [f(2 * np.pi * s / period)] *)
Definition np_trig (f : trig) (s : list value) (period : Z) : result Series :=
  let? ns := traverse num_of s in
  Ok (series
        (map (fun n => match n with Some q => VTrig f q period | None => VNaN end) ns)).

(** *** [pd.cut] with a list of bin edges, [right=True] *)

Inductive edge := Edge (q : Q) | PosInf.

Definition edge_lt (e : edge) (x : Q) : bool :=
  match e with
  | Edge q => Qlt_bool q x
  | PosInf => false
  end.

(** [bins.searchsorted(x, side="left")]: how many edges lie strictly below. *)
Fixpoint searchsorted_left (bins : list edge) (x : Q) : nat :=
  match bins with
  | [] => 0
  | e :: bins' => if edge_lt e x then S (searchsorted_left bins' x) else 0
  end.

Definition cut_value (bins : list edge) (labels : list string) (v : option Q) : value :=
  match v with
  | None => VNaN
  | Some x =>
      let i := searchsorted_left bins x in
      if Nat.eqb i 0 || Nat.eqb i (length bins) then VNaN
      else match nth_error labels (i - 1) with
           | Some l => VStr l
           | None => VNaN
           end
  end.

Definition pd_cut (s : list value) (bins : list edge) (labels : list string)
  : result Series :=
  let? ns := traverse num_of s in
  Ok (series (map (cut_value bins labels) ns)).

(** ** The store of frames

    A Python variable holds a reference to a frame.  Assigning a column
    changes the frame behind the reference, for everyone who holds it;
    [drop] and [merge] return a reference to a new frame. *)

Abbreviation ref := nat.
Abbreviation store := (list DataFrame).

(** A computation runs on a store and leaves a store behind, also when it
    raises. *)
Definition M (A : Type) : Type := store -> result A * store.

Definition ret {A} (a : A) : M A := fun h => (Ok a, h).

Definition bind {A B} (m : M A) (k : A -> M B) : M B :=
  fun h =>
    match m h with
    | (Ok a, h') => k a h'
    | (Err e, h') => (Err e, h')
    end.

Notation "x <- m ;; k" := (bind m (fun x => k))
  (at level 20, m at level 99, k at level 200, only parsing).
Notation "m ;; k" := (bind m (fun _ => k))
  (at level 100, k at level 200, only parsing, right associativity).

Definition lift {A} (r : result A) : M A := fun h => (r, h).

(** The frame behind a reference.  Python code holds no reference that
    names no frame; the error case only makes the function total. *)
Definition deref (x : ref) : M DataFrame :=
  fun h =>
    match h !! x with
    | Some df => (Ok df, h)
    | None => (Err ValueError, h)
    end.

Definition new_frame (df : DataFrame) : M ref :=
  fun h => (Ok (length h), h ++ [df]).

(** [X[c]] *)
Definition getitem (x : ref) (c : string) : M Series :=
  df <- deref x ;; lift (df_get df c).

(** [X[c] = s]: the column [c] is replaced by [s], or added. *)
Definition setitem (x : ref) (c : string) (s : Series) : M unit :=
  df <- deref x ;;
  df' <- lift (df_set df c s) ;;
  fun h => (Ok tt, <[x := df']> h).

(** [X.loc[:, c] = s]: on a frame that has no column [c] yet this is
    [X[c] = s].  Into a column that is there already pandas writes the cells
    and keeps the dtype of the column where it can; this is read as a
    replacement all the same, so that of such a frame the model gives the
    cells, not the dtype they end up with. *)
Definition loc_setitem (x : ref) (c : string) (s : Series) : M unit :=
  setitem x c s.

(** [X.drop(columns=names)] *)
Definition drop_columns (x : ref) (names : list string) : M ref :=
  df <- deref x ;;
  df' <- lift (df_drop df names) ;;
  new_frame df'.

(** ** The functions of [preprocess_FE.py] *)

(** [pd.to_datetime(dates)] on calendar dates: the midnight of each. *)
Definition pd_to_datetime (dates : list (Z * Z * Z)) : list value :=
  map (fun d : Z * Z * Z =>
         let '(y, m, dd) := d in VTimestamp (Calendar.Timestamp y m dd 0 0 0))
    dates.


Definition get_public_holidays (for_year : Z -> list (Z * Z * Z)) : list value :=
  pd_to_datetime (for_year 2020%Z ++ for_year 2021%Z).

Definition curfews : list (string * string * Z * Z) :=
  [ ("2020-10-17", "2020-10-29", 21, 6);
    ("2021-01-16", "2021-03-20", 18, 6);
    ("2021-03-21", "2021-05-19", 19, 6);
    ("2021-05-20", "2021-06-09", 21, 6);
    ("2021-06-10", "2021-06-20", 23, 6) ]%Z.

(** [pd.Timestamp(s)] for a date string. *)
Definition pd_Timestamp (s : string) : result Z :=
  match Calendar.parse_date s with
  | Some t => Ok t
  | None => Err ValueError
  end.

(** The loop of [is_curfew] over a table of windows. *)
Fixpoint is_curfew_in (table : list (string * string * Z * Z)) (timestamp : Z)
  : result Z :=
  match table with
  | [] => Ok 0%Z
  | (start_date, end_date, start_hour, end_hour) :: table' =>
      let? start := pd_Timestamp start_date in
      let? end_ := pd_Timestamp end_date in
      if (start <=? timestamp)%Z && (timestamp <=? end_)%Z then
        let hour := Calendar.hour timestamp in
        if (start_hour <=? hour)%Z || (hour <? end_hour)%Z then Ok 1%Z
        else is_curfew_in table' timestamp
      else is_curfew_in table' timestamp
  end.

Definition is_curfew (timestamp : Z) : result Z := is_curfew_in curfews timestamp.

(** [is_curfew] as [apply] calls it on a cell of a column that is datetime64
    or not.  Every comparison with NaT is false, so that no window matches
    it; a comparison of a timestamp with a number or a string raises. *)
Definition is_curfew_cell (datetime64 : bool) (v : value) : result value :=
  match v with
  | VTimestamp t => let? r := is_curfew t in Ok (VInt r)
  | VNaN => if datetime64 then Ok (VInt 0) else Err TypeError
  | _ => Err TypeError
  end.

Definition curfew_periods (df : ref) (date_column : string) : M ref :=
  d <- getitem df date_column ;;
  c <- lift (apply (is_curfew_cell (is_datetime64 d)) d) ;;
  setitem df "curfew" c ;;
  ret df.

Definition create_cyclical_features (data : ref) (column : string) (period : Z)
  : M ref :=
  c <- getitem data column ;;
  s <- lift (np_trig Sin c period) ;;
  setitem data ("sin_" ++ column) s ;;
  c <- getitem data column ;;
  s <- lift (np_trig Cos c period) ;;
  setitem data ("cos_" ++ column) s ;;
  drop_columns data [column].

Definition add_basic_date_features (X : ref) : M ref :=
  d <- getitem X "date_x" ;; s <- lift (dt_year d) ;; loc_setitem X "year" s ;;
  d <- getitem X "date_x" ;; s <- lift (dt_month d) ;; loc_setitem X "month" s ;;
  d <- getitem X "date_x" ;; s <- lift (dt_day d) ;; loc_setitem X "day" s ;;
  d <- getitem X "date_x" ;; s <- lift (dt_weekday d) ;; loc_setitem X "weekday" s ;;
  d <- getitem X "date_x" ;; s <- lift (dt_hour d) ;; loc_setitem X "hour" s ;;
  ret X.

Definition seasons : list value :=
  [VStr "Winter"; VStr "Spring"; VStr "Summer"; VStr "Fall"].

Definition add_season_feature (X : ref) : M ref :=
  m1 <- getitem X "month" ;;
  m2 <- getitem X "month" ;;
  m3 <- getitem X "month" ;;
  m4 <- getitem X "month" ;;
  let conditions :=
    [ isin m1 [VInt 12; VInt 1; VInt 2];
      isin m2 [VInt 3; VInt 4; VInt 5];
      isin m3 [VInt 6; VInt 7; VInt 8];
      isin m4 [VInt 9; VInt 10; VInt 11] ] in
  loc_setitem X "season"
    (series (np_select (length m1) conditions seasons (VStr "Unknown"))) ;;
  ret X.

(** [lambda x: 1 if (6 <= x < 9 or 16 <= x < 19) else 0] *)
Definition peak_lambda (x : value) : result value :=
  let? n := num_of x in
  Ok (VInt match n with
           | Some q =>
               if (Qle_bool 6 q && Qlt_bool q 9) || (Qle_bool 16 q && Qlt_bool q 19)
               then 1 else 0
           | None => 0
           end).

Definition add_indicator_features (X : ref) (school_holidays public_holidays : list value)
  : M ref :=
  d <- getitem X "date_x" ;;
  setitem X "school_holiday" (astype_int (isin d school_holidays)) ;;
  d <- getitem X "date_x" ;;
  setitem X "public_holiday" (astype_int (isin d public_holidays)) ;;
  h <- getitem X "hour" ;;
  p <- lift (apply peak_lambda h) ;;
  setitem X "is_peak" p ;;
  ret X.

Definition encode_dates (X : ref) (school_holidays public_holidays : list value)
  : M ref :=
  X <- add_basic_date_features X ;;
  X <- add_season_feature X ;;
  X <- add_indicator_features X school_holidays public_holidays ;;
  X <- create_cyclical_features X "hour" 24 ;;
  X <- create_cyclical_features X "month" 12 ;;
  X <- curfew_periods X "date_x" ;;
  drop_columns X ["date_x"].

Definition rain_bins : list edge := [Edge (-1); Edge 0; Edge 2; Edge 10; PosInf].
Definition rain_labels : list string :=
  ["No Rain"; "Light Rain"; "Moderate Rain"; "Heavy Rain"].

Definition categorize_weather (data : ref) : M ref :=
  r <- getitem data "rr1" ;;
  c <- lift (pd_cut r rain_bins rain_labels) ;;
  setitem data "rain_category" c ;;
  ret data.

Definition add_weather_indicators (data : ref) : M ref :=
  t <- getitem data "t" ;; b <- lift (gt_scalar t 300) ;;
  setitem data "is_hot_day" (astype_int b) ;;
  t <- getitem data "t" ;; b <- lift (lt_scalar t 283) ;;
  setitem data "is_cold_day" (astype_int b) ;;
  f <- getitem data "ff" ;; b <- lift (gt_scalar f 5) ;;
  setitem data "high_wind" (astype_int b) ;;
  ret data.

Definition engineer_weather_features (data : ref) : M ref :=
  data <- categorize_weather data ;;
  data <- add_weather_indicators data ;;
  ret data.

(** ** Grouping and merging, for [delete_zeros] *)

(** The key of a row: its cells in the key columns. *)
Abbreviation key := (list value).

Definition row_key (ks : list Series) (i : nat) : key :=
  map (fun s : Series => nth i s VNaN) ks.

Definition row_keys (ks : list Series) (n : nat) : list key :=
  map (row_key ks) (seq 0 n).

Fixpoint key_eqb (a b : key) : bool :=
  match a, b with
  | [], [] => true
  | x :: a', y :: b' => value_eqb x y && key_eqb a' b'
  | _, _ => false
  end.

Definition is_nan (v : value) : bool :=
  match v with VNaN => true | _ => false end.

(** The order in which keys are sorted; a column of this program holds
    cells of one kind, cells of different kinds are ordered by kind. *)
Definition kind_rank (v : value) : Z :=
  match v with
  | VInt _ | VFloat _ => 0
  | VTimestamp _ => 1
  | VStr _ => 2
  | VTrig _ _ _ => 3
  | VNaN => 4
  end.

Definition value_compare (a b : value) : comparison :=
  match a, b with
  | VTimestamp x, VTimestamp y => Z.compare x y
  | VInt x, VInt y => Z.compare x y
  | VFloat x, VFloat y => Qcompare x y
  | VInt x, VFloat y => Qcompare (inject_Z x) y
  | VFloat x, VInt y => Qcompare x (inject_Z y)
  | VStr x, VStr y => String.compare x y
  | _, _ => Z.compare (kind_rank a) (kind_rank b)
  end.

Fixpoint key_compare (a b : key) : comparison :=
  match a, b with
  | [], [] => Eq
  | [], _ :: _ => Lt
  | _ :: _, [] => Gt
  | x :: a', y :: b' =>
      match value_compare x y with
      | Eq => key_compare a' b'
      | c => c
      end
  end.

Definition key_leb (a b : key) : bool :=
  match key_compare a b with Gt => false | _ => true end.

(** A stable sort. *)
Fixpoint insert_by {A} (leb : A -> A -> bool) (x : A) (l : list A) : list A :=
  match l with
  | [] => [x]
  | y :: l' => if leb x y then x :: l else y :: insert_by leb x l'
  end.

Definition sort_by {A} (leb : A -> A -> bool) (l : list A) : list A :=
  fold_right (insert_by leb) [] l.

(** The distinct keys of a list. *)
Fixpoint distinct_keys (ks : list key) : list key :=
  match ks with
  | [] => []
  | k :: ks' =>
      if existsb (key_eqb k) ks' then distinct_keys ks' else k :: distinct_keys ks'
  end.

(** The sum of the numbers in the rows of key [g]; a NaN is skipped.  The
    sum is exact: the rounding of a float sum and the wrap-around of an
    int64 sum are not modelled. *)
Definition group_sum (keys : list key) (nums : list (option Q)) (g : key) : Q :=
  fold_right Qplus 0%Q
    (map (fun kn => match snd kn with Some q => q | None => 0%Q end)
       (List.filter (fun kn => key_eqb (fst kn) g) (combine keys nums))).

(** The key columns of a frame with one row per key; each has the dtype of
    the column it comes from. *)
Definition key_cols (by_ : list string) (ks : list Series) (groups : list key)
  : list (string * Series) :=
  imap (fun p (nk : string * Series) =>
          (fst nk,
           mkSeries (is_datetime64 (snd nk)) (map (fun g : key => nth p g VNaN) groups)))
    (combine by_ ks).

(** [df.groupby(by, observed=False)[c].sum().reset_index()]: one row per
    key, keys sorted, rows with a missing key left out.  The key columns
    hold plain cells here; on a categorical column [observed=False] adds a
    group of sum 0 for each pair of a category and a day that has no row,
    which [merge_outer_indicator] below turns into a [right_only] row. *)
Definition groupby_sum (df : DataFrame) (by_ : list string) (c : string)
  : result DataFrame :=
  let? ks := traverse (df_get df) by_ in
  let? vs := df_get df c in
  let? nums := traverse num_of vs in
  let keys := row_keys ks (nrows df) in
  let groups :=
    sort_by key_leb
      (distinct_keys (List.filter (fun k => negb (existsb is_nan k)) keys)) in
  Ok (mkDataFrame (length groups)
        (key_cols by_ ks groups
         ++ [(c, series (map (fun g => VFloat (group_sum keys nums g)) groups))])).

(** [df.loc[mask, names]] *)
Definition loc_mask (df : DataFrame) (mask : list bool) (names : list string)
  : result DataFrame :=
  let? ss := traverse (fun n => let? s := df_get df n in Ok (n, s)) names in
  Ok (df_iloc (mask_positions 0 mask) (mkDataFrame (nrows df) ss)).

(** A row of an outer merge: the left row and the right row it comes from,
    and its key. *)
Definition merged_row : Type := option nat * option nat * key.

Definition merged_key (e : merged_row) : key := snd e.

Definition left_rows (rkeys : list key) (ik : nat * key) : list merged_row :=
  let (i, k) := ik in
  match mask_positions 0 (map (key_eqb k) rkeys) with
  | [] => [(Some i, None, k)]
  | js => map (fun j => (Some i, Some j, k)) js
  end.

Definition right_only_rows (lkeys : list key) (jk : nat * key) : list merged_row :=
  let (j, k) := jk in
  if existsb (fun l => key_eqb l k) lkeys then [] else [(None, Some j, k)].

Definition enumerate {A} (l : list A) : list (nat * A) := combine (seq 0 (length l)) l.

(** The rows of [left.merge(right, on=..., how="outer")], ordered by key. *)
Definition merged_rows (lkeys rkeys : list key) : list merged_row :=
  sort_by (fun a b => key_leb (merged_key a) (merged_key b))
    (flat_map (left_rows rkeys) (enumerate lkeys)
     ++ flat_map (right_only_rows lkeys) (enumerate rkeys)).

Definition indicator (e : merged_row) : value :=
  match e with
  | (Some _, None, _) => VStr "left_only"
  | (None, Some _, _) => VStr "right_only"
  | _ => VStr "both"
  end.

(** Position of a name in a list of names. *)
Fixpoint index_of (c : string) (l : list string) : option nat :=
  match l with
  | [] => None
  | c' :: l' => if String.eqb c c' then Some 0 else option_map S (index_of c l')
  end.

(** The cell of a left column in a merged row: the left row's cell, or for
    a row of the right frame alone its key in a key column and NaN elsewhere. *)
Definition left_cell (on : list string) (name : string) (s : list value) (e : merged_row)
  : value :=
  match e with
  | (Some i, _, _) => nth i s VNaN
  | (None, _, k) =>
      match index_of name on with
      | Some p => nth p k VNaN
      | None => VNaN
      end
  end.

Definition right_cell (s : list value) (e : merged_row) : value :=
  match e with
  | (_, Some j, _) => nth j s VNaN
  | (_, None, _) => VNaN
  end.

(** [left.merge(right, on=on, how="outer", indicator=True)]: the columns of
    the left frame, the columns of the right frame that are not keys, and
    [_merge], which no frame may have already.  A datetime64 column stays
    one. *)
Definition merge_outer_indicator (left right : DataFrame) (on : list string)
  : result DataFrame :=
  if has_col left "_merge" || has_col right "_merge" then Err ValueError else
  let? lks := traverse (df_get left) on in
  let? rks := traverse (df_get right) on in
  let es := merged_rows (row_keys lks (nrows left)) (row_keys rks (nrows right)) in
  Ok (mkDataFrame (length es)
        (map (fun cs : string * Series =>
                (fst cs,
                 mkSeries (is_datetime64 (snd cs))
                   (map (left_cell on (fst cs) (snd cs)) es)))
           (cols left)
         ++ map (fun cs : string * Series =>
                   (fst cs,
                    mkSeries (is_datetime64 (snd cs)) (map (right_cell (snd cs)) es)))
              (List.filter (fun cs => negb (mem_string (fst cs) on)) (cols right))
         ++ [("_merge", series (map indicator es))])).

(** [df.query("c == 'lit'")] *)
Definition query_eq (df : DataFrame) (c lit : string) : result DataFrame :=
  let? s := df_get df c in
  Ok (df_iloc (mask_positions 0 (map (fun v => value_eqb v (VStr lit)) s)) df).

Definition delete_zeros (data : ref) : M ref :=
  d <- getitem data "date" ;;
  f <- lift (dt_floor_D d) ;;
  setitem data "truncated_date" f ;;
  df <- deref data ;;
  sums <- lift (groupby_sum df ["counter_name"; "truncated_date"] "log_bike_count") ;;
  s <- lift (df_get sums "log_bike_count") ;;
  zero <- lift (eq_scalar s 0) ;;
  zero_count_days <- lift (loc_mask sums zero ["counter_name"; "truncated_date"]) ;;
  df <- deref data ;;
  merged <- lift (merge_outer_indicator df zero_count_days
                    ["counter_name"; "truncated_date"]) ;;
  kept <- lift (query_eq merged "_merge" "left_only") ;;
  cleaned <- lift (df_drop kept ["_merge"; "truncated_date"]) ;;
  new_frame cleaned.

(** ** Effects of a computation on the store *)

(** [runs m x df a df']: on a store where [x] names [df], [m] returns [a]
    and leaves [df'] behind [x], nothing else changed. *)
Definition runs {A} (m : M A) (x : ref) (df : DataFrame) (a : A) (df' : DataFrame) : Prop :=
  forall h : store, h !! x = Some df -> m h = (Ok a, <[x := df']> h).

(** [allocates m x df df' new]: as [runs], and [m] returns a reference to
    the new frame [new]. *)
Definition allocates (m : M ref) (x : ref) (df df' new : DataFrame) : Prop :=
  forall h : store, h !! x = Some df -> m h = (Ok (length h), <[x := df']> h ++ [new]).


(** ** What the functions compute, cell by cell and frame by frame *)

(** A datetime64 column without NaT. *)
Definition timestamps (ts : list Z) : Series := mkSeries true (map VTimestamp ts).

(** The curfew table with its dates read: midnight of the start date,
    midnight of the end date, start hour, end hour. *)
Definition read_window (w : string * string * Z * Z) : result (Z * Z * Z * Z) :=
  let '(start_date, end_date, start_hour, end_hour) := w in
  let? start := pd_Timestamp start_date in
  let? end_ := pd_Timestamp end_date in
  Ok (start, end_, start_hour, end_hour).

Definition window_matches (t : Z) (w : Z * Z * Z * Z) : bool :=
  let '(start, end_, start_hour, end_hour) := w in
  ((start <=? t)%Z && (t <=? end_)%Z)
  && ((start_hour <=? Calendar.hour t)%Z || (Calendar.hour t <? end_hour)%Z).

Definition curfew_flag (ws : list (Z * Z * Z * Z)) (t : Z) : Z :=
  if existsb (window_matches t) ws then 1%Z else 0%Z.

Definition windows : list (Z * Z * Z * Z) :=
  [ (Calendar.Timestamp 2020 10 17 0 0 0, Calendar.Timestamp 2020 10 29 0 0 0, 21, 6);
    (Calendar.Timestamp 2021 1 16 0 0 0, Calendar.Timestamp 2021 3 20 0 0 0, 18, 6);
    (Calendar.Timestamp 2021 3 21 0 0 0, Calendar.Timestamp 2021 5 19 0 0 0, 19, 6);
    (Calendar.Timestamp 2021 5 20 0 0 0, Calendar.Timestamp 2021 6 9 0 0 0, 21, 6);
    (Calendar.Timestamp 2021 6 10 0 0 0, Calendar.Timestamp 2021 6 20 0 0 0, 23, 6) ]%Z.

(** The season picked for a month cell. *)
Definition season_cell (m : value) : value :=
  if existsb (value_eqb m) [VInt 12; VInt 1; VInt 2] then VStr "Winter"
  else if existsb (value_eqb m) [VInt 3; VInt 4; VInt 5] then VStr "Spring"
  else if existsb (value_eqb m) [VInt 6; VInt 7; VInt 8] then VStr "Summer"
  else if existsb (value_eqb m) [VInt 9; VInt 10; VInt 11] then VStr "Fall"
  else VStr "Unknown".

(** The peak flag of a whole hour. *)
Definition peak_flag (h : Z) : Z :=
  if ((6 <=? h)%Z && (h <? 9)%Z) || ((16 <=? h)%Z && (h <? 19)%Z) then 1%Z else 0%Z.

Definition basic_dates_frame (ts : list Z) (df : DataFrame) : DataFrame :=
  df_assign (df_assign (df_assign (df_assign (df_assign df
    "year" (series (map (fun t => VInt (Calendar.year t)) ts)))
    "month" (series (map (fun t => VInt (Calendar.month t)) ts)))
    "day" (series (map (fun t => VInt (Calendar.day t)) ts)))
    "weekday" (series (map (fun t => VInt (Calendar.weekday t)) ts)))
    "hour" (series (map (fun t => VInt (Calendar.hour t)) ts)).

Definition season_frame (months : list value) (df : DataFrame) : DataFrame :=
  df_assign df "season" (series (map season_cell months)).

Definition indicator_frame (d : list value) (school_holidays public_holidays : list value)
    (peaks : Series) (df : DataFrame) : DataFrame :=
  df_assign (df_assign (df_assign df
    "school_holiday" (astype_int (isin d school_holidays)))
    "public_holiday" (astype_int (isin d public_holidays)))
    "is_peak" peaks.

Definition cyclical_frame (column : string) (period : Z) (xs : list Z) (df : DataFrame)
  : DataFrame :=
  df_assign (df_assign df
    ("sin_" ++ column) (series (map (fun x => VTrig Sin (inject_Z x) period) xs)))
    ("cos_" ++ column) (series (map (fun x => VTrig Cos (inject_Z x) period) xs)).

Definition curfew_frame (ts : list Z) (df : DataFrame) : DataFrame :=
  df_assign df "curfew" (series (map (fun t => VInt (curfew_flag windows t)) ts)).

(** The four frames [encode_dates] leaves in the store: the caller's frame
    as the steps up to the first [drop] change it, the two frames in
    between, and the result. *)
Definition encode_dates_input (ts : list Z) (sh ph : list value) (df : DataFrame)
  : DataFrame :=
  cyclical_frame "hour" 24 (map Calendar.hour ts)
    (indicator_frame (timestamps ts) sh ph
       (series (map (fun t => VInt (peak_flag (Calendar.hour t))) ts))
       (season_frame (map (fun t => VInt (Calendar.month t)) ts)
          (basic_dates_frame ts df))).

Definition encode_dates_second (ts : list Z) (sh ph : list value) (df : DataFrame)
  : DataFrame :=
  cyclical_frame "month" 12 (map Calendar.month ts)
    (df_remove ["hour"] (encode_dates_input ts sh ph df)).

Definition encode_dates_third (ts : list Z) (sh ph : list value) (df : DataFrame)
  : DataFrame :=
  curfew_frame ts (df_remove ["month"] (encode_dates_second ts sh ph df)).

Definition encode_dates_result (ts : list Z) (sh ph : list value) (df : DataFrame)
  : DataFrame :=
  df_remove ["date_x"] (encode_dates_third ts sh ph df).

(** *** Date columns with missing dates

    The same frames for a datetime64 column in which some dates are NaT,
    [None] here. *)
Definition datetime_cell (d : option Z) : value :=
  match d with Some t => VTimestamp t | None => VNaN end.

Definition datetimes (ds : list (option Z)) : Series :=
  mkSeries true (map datetime_cell ds).

(** A whole-number field: integers, or floats with NaN as soon as a date is
    missing. *)
Definition field_cell (missing : bool) (f : Z -> Z) (d : option Z) : value :=
  match d with
  | Some t => if missing then VFloat (inject_Z (f t)) else VInt (f t)
  | None => VNaN
  end.

Definition field_cells (f : Z -> Z) (ds : list (option Z)) : Series :=
  series (map (field_cell (existsb is_NaT ds) f) ds).

Definition field_number (f : Z -> Z) (d : option Z) : option Q :=
  option_map (fun t => inject_Z (f t)) d.

Definition peak_cell (d : option Z) : value :=
  VInt (match d with Some t => peak_flag (Calendar.hour t) | None => 0%Z end).

Definition trig_cell (f : trig) (period : Z) (n : option Q) : value :=
  match n with Some q => VTrig f q period | None => VNaN end.

Definition curfew_cell (d : option Z) : value :=
  VInt (match d with Some t => curfew_flag windows t | None => 0%Z end).

Definition fields_frame (ds : list (option Z)) (df : DataFrame) : DataFrame :=
  df_assign (df_assign (df_assign (df_assign (df_assign df
    "year" (field_cells Calendar.year ds))
    "month" (field_cells Calendar.month ds))
    "day" (field_cells Calendar.day ds))
    "weekday" (field_cells Calendar.weekday ds))
    "hour" (field_cells Calendar.hour ds).

Definition trig_frame (column : string) (period : Z) (ns : list (option Q))
    (df : DataFrame) : DataFrame :=
  df_assign (df_assign df
    ("sin_" ++ column) (series (map (trig_cell Sin period) ns)))
    ("cos_" ++ column) (series (map (trig_cell Cos period) ns)).

Definition dated_input (ds : list (option Z)) (sh ph : list value) (df : DataFrame)
  : DataFrame :=
  trig_frame "hour" 24 (map (field_number Calendar.hour) ds)
    (indicator_frame (datetimes ds) sh ph (series (map peak_cell ds))
       (season_frame (field_cells Calendar.month ds) (fields_frame ds df))).

Definition dated_second (ds : list (option Z)) (sh ph : list value) (df : DataFrame)
  : DataFrame :=
  trig_frame "month" 12 (map (field_number Calendar.month) ds)
    (df_remove ["hour"] (dated_input ds sh ph df)).

Definition dated_third (ds : list (option Z)) (sh ph : list value) (df : DataFrame)
  : DataFrame :=
  df_assign (df_remove ["month"] (dated_second ds sh ph df))
    "curfew" (series (map curfew_cell ds)).

Definition dated_result (ds : list (option Z)) (sh ph : list value) (df : DataFrame)
  : DataFrame :=
  df_remove ["date_x"] (dated_third ds sh ph df).

(** The frame [engineer_weather_features] makes of its argument, from the
    numbers in the columns [rr1], [t] and [ff]. *)
Definition flag_of (p : Q -> bool) (n : option Q) : bool :=
  match n with Some q => p q | None => false end.

Definition categorized_frame (rr : list (option Q)) (df : DataFrame) : DataFrame :=
  df_assign df "rain_category" (series (map (cut_value rain_bins rain_labels) rr)).

Definition weather_indicator_frame (t ff : list (option Q)) (df : DataFrame) : DataFrame :=
  df_assign (df_assign (df_assign df
    "is_hot_day" (astype_int (map (flag_of (fun q => Qlt_bool 300 q)) t)))
    "is_cold_day" (astype_int (map (flag_of (fun q => Qlt_bool q 283)) t)))
    "high_wind" (astype_int (map (flag_of (fun q => Qlt_bool 5 q)) ff)).

Definition weather_frame (rr t ff : list (option Q)) (df : DataFrame) : DataFrame :=
  weather_indicator_frame t ff (categorized_frame rr df).

(** The pieces of [delete_zeros]: the day of each row, the keys whose sum
    is zero, and the rows the merge marks [left_only]. *)
Definition truncated (ds : list Z) : Series :=
  mkSeries true (map (fun t => VTimestamp (Calendar.floor_D t)) ds).

Definition zero_groups (keys : list key) (nums : list (option Q)) : list key :=
  List.filter (fun g => Qeq_bool (group_sum keys nums g) 0)
    (sort_by key_leb
       (distinct_keys (List.filter (fun k => negb (existsb is_nan k)) keys))).

Definition is_left_only (e : merged_row) : bool :=
  value_eqb (indicator e) (VStr "left_only").

Definition left_only_rows (es : list merged_row) : list nat :=
  flat_map (fun e : merged_row =>
              match e with
              | (Some i, None, _) => [i]
              | _ => []
              end) es.

Definition surviving_rows (keys : list key) (nums : list (option Q)) : list nat :=
  left_only_rows (merged_rows keys (zero_groups keys nums)).

(** The rows of the left frame that match no key on the right. *)
Definition unmatched (lkeys rkeys : list key) : list nat :=
  flat_map (fun ik : nat * key =>
              if existsb (key_eqb (snd ik)) rkeys then [] else [fst ik])
    (enumerate lkeys).

(** Rows [i] and [j] are readings of the same sensor on the same calendar
    day. *)
Definition same_sensor_day (names : list value) (ds : list Z) (i j : nat) : Prop :=
  value_eqb (nth i names VNaN) (nth j names VNaN) = true
  /\ Calendar.floor_D (nth i ds 0%Z) = Calendar.floor_D (nth j ds 0%Z).

(** A count reading that is a number and not negative. *)
Definition nonnegative_reading (n : option Q) : Prop :=
  exists q, n = Some q /\ (0 <= q)%Q.

(** ** Frames and stores to run the code on *)

Definition example_hours : DataFrame :=
  mkDataFrame 2 [("date_x", series [VNaN; VNaN]); ("hour", series (map VInt [7; 12]%Z))].

Definition example_months : DataFrame :=
  mkDataFrame 3 [("month", series (map VInt [1; 7; 13]%Z))].

Definition example_rain : DataFrame :=
  mkDataFrame 4 [("rr1", series (map VFloat [0; 2; 10; 100001 # 10000]%Q))].

(** Four readings of two sensors with all the documented columns: sensor A
    has a reading above zero on 20 October and none on 21 October, sensor B
    has none. *)
Definition example_dates : list Z :=
  [ Calendar.Timestamp 2020 10 20 22 0 0; Calendar.Timestamp 2020 10 20 10 0 0;
    Calendar.Timestamp 2020 10 21 8 0 0; Calendar.Timestamp 2020 10 20 8 0 0 ].

Definition example_table : DataFrame :=
  mkDataFrame 4
    [ ("counter_name", series [VStr "A"; VStr "A"; VStr "A"; VStr "B"]);
      ("date", timestamps example_dates);
      ("date_x", timestamps example_dates);
      ("log_bike_count", series (map VFloat [0; 3 # 2; 0; 0]%Q));
      ("t", series (map VFloat [285; 301; 280; 290]%Q));
      ("rr1", series (map VFloat [0; 2; 10; 100001 # 10000]%Q));
      ("ff", series (map VFloat [3; 6; 5; 0]%Q)) ].

(** One sensor, one day, two readings that cancel. *)
Definition cancelling_table : DataFrame :=
  mkDataFrame 2
    [ ("counter_name", series [VStr "A"; VStr "A"]);
      ("date", timestamps [ Calendar.Timestamp 2020 10 20 8 0 0;
                            Calendar.Timestamp 2020 10 20 9 0 0 ]);
      ("log_bike_count", series (map VFloat [1; -1]%Q)) ].

(** The documented columns and no row: the two date columns are datetime64,
    as in a frame cut down to no rows. *)
Definition empty_table : DataFrame :=
  mkDataFrame 0
    [ ("counter_name", series []); ("date", timestamps []); ("date_x", timestamps []);
      ("log_bike_count", series []); ("t", series []); ("rr1", series []);
      ("ff", series []) ].

(** The documented names and no row, as [pd.DataFrame(columns=[...])] makes
    it: no column is datetime64. *)
Definition untyped_empty_table : DataFrame :=
  mkDataFrame 0
    [ ("counter_name", series []); ("date", series []); ("date_x", series []);
      ("log_bike_count", series []); ("t", series []); ("rr1", series []);
      ("ff", series []) ].

(** A calendar with Christmas 2020 in it, and a reading of that morning. *)
Definition christmas_calendar (year : Z) : list (Z * Z * Z) :=
  if (year =? 2020)%Z then [(2020, 12, 25)%Z] else [].

Definition christmas_morning : Z := Calendar.Timestamp 2020 12 25 10 0 0.

Definition christmas_table : DataFrame :=
  mkDataFrame 1 [("date_x", timestamps [christmas_morning])].

(** The evening of the last day of the first curfew window. *)
Definition last_curfew_evening : Z := Calendar.Timestamp 2020 10 29 22 0 0.

(** The cell of column [c] in row [i] of a frame, when there is one. *)
Definition cell_at (df : DataFrame) (c : string) (i : nat) : option value :=
  match df_get df c with
  | Ok s => nth_error s i
  | Err _ => None
  end.

(** The columns [encode_dates] writes with [X.loc[:, c] = ...]. *)
Definition loc_assigned_names : list string :=
  ["year"; "month"; "day"; "weekday"; "hour"; "season"].

(** A frame is new to some names when it has no column of such a name. *)
Definition new_to (names : list string) (df : DataFrame) : bool :=
  forallb (fun c => negb (has_col df c)) names.

(** Two readings, the second without a date. *)
Definition missing_date_table : DataFrame :=
  mkDataFrame 2
    [ ("date_x", datetimes [Some (Calendar.Timestamp 2020 10 20 22 0 0); None]);
      ("rr1", series (map VFloat [0; 2]%Q)) ].

(** The names [encode_dates] reads, assigns or drops. *)
Definition encode_dates_names : list string :=
  [ "date_x"; "year"; "month"; "day"; "weekday"; "hour"; "season"; "school_holiday";
    "public_holiday"; "is_peak"; "sin_hour"; "cos_hour"; "sin_month"; "cos_month";
    "curfew" ].

(** The columns [encode_dates] adds, in the order it adds them. *)
Definition encode_dates_features : list string :=
  [ "year"; "day"; "weekday"; "season"; "school_holiday"; "public_holiday";
    "is_peak"; "sin_hour"; "cos_hour"; "sin_month"; "cos_month"; "curfew" ].

(** A list of names without the given ones. *)
Definition without_names (names : list string) (l : list string) : list string :=
  List.filter (fun c => negb (mem_string c names)) l.

(** A frame with a date and a rainfall column and neither a temperature nor
    a sensor name. *)
Definition partial_table : DataFrame :=
  mkDataFrame 1
    [("date", timestamps [christmas_morning]); ("rr1", series (map VFloat [0]%Q))].

(** * Verification *)

(** ** Columns of a frame *)

Lemma lookup_assign_col c c' s cs :
  lookup_col c' (assign_col c s cs)
  = if String.eqb c' c then Some s else lookup_col c' cs.
Proof.
  induction cs as [|[d t] cs IH]; simpl.
  - destruct (String.eqb c' c); reflexivity.
  - destruct (String.eqb c d) eqn:Hcd; simpl.
    + apply String.eqb_eq in Hcd; subst d.
      destruct (String.eqb c' c); reflexivity.
    + rewrite IH. destruct (String.eqb c' c) eqn:Hc'; [|reflexivity].
      apply String.eqb_eq in Hc'; subst c'. rewrite Hcd. reflexivity.
Qed.

Lemma df_get_assign df c c' s :
  df_get (df_assign df c s) c'
  = if String.eqb c' c then Ok s else df_get df c'.
Proof.
  unfold df_get, df_assign; simpl. rewrite lookup_assign_col.
  destruct (String.eqb c' c); reflexivity.
Qed.

Lemma lookup_col_filter c names cs :
  lookup_col c (List.filter (fun d : string * Series => negb (mem_string (fst d) names)) cs)
  = if mem_string c names then None else lookup_col c cs.
Proof.
  induction cs as [|[d t] cs IH]; cbn [List.filter lookup_col fst].
  - destruct (mem_string c names); reflexivity.
  - destruct (String.eqb c d) eqn:Hcd.
    + apply String.eqb_eq in Hcd; subst d.
      destruct (mem_string c names) eqn:Hm; cbn [negb lookup_col].
      * exact IH.
      * rewrite String.eqb_refl. reflexivity.
    + destruct (mem_string d names); cbn [negb lookup_col]; rewrite ?Hcd; exact IH.
Qed.

Lemma df_get_remove df names c :
  df_get (df_remove names df) c
  = if mem_string c names then Err (KeyError c) else df_get df c.
Proof.
  unfold df_get, df_remove; cbn [cols]. rewrite lookup_col_filter.
  destruct (mem_string c names); reflexivity.
Qed.

Lemma well_formed_assign df c (s : Series) :
  well_formed df -> length s = nrows df -> well_formed (df_assign df c s).
Proof.
  unfold well_formed, df_assign; cbn [cols nrows]. intros Hwf Hs.
  induction (cols df) as [|[d t] cs IH]; cbn [assign_col].
  - repeat constructor. exact Hs.
  - inversion Hwf; subst. destruct (String.eqb c d); constructor; auto.
Qed.

Lemma well_formed_remove df names : well_formed df -> well_formed (df_remove names df).
Proof.
  unfold well_formed, df_remove; cbn [cols nrows]. intros Hwf.
  induction Hwf as [|x l Hx Hl IH]; cbn [List.filter]; [constructor|].
  destruct (negb _); [constructor|]; assumption.
Qed.

Lemma well_formed_get df c (s : Series) :
  well_formed df -> df_get df c = Ok s -> length s = nrows df.
Proof.
  unfold well_formed, df_get. intros Hwf.
  induction Hwf as [|[d t] l Hx Hl IH]; cbn [lookup_col]; [discriminate|].
  destruct (String.eqb c d); [|exact IH].
  intros [= <-]. exact Hx.
Qed.

Lemma df_set_ok df c (s : Series) :
  length s = nrows df -> df_set df c s = Ok (df_assign df c s).
Proof. intros H. unfold df_set. rewrite H, Nat.eqb_refl. reflexivity. Qed.

Lemma has_col_get df c s : df_get df c = Ok s -> has_col df c = true.
Proof. unfold df_get, has_col. destruct (lookup_col c (cols df)); [reflexivity|discriminate]. Qed.

(** ** Running the code on a store *)

Lemma store_insert_lookup (h : store) x df df' : h !! x = Some df -> <[x := df']> h !! x = Some df'.
Proof. intros H. apply list_lookup_insert_eq. eapply lookup_lt_Some; eassumption. Qed.

Lemma runs_ret {A} (a : A) x df : runs (ret a) x df a df.
Proof. intros h H. unfold ret. rewrite list_insert_id; auto. Qed.

Lemma runs_lift {A} (r : result A) a x df : r = Ok a -> runs (lift r) x df a df.
Proof. intros -> h H. unfold lift. rewrite list_insert_id; auto. Qed.

Lemma runs_deref x df : runs (deref x) x df df df.
Proof. intros h H. unfold deref. rewrite H, list_insert_id; auto. Qed.

Lemma runs_bind {A B} (m : M A) (k : A -> M B) x df a df1 b df2 :
  runs m x df a df1 -> runs (k a) x df1 b df2 -> runs (bind m k) x df b df2.
Proof.
  intros Hm Hk h H. unfold bind. rewrite (Hm h H). cbv beta iota.
  pose proof (Hk _ (store_insert_lookup h x df df1 H)) as E.
  rewrite E, list_insert_insert_eq. reflexivity.
Qed.

Lemma runs_getitem x df c s : df_get df c = Ok s -> runs (getitem x c) x df s df.
Proof.
  intros H. unfold getitem. eapply runs_bind; [apply runs_deref|].
  apply runs_lift. exact H.
Qed.

Lemma runs_setitem x df c (s : Series) :
  length s = nrows df -> runs (setitem x c s) x df tt (df_assign df c s).
Proof.
  intros Hs. unfold setitem. eapply runs_bind; [apply runs_deref|].
  eapply runs_bind; [apply runs_lift, df_set_ok, Hs|].
  intros h H. reflexivity.
Qed.

Lemma allocates_new x df new : allocates (new_frame new) x df df new.
Proof. intros h H. unfold new_frame. rewrite list_insert_id; auto. Qed.

Lemma allocates_bind {A} (m : M A) (k : A -> M ref) x df a df1 df2 new :
  runs m x df a df1 -> allocates (k a) x df1 df2 new -> allocates (bind m k) x df df2 new.
Proof.
  intros Hm Hk h H. unfold bind. rewrite (Hm h H). cbv beta iota.
  pose proof (Hk _ (store_insert_lookup h x df df1 H)) as E.
  rewrite E, list_insert_insert_eq, length_insert. reflexivity.
Qed.

Lemma df_drop_ok df names :
  forallb (has_col df) names = true -> df_drop df names = Ok (df_remove names df).
Proof.
  intros H. unfold df_drop.
  destruct (find _ names) as [c|] eqn:Hf; [|reflexivity].
  apply find_some in Hf as [Hin Hc].
  rewrite forallb_forall in H. rewrite (H c Hin) in Hc. discriminate.
Qed.

Lemma allocates_drop x df names :
  forallb (has_col df) names = true ->
  allocates (drop_columns x names) x df df (df_remove names df).
Proof.
  intros H. unfold drop_columns. eapply allocates_bind; [apply runs_deref|].
  eapply allocates_bind; [apply runs_lift, df_drop_ok, H|].
  apply allocates_new.
Qed.

(** A computation that [runs] or [allocates], followed by more code. *)
Lemma bind_runs {A B} (m : M A) (k : A -> M B) x df a df1 (h : store) :
  runs m x df a df1 -> h !! x = Some df -> bind m k h = k a (<[x := df1]> h).
Proof. intros Hm H. unfold bind. rewrite (Hm h H). reflexivity. Qed.

Lemma bind_allocates {B} (m : M ref) (k : ref -> M B) x df df1 new (h : store) :
  allocates m x df df1 new -> h !! x = Some df ->
  bind m k h = k (length h) (<[x := df1]> h ++ [new]).
Proof. intros Hm H. unfold bind. rewrite (Hm h H). reflexivity. Qed.

Lemma store_lookup_last (h : store) df : (h ++ [df]) !! length h = Some df.
Proof. rewrite lookup_app_r by lia. rewrite Nat.sub_diag. reflexivity. Qed.

Lemma store_insert_last (h : store) a b : <[length h := b]> (h ++ [a]) = h ++ [b].
Proof. induction h as [|d h IH]; simpl; [reflexivity|]. f_equal. exact IH. Qed.

(** ** Columns, cell by cell *)

Lemma traverse_length {A B} (f : A -> result B) l l' :
  traverse f l = Ok l' -> length l' = length l.
Proof.
  revert l'. induction l as [|a l IH]; simpl; intros l'.
  - intros [= <-]. reflexivity.
  - destruct (f a); simpl; [|discriminate].
    destruct (traverse f l); simpl; [|discriminate].
    intros [= <-]. simpl. f_equal. apply IH. reflexivity.
Qed.

Lemma traverse_map_ok {A B C} (f : B -> result C) (g : A -> B) (k : A -> C) l :
  (forall a, f (g a) = Ok (k a)) -> traverse f (map g l) = Ok (map k l).
Proof.
  intros H. induction l as [|a l IH]; simpl; [reflexivity|].
  rewrite H, IH. reflexivity.
Qed.

Lemma dt_timestamps ts : dt (timestamps ts) = Ok (map Some ts).
Proof.
  unfold dt, timestamps. cbn [is_datetime64 cells].
  apply traverse_map_ok. reflexivity.
Qed.

Lemma no_NaT ts : existsb is_NaT (map Some ts) = false.
Proof. induction ts as [|t ts IH]; [reflexivity|exact IH]. Qed.

Lemma dt_field_timestamps f ts :
  dt_field f (timestamps ts) = Ok (series (map (fun t => VInt (f t)) ts)).
Proof.
  unfold dt_field. rewrite dt_timestamps. cbn [rbind].
  rewrite no_NaT, map_map. reflexivity.
Qed.

Lemma dt_floor_D_timestamps ts :
  dt_floor_D (timestamps ts)
  = Ok (mkSeries true (map (fun t => VTimestamp (Calendar.floor_D t)) ts)).
Proof.
  unfold dt_floor_D. rewrite dt_timestamps. cbn [rbind].
  rewrite map_map. reflexivity.
Qed.

Lemma cells_series l : cells (series l) = l.
Proof. reflexivity. Qed.

Lemma length_timestamps ts : length (timestamps ts) = length ts.
Proof. apply length_map. Qed.

Lemma apply_length f s (r : Series) : apply f s = Ok r -> length r = length s.
Proof.
  unfold apply. destruct (traverse f s) as [l|] eqn:E; cbn [rbind]; [|discriminate].
  intros [= <-]. exact (traverse_length _ _ _ E).
Qed.

Lemma length_isin s vs : length (isin s vs) = length s.
Proof. apply length_map. Qed.

Lemma length_astype_int m : length (astype_int m) = length m.
Proof. unfold astype_int. cbn [series cells]. apply length_map. Qed.

Lemma np_select_seasons m :
  np_select (length m)
    [ isin m [VInt 12; VInt 1; VInt 2]; isin m [VInt 3; VInt 4; VInt 5];
      isin m [VInt 6; VInt 7; VInt 8]; isin m [VInt 9; VInt 10; VInt 11] ]
    seasons (VStr "Unknown")
  = map season_cell m.
Proof.
  unfold seasons, season_cell, isin. cbn [np_select].
  induction m as [|v m IH]; [reflexivity|].
  cbn [map length repeat zip_with]. rewrite IH. reflexivity.
Qed.

Lemma Qle_bool_inject a b : Qle_bool (inject_Z a) (inject_Z b) = (a <=? b)%Z.
Proof. unfold Qle_bool, inject_Z; cbn [Qnum Qden]. rewrite !Z.mul_1_r. reflexivity. Qed.

Lemma Qlt_bool_inject a b : Qlt_bool (inject_Z a) (inject_Z b) = (a <? b)%Z.
Proof. unfold Qlt_bool. rewrite Qle_bool_inject, Z.ltb_antisym. reflexivity. Qed.

Lemma peak_lambda_int h : peak_lambda (VInt h) = Ok (VInt (peak_flag h)).
Proof.
  unfold peak_lambda, peak_flag; cbn [num_of rbind].
  change 6%Q with (inject_Z 6). change 9%Q with (inject_Z 9).
  change 16%Q with (inject_Z 16). change 19%Q with (inject_Z 19).
  rewrite !Qle_bool_inject, !Qlt_bool_inject. reflexivity.
Qed.

Lemma apply_peak_hours hs :
  apply peak_lambda (map VInt hs) = Ok (series (map (fun h => VInt (peak_flag h)) hs)).
Proof.
  unfold apply.
  rewrite (traverse_map_ok peak_lambda VInt (fun h => VInt (peak_flag h)))
    by apply peak_lambda_int.
  reflexivity.
Qed.

Lemma np_trig_ints f xs p :
  np_trig f (map VInt xs) p = Ok (series (map (fun x => VTrig f (inject_Z x) p) xs)).
Proof.
  unfold np_trig.
  rewrite (traverse_map_ok num_of VInt (fun x => Some (inject_Z x))) by reflexivity.
  cbn [rbind]. rewrite map_map. reflexivity.
Qed.

(** ** The curfew classifier *)

Lemma is_curfew_in_read table ws t :
  traverse read_window table = Ok ws ->
  is_curfew_in table t = Ok (curfew_flag ws t).
Proof.
  revert ws. induction table as [|[[[sd ed] sh] eh] table IH]; intros ws.
  - intros [= <-]. reflexivity.
  - cbn [traverse read_window is_curfew_in].
    destruct (pd_Timestamp sd) as [s|]; cbn [rbind]; [|discriminate].
    destruct (pd_Timestamp ed) as [e|]; cbn [rbind]; [|discriminate].
    destruct (traverse read_window table) as [ws'|]; cbn [rbind]; [|discriminate].
    intros [= <-]. specialize (IH ws' eq_refl).
    unfold curfew_flag in *. cbn [existsb window_matches].
    destruct ((s <=? t)%Z && (t <=? e)%Z); cbn [andb orb]; [|exact IH].
    destruct ((sh <=? Calendar.hour t)%Z || (Calendar.hour t <? eh)%Z);
      [reflexivity|exact IH].
Qed.

Lemma curfews_read : traverse read_window curfews = Ok windows.
Proof. vm_compute. reflexivity. Qed.

Lemma is_curfew_flag t : is_curfew t = Ok (curfew_flag windows t).
Proof. apply is_curfew_in_read, curfews_read. Qed.

Lemma apply_is_curfew b ts :
  apply (is_curfew_cell b) (timestamps ts)
  = Ok (series (map (fun t => VInt (curfew_flag windows t)) ts)).
Proof.
  unfold apply, timestamps. cbn [cells].
  rewrite (traverse_map_ok (is_curfew_cell b) VTimestamp
             (fun t => VInt (curfew_flag windows t))).
  - reflexivity.
  - intros t. cbn [is_curfew_cell]. rewrite is_curfew_flag. reflexivity.
Qed.

(** ** The steps of [encode_dates], run on a store *)

Ltac get_col :=
  apply runs_getitem; rewrite ?df_get_assign; cbn [String.eqb Ascii.eqb Bool.eqb];
  try eassumption; try reflexivity.

Lemma add_basic_date_features_runs X df ts :
  well_formed df -> df_get df "date_x" = Ok (timestamps ts) ->
  runs (add_basic_date_features X) X df X (basic_dates_frame ts df).
Proof.
  intros Hwf Hd.
  assert (Hlen : length ts = nrows df).
  { rewrite <- (well_formed_get _ _ _ Hwf Hd). symmetry. apply length_timestamps. }
  unfold add_basic_date_features, loc_setitem, basic_dates_frame,
    dt_year, dt_month, dt_day, dt_weekday, dt_hour.
  repeat (eapply runs_bind;
          [ first [ get_col
                  | apply runs_lift, dt_field_timestamps
                  | apply runs_setitem; cbn [series cells]; rewrite length_map;
                    exact Hlen ] | ]).
  apply runs_ret.
Qed.

Lemma add_season_feature_runs X df (m : Series) :
  well_formed df -> df_get df "month" = Ok m ->
  runs (add_season_feature X) X df X (season_frame m df).
Proof.
  intros Hwf Hm. pose proof (well_formed_get _ _ _ Hwf Hm) as Hlen.
  unfold add_season_feature, loc_setitem, season_frame.
  do 4 (eapply runs_bind; [get_col|]).
  rewrite np_select_seasons.
  eapply runs_bind;
    [apply runs_setitem; cbn [series cells]; rewrite length_map; exact Hlen|].
  apply runs_ret.
Qed.

Lemma add_indicator_features_runs X df (d hours peaks : Series) sh ph :
  well_formed df -> df_get df "date_x" = Ok d -> df_get df "hour" = Ok hours ->
  apply peak_lambda hours = Ok peaks ->
  runs (add_indicator_features X sh ph) X df X (indicator_frame d sh ph peaks df).
Proof.
  intros Hwf Hd Hh Hp.
  pose proof (well_formed_get _ _ _ Hwf Hd) as Hlen.
  pose proof (well_formed_get _ _ _ Hwf Hh) as Hlenh.
  pose proof (apply_length _ _ _ Hp) as Hlenp.
  unfold add_indicator_features, indicator_frame.
  repeat (eapply runs_bind;
          [ first [ get_col
                  | apply runs_lift; exact Hp
                  | apply runs_setitem; cbn [nrows df_assign];
                    rewrite ?length_astype_int, ?length_isin; congruence ] | ]).
  apply runs_ret.
Qed.

Lemma curfew_periods_runs df_ref df date_column ts :
  well_formed df -> df_get df date_column = Ok (timestamps ts) ->
  runs (curfew_periods df_ref date_column) df_ref df df_ref (curfew_frame ts df).
Proof.
  intros Hwf Hd.
  assert (Hlen : length ts = nrows df).
  { rewrite <- (well_formed_get _ _ _ Hwf Hd). symmetry. apply length_timestamps. }
  unfold curfew_periods, curfew_frame.
  eapply runs_bind; [apply runs_getitem; exact Hd|].
  eapply runs_bind; [apply runs_lift, apply_is_curfew|].
  eapply runs_bind;
    [apply runs_setitem; cbn [series cells]; rewrite length_map; exact Hlen|].
  apply runs_ret.
Qed.

Lemma create_cyclical_features_allocates data df column period xs :
  well_formed df -> df_get df column = Ok (series (map VInt xs)) ->
  String.eqb column ("sin_" ++ column) = false ->
  String.eqb column ("cos_" ++ column) = false ->
  allocates (create_cyclical_features data column period) data df
    (cyclical_frame column period xs df)
    (df_remove [column] (cyclical_frame column period xs df)).
Proof.
  intros Hwf Hc Hsin Hcos.
  assert (Hlen : length xs = nrows df).
  { rewrite <- (well_formed_get _ _ _ Hwf Hc). symmetry. apply length_map. }
  unfold create_cyclical_features, cyclical_frame.
  eapply allocates_bind; [apply runs_getitem; exact Hc|].
  eapply allocates_bind; [apply runs_lift, np_trig_ints|].
  eapply allocates_bind;
    [apply runs_setitem; cbn [series cells]; rewrite length_map; exact Hlen|].
  eapply allocates_bind;
    [apply runs_getitem; rewrite df_get_assign, Hsin; exact Hc|].
  eapply allocates_bind; [apply runs_lift, np_trig_ints|].
  eapply allocates_bind;
    [apply runs_setitem; cbn [series cells]; rewrite length_map; exact Hlen|].
  apply allocates_drop. cbn [forallb]. rewrite andb_true_r.
  eapply has_col_get. rewrite !df_get_assign, Hsin, Hcos. exact Hc.
Qed.

(** ** [encode_dates] as a whole *)

Ltac frames := unfold encode_dates_result, encode_dates_third, encode_dates_second,
  encode_dates_input, curfew_frame, cyclical_frame, indicator_frame, season_frame,
  basic_dates_frame.

Ltac wf_frames Hwf Hlen :=
  frames;
  repeat first [ apply well_formed_remove
               | apply well_formed_assign;
                 [| cbn [nrows df_assign df_remove series cells];
                    rewrite ?length_astype_int, ?length_isin, ?length_timestamps,
                      ?length_map; exact Hlen ] ];
  exact Hwf.

Ltac get_frames :=
  rewrite ?map_map; frames; repeat (rewrite df_get_assign || rewrite df_get_remove);
  first [reflexivity | eassumption].

Section EncodeDates.
Variables (df : DataFrame) (ts : list Z) (sh ph : list value).
Hypothesis Hwf : well_formed df.
Hypothesis Hd : df_get df "date_x" = Ok (timestamps ts).

Lemma length_date_x : length ts = nrows df.
Proof. rewrite <- (well_formed_get _ _ _ Hwf Hd). symmetry. apply length_timestamps. Qed.

Lemma well_formed_encode_dates_input : well_formed (encode_dates_input ts sh ph df).
Proof. wf_frames Hwf length_date_x. Qed.

Lemma well_formed_encode_dates_second : well_formed (encode_dates_second ts sh ph df).
Proof. wf_frames Hwf length_date_x. Qed.

Lemma well_formed_encode_dates_third : well_formed (encode_dates_third ts sh ph df).
Proof. wf_frames Hwf length_date_x. Qed.

Lemma well_formed_encode_dates_result : well_formed (encode_dates_result ts sh ph df).
Proof. wf_frames Hwf length_date_x. Qed.

Lemma encode_dates_run (h : store) X :
  h !! X = Some df ->
  encode_dates X sh ph h
  = (Ok (length h + 2),
     <[X := encode_dates_input ts sh ph df]> h
     ++ [ encode_dates_second ts sh ph df;
          encode_dates_third ts sh ph df;
          encode_dates_result ts sh ph df ]).
Proof.
  intros H. unfold encode_dates.
  pose proof length_date_x as Hlen.
  (* the steps that assign to the caller's frame *)
  erewrite bind_runs; [| |exact H];
    [|apply add_basic_date_features_runs; eassumption].
  erewrite bind_runs; [| |eapply store_insert_lookup; exact H];
    [|apply add_season_feature_runs; [wf_frames Hwf Hlen|get_frames]].
  rewrite list_insert_insert_eq.
  erewrite bind_runs; [| |eapply store_insert_lookup; exact H].
  2:{ apply add_indicator_features_runs
        with (hours := series (map VInt (map Calendar.hour ts))).
      - wf_frames Hwf Hlen.
      - get_frames.
      - get_frames.
      - cbn [series cells]. rewrite apply_peak_hours, map_map. reflexivity. }
  rewrite list_insert_insert_eq.
  (* the hour is encoded on the caller's frame and dropped from a new one *)
  erewrite bind_allocates; [| |eapply store_insert_lookup; exact H].
  2:{ apply create_cyclical_features_allocates with (xs := map Calendar.hour ts);
        [| |reflexivity|reflexivity].
      - wf_frames Hwf Hlen.
      - get_frames. }
  rewrite list_insert_insert_eq, length_insert, !cells_series.
  fold (indicator_frame (timestamps ts) sh ph
          (series (map (fun t => VInt (peak_flag (Calendar.hour t))) ts))
          (season_frame (map (fun t => VInt (Calendar.month t)) ts)
             (basic_dates_frame ts df))).
  fold (encode_dates_input ts sh ph df).
  set (hA := <[X := encode_dates_input ts sh ph df]> h).
  assert (HlenA : length hA = length h) by apply length_insert.
  rewrite <- HlenA.
  (* the month is encoded on that one and dropped from a third *)
  erewrite bind_allocates; [| |apply store_lookup_last].
  2:{ apply create_cyclical_features_allocates with (xs := map Calendar.month ts);
        [| |reflexivity|reflexivity].
      - wf_frames Hwf Hlen.
      - get_frames. }
  rewrite store_insert_last.
  fold (encode_dates_second ts sh ph df).
  set (hB := hA ++ [encode_dates_second ts sh ph df]).
  replace (length (hA ++ [df_remove ["hour"] (encode_dates_input ts sh ph df)]))
    with (length hB) by (subst hB; rewrite !length_app; reflexivity).
  (* the curfew flag goes on the third frame, the result is a fourth *)
  erewrite bind_runs; [| |apply store_lookup_last].
  2:{ apply curfew_periods_runs with (ts := ts); [wf_frames Hwf Hlen|get_frames]. }
  rewrite store_insert_last.
  fold (encode_dates_third ts sh ph df).
  rewrite (allocates_drop (length hB) (encode_dates_third ts sh ph df) ["date_x"]);
    [| |apply store_lookup_last].
  2:{ cbn [forallb]. rewrite andb_true_r. eapply has_col_get. get_frames. }
  rewrite store_insert_last.
  fold (encode_dates_result ts sh ph df).
  subst hB. rewrite !length_app, <- !app_assoc. cbn [length app].
  f_equal. f_equal. lia.
Qed.
End EncodeDates.

(** ** The weather features, run on a store *)

Lemma categorize_weather_runs data df (rr1 : Series) rr :
  well_formed df -> df_get df "rr1" = Ok rr1 -> traverse num_of rr1 = Ok rr ->
  runs (categorize_weather data) data df data (categorized_frame rr df).
Proof.
  intros Hwf Hr Hn.
  pose proof (well_formed_get _ _ _ Hwf Hr) as Hlen.
  pose proof (traverse_length _ _ _ Hn) as Hlen'.
  unfold categorize_weather, categorized_frame.
  eapply runs_bind; [apply runs_getitem; exact Hr|].
  eapply runs_bind; [apply runs_lift; unfold pd_cut; rewrite Hn; reflexivity|].
  eapply runs_bind;
    [apply runs_setitem; cbn [series cells]; rewrite length_map; congruence|].
  apply runs_ret.
Qed.

Lemma add_weather_indicators_runs data df (tcol fcol : Series) t ff :
  well_formed df ->
  df_get df "t" = Ok tcol -> traverse num_of tcol = Ok t ->
  df_get df "ff" = Ok fcol -> traverse num_of fcol = Ok ff ->
  runs (add_weather_indicators data) data df data (weather_indicator_frame t ff df).
Proof.
  intros Hwf Ht Htn Hf Hfn.
  pose proof (well_formed_get _ _ _ Hwf Ht) as Hlt.
  pose proof (traverse_length _ _ _ Htn) as Hlt'.
  pose proof (well_formed_get _ _ _ Hwf Hf) as Hlf.
  pose proof (traverse_length _ _ _ Hfn) as Hlf'.
  unfold add_weather_indicators, weather_indicator_frame, gt_scalar, lt_scalar.
  repeat (eapply runs_bind;
          [ first [ get_col
                  | apply runs_lift; first [rewrite Htn|rewrite Hfn]; reflexivity
                  | apply runs_setitem; cbn [nrows df_assign];
                    rewrite length_astype_int, length_map; congruence ] | ]).
  apply runs_ret.
Qed.

Lemma engineer_weather_features_runs data df (rr1 tcol fcol : Series) rr t ff :
  well_formed df ->
  df_get df "rr1" = Ok rr1 -> traverse num_of rr1 = Ok rr ->
  df_get df "t" = Ok tcol -> traverse num_of tcol = Ok t ->
  df_get df "ff" = Ok fcol -> traverse num_of fcol = Ok ff ->
  runs (engineer_weather_features data) data df data (weather_frame rr t ff df).
Proof.
  intros Hwf Hr Hrn Ht Htn Hf Hfn.
  pose proof (well_formed_get _ _ _ Hwf Hr) as Hlen.
  pose proof (traverse_length _ _ _ Hrn) as Hlen'.
  unfold engineer_weather_features, weather_frame.
  eapply runs_bind; [eapply categorize_weather_runs; eassumption|].
  eapply runs_bind; [|apply runs_ret].
  eapply add_weather_indicators_runs; try eassumption.
  - apply well_formed_assign; [exact Hwf|]. rewrite cells_series, length_map. congruence.
  - unfold categorized_frame. rewrite df_get_assign. exact Ht.
  - unfold categorized_frame. rewrite df_get_assign. exact Hf.
Qed.

(** ** Selecting rows *)

Lemma iloc_mask_from {A} (p : A -> bool) (g : A -> value) (pre : list value) (l : list A) :
  map (fun i => nth i (pre ++ map g l) VNaN) (mask_positions (length pre) (map p l))
  = map g (List.filter p l).
Proof.
  revert pre. induction l as [|x l IH]; intros pre; [reflexivity|].
  cbn [map mask_positions List.filter].
  specialize (IH (pre ++ [g x])).
  rewrite <- app_assoc, length_app in IH. cbn [length app] in IH.
  rewrite Nat.add_1_r in IH.
  destruct (p x); cbn [map]; rewrite IH; [|reflexivity].
  f_equal. rewrite nth_middle. reflexivity.
Qed.

Lemma iloc_mask {A} (p : A -> bool) (g : A -> value) (l : list A) b :
  iloc (mask_positions 0 (map p l)) (mkSeries b (map g l))
  = mkSeries b (map g (List.filter p l)).
Proof. unfold iloc. cbn [is_datetime64 cells]. f_equal. apply (iloc_mask_from p g []). Qed.

Lemma length_mask_positions {A} (p : A -> bool) (l : list A) a :
  length (mask_positions a (map p l)) = length (List.filter p l).
Proof.
  revert a. induction l as [|x l IH]; intros a; [reflexivity|].
  cbn [map mask_positions List.filter]. destruct (p x); cbn [length]; rewrite IH; reflexivity.
Qed.

Lemma mask_positions_nil {A} (p : A -> bool) (l : list A) a :
  mask_positions a (map p l) = [] <-> existsb p l = false.
Proof.
  revert a. induction l as [|x l IH]; intros a; cbn [map mask_positions existsb].
  - tauto.
  - destruct (p x); cbn [orb]; [split; discriminate|apply IH].
Qed.

Lemma left_cell_left_only on name (s : list value) es :
  map (left_cell on name s) (List.filter is_left_only es)
  = map (fun i => nth i s VNaN) (left_only_rows es).
Proof.
  unfold left_only_rows.
  induction es as [|[[[i|] [j|]] k] es IH]; cbn; rewrite ?IH; reflexivity.
Qed.

Lemma iloc_left_only on name (s : Series) es :
  iloc (mask_positions 0 (map (fun v => value_eqb v (VStr "left_only")) (map indicator es)))
    (mkSeries (is_datetime64 s) (map (left_cell on name s) es))
  = iloc (left_only_rows es) s.
Proof.
  rewrite map_map. change (fun x => value_eqb (indicator x) (VStr "left_only")) with is_left_only.
  rewrite iloc_mask. unfold iloc. f_equal. apply left_cell_left_only.
Qed.

Lemma length_left_only_rows es :
  length (mask_positions 0 (map (fun v => value_eqb v (VStr "left_only")) (map indicator es)))
  = length (left_only_rows es).
Proof.
  rewrite map_map. rewrite length_mask_positions.
  unfold left_only_rows.
  induction es as [|[[[i|] [j|]] k] es IH]; cbn in *; rewrite ?IH; reflexivity.
Qed.

(** ** The steps of [delete_zeros] *)

Lemma lookup_col_app c l1 l2 :
  lookup_col c (l1 ++ l2)
  = match lookup_col c l1 with Some s => Some s | None => lookup_col c l2 end.
Proof.
  induction l1 as [|[d t] l1 IH]; cbn [app lookup_col]; [reflexivity|].
  destruct (String.eqb c d); [reflexivity|exact IH].
Qed.

Lemma lookup_col_map (F : string -> Series -> Series) c l :
  lookup_col c (map (fun cs => (fst cs, F (fst cs) (snd cs))) l)
  = option_map (F c) (lookup_col c l).
Proof.
  induction l as [|[d t] l IH]; cbn [map lookup_col fst snd]; [reflexivity|].
  destruct (String.eqb c d) eqn:E; [|exact IH].
  apply String.eqb_eq in E. subst d. reflexivity.
Qed.

Lemma filter_map_cols (F : string -> Series -> Series) names l :
  List.filter (fun cs : string * Series => negb (mem_string (fst cs) names))
    (map (fun cs => (fst cs, F (fst cs) (snd cs))) l)
  = map (fun cs => (fst cs, F (fst cs) (snd cs)))
      (List.filter (fun cs : string * Series => negb (mem_string (fst cs) names)) l).
Proof.
  induction l as [|[d t] l IH]; cbn [map List.filter fst snd]; [reflexivity|].
  destruct (negb (mem_string d names)); cbn [map fst snd]; rewrite IH; reflexivity.
Qed.

Lemma filter_assign_col names c s l :
  mem_string c names = true ->
  List.filter (fun cs : string * Series => negb (mem_string (fst cs) names))
    (assign_col c s l)
  = List.filter (fun cs : string * Series => negb (mem_string (fst cs) names)) l.
Proof.
  intros Hc. induction l as [|[d t] l IH]; cbn [assign_col List.filter fst].
  - rewrite Hc. reflexivity.
  - destruct (String.eqb c d) eqn:E; cbn [List.filter fst].
    + apply String.eqb_eq in E. subst d. rewrite Hc. reflexivity.
    + rewrite IH. reflexivity.
Qed.

Lemma row_keys_pairs (gs : list key) :
  Forall (fun g : key => length g = 2) gs ->
  forall d1 d2,
  row_keys [mkSeries d1 (map (fun g : key => nth 0 g VNaN) gs);
            mkSeries d2 (map (fun g : key => nth 1 g VNaN) gs)]
    (length gs) = gs.
Proof.
  intros Hgs0 d1 d2. revert Hgs0.
  unfold row_keys. induction 1 as [|g gs Hg Hgs IH]; [reflexivity|].
  cbn [length seq map]. f_equal.
  - destruct g as [|a [|b [|c g]]]; try discriminate. reflexivity.
  - rewrite <- seq_shift, map_map. exact IH.
Qed.

Lemma row_keys_length2 a b n : Forall (fun g : key => length g = 2) (row_keys [a; b] n).
Proof. unfold row_keys. apply List.Forall_forall. intros g Hg. apply in_map_iff in Hg as (i & <- & _). reflexivity. Qed.

(** ** Sorting and the distinct keys *)

Lemma insert_by_perm {A} (leb : A -> A -> bool) x l :
  Permutation (insert_by leb x l) (x :: l).
Proof.
  induction l as [|y l IH]; cbn [insert_by]; [reflexivity|].
  destruct (leb x y); [reflexivity|].
  rewrite IH. apply perm_swap.
Qed.

Lemma sort_by_perm {A} (leb : A -> A -> bool) l : Permutation (sort_by leb l) l.
Proof.
  unfold sort_by. induction l as [|x l IH]; cbn [fold_right]; [reflexivity|].
  rewrite insert_by_perm. constructor. exact IH.
Qed.

Lemma in_sort_by {A} (leb : A -> A -> bool) l x : In x (sort_by leb l) <-> In x l.
Proof.
  split; apply Permutation_in; [|symmetry]; apply sort_by_perm.
Qed.

Lemma in_distinct_keys ks k : In k (distinct_keys ks) -> In k ks.
Proof.
  induction ks as [|k' ks IH]; cbn [distinct_keys]; [tauto|].
  destruct (existsb (key_eqb k') ks); cbn [In]; tauto.
Qed.

Lemma in_zero_groups keys nums g : In g (zero_groups keys nums) -> In g keys.
Proof.
  unfold zero_groups. intros H.
  apply filter_In in H as [H _]. apply in_sort_by in H.
  apply in_distinct_keys in H. apply filter_In in H as [H _]. exact H.
Qed.

Section DeleteZerosSteps.
Variables (df0 : DataFrame) (names tr counts : Series) (nums : list (option Q)).
Hypothesis Hn : df_get df0 "counter_name" = Ok names.
Hypothesis Ht : df_get df0 "truncated_date" = Ok tr.
Hypothesis Hc : df_get df0 "log_bike_count" = Ok counts.
Hypothesis Hnum : traverse num_of counts = Ok nums.
Hypothesis Hmerge : has_col df0 "_merge" = false.

Let keys := row_keys [names; tr] (nrows df0).
Let groups :=
  sort_by key_leb (distinct_keys (List.filter (fun k => negb (existsb is_nan k)) keys)).
Let sums := mkDataFrame (length groups)
  [ ("counter_name",
     mkSeries (is_datetime64 names) (map (fun g : key => nth 0 g VNaN) groups));
    ("truncated_date",
     mkSeries (is_datetime64 tr) (map (fun g : key => nth 1 g VNaN) groups));
    ("log_bike_count", series (map (fun g => VFloat (group_sum keys nums g)) groups)) ].
Let zero := map (fun g => Qeq_bool (group_sum keys nums g) 0) groups.
Let zg := zero_groups keys nums.
Let zero_count_days := mkDataFrame (length zg)
  [ ("counter_name", mkSeries (is_datetime64 names) (map (fun g : key => nth 0 g VNaN) zg));
    ("truncated_date", mkSeries (is_datetime64 tr) (map (fun g : key => nth 1 g VNaN) zg)) ].
Let es := merged_rows keys zg.
Let merged := mkDataFrame (length es)
  (map (fun cs : string * Series =>
          (fst cs,
           mkSeries (is_datetime64 (snd cs))
             (map (left_cell ["counter_name"; "truncated_date"] (fst cs) (snd cs)) es)))
     (cols df0)
   ++ [("_merge", series (map indicator es))]).

Lemma groupby_sum_day_keys :
  groupby_sum df0 ["counter_name"; "truncated_date"] "log_bike_count" = Ok sums.
Proof.
  unfold groupby_sum. cbn [traverse]. rewrite Hn, Ht, Hc. cbn [rbind].
  rewrite Hnum. reflexivity.
Qed.

Lemma zero_sums_mask :
  (let? s := df_get sums "log_bike_count" in eq_scalar s 0) = Ok zero.
Proof.
  change (df_get sums "log_bike_count")
    with (Ok (series (map (fun g => VFloat (group_sum keys nums g)) groups))).
  cbn [rbind series cells]. unfold eq_scalar.
  rewrite (traverse_map_ok num_of _ (fun g => Some (group_sum keys nums g)))
    by reflexivity.
  cbn [rbind]. rewrite map_map. reflexivity.
Qed.

Lemma zero_count_days_frame :
  loc_mask sums zero ["counter_name"; "truncated_date"] = Ok zero_count_days.
Proof.
  unfold loc_mask.
  change (traverse _ ["counter_name"; "truncated_date"])
    with (Ok [ ("counter_name",
                mkSeries (is_datetime64 names) (map (fun g : key => nth 0 g VNaN) groups));
               ("truncated_date",
                mkSeries (is_datetime64 tr) (map (fun g : key => nth 1 g VNaN) groups)) ]
          : result (list (string * Series))).
  cbn [rbind]. unfold df_iloc, zero. cbn [cols map fst snd].
  rewrite !iloc_mask, length_mask_positions. reflexivity.
Qed.

Lemma merged_frame :
  merge_outer_indicator df0 zero_count_days ["counter_name"; "truncated_date"]
  = Ok merged.
Proof.
  unfold merge_outer_indicator. rewrite Hmerge.
  change (has_col zero_count_days "_merge") with false. cbn [orb traverse].
  rewrite Hn, Ht. cbn [rbind].
  change (df_get zero_count_days "counter_name")
    with (Ok (mkSeries (is_datetime64 names) (map (fun g : key => nth 0 g VNaN) zg))).
  change (df_get zero_count_days "truncated_date")
    with (Ok (mkSeries (is_datetime64 tr) (map (fun g : key => nth 1 g VNaN) zg))).
  cbn [rbind nrows zero_count_days].
  rewrite row_keys_pairs.
  - reflexivity.
  - apply List.Forall_forall. intros g Hg. apply in_zero_groups in Hg.
    pose proof (row_keys_length2 names tr (nrows df0)) as Hl.
    rewrite List.Forall_forall in Hl. apply Hl, Hg.
Qed.

Lemma lookup_merge_none : lookup_col "_merge" (cols df0) = None.
Proof.
  unfold has_col in Hmerge. destruct (lookup_col "_merge" (cols df0)); [discriminate|reflexivity].
Qed.

Lemma kept_frame :
  (let? kept := query_eq merged "_merge" "left_only" in
   df_drop kept ["_merge"; "truncated_date"])
  = Ok (df_iloc (left_only_rows es) (df_remove ["_merge"; "truncated_date"] df0)).
Proof.
  unfold query_eq.
  assert (Hm : df_get merged "_merge" = Ok (series (map indicator es))).
  { unfold df_get, merged. cbn [cols]. rewrite lookup_col_app.
    rewrite (lookup_col_map
               (fun c s => mkSeries (is_datetime64 s) (map (left_cell _ c s) es))).
    rewrite lookup_merge_none. reflexivity. }
  rewrite Hm. cbn [rbind]. rewrite cells_series.
  rewrite df_drop_ok.
  - unfold df_iloc, df_remove, merged. cbn [cols nrows].
    rewrite length_left_only_rows. f_equal.
    rewrite map_app, List.filter_app, map_map. cbn [fst snd].
    rewrite (filter_map_cols
               (fun c s => iloc _ (mkSeries (is_datetime64 s) (map (left_cell _ c s) es)))).
    change (List.filter _ (map _ [("_merge", series (map indicator es))]))
      with (@nil (string * Series)).
    rewrite app_nil_r. f_equal.
    apply map_ext. intros [c s]. cbn [fst snd]. f_equal.
    apply iloc_left_only.
  - cbn [forallb]. rewrite andb_true_r. apply andb_true_iff. split.
    + unfold has_col, df_iloc. cbn [cols].
      rewrite (lookup_col_map (fun _ s => iloc _ s)).
      fold (df_get merged "_merge") in *. unfold df_get in Hm.
      destruct (lookup_col "_merge" (cols merged)); [reflexivity|discriminate].
    + unfold has_col, df_iloc, merged. cbn [cols].
      rewrite (lookup_col_map (fun _ s => iloc _ s)), lookup_col_app.
      rewrite (lookup_col_map
                 (fun c s => mkSeries (is_datetime64 s) (map (left_cell _ c s) es))).
      unfold df_get in Ht. destruct (lookup_col "truncated_date" (cols df0));
        [reflexivity|discriminate].
Qed.
End DeleteZerosSteps.

(** ** [delete_zeros] as a whole *)

Lemma delete_zeros_allocates data df ds names counts nums :
  well_formed df ->
  df_get df "date" = Ok (timestamps ds) ->
  df_get df "counter_name" = Ok names ->
  df_get df "log_bike_count" = Ok counts ->
  traverse num_of counts = Ok nums ->
  has_col df "_merge" = false ->
  allocates (delete_zeros data) data df
    (df_assign df "truncated_date" (truncated ds))
    (df_iloc (surviving_rows (row_keys [names; truncated ds] (nrows df)) nums)
       (df_remove ["_merge"; "truncated_date"] df)).
Proof.
  intros Hwf Hd Hn Hc Hnum Hmerge.
  assert (Hlen : length ds = nrows df).
  { rewrite <- (well_formed_get _ _ _ Hwf Hd). symmetry. apply length_timestamps. }
  set (df0 := df_assign df "truncated_date" (truncated ds)).
  assert (Hn0 : df_get df0 "counter_name" = Ok names)
    by (unfold df0; rewrite df_get_assign; exact Hn).
  assert (Ht0 : df_get df0 "truncated_date" = Ok (truncated ds))
    by (unfold df0; rewrite df_get_assign; reflexivity).
  assert (Hc0 : df_get df0 "log_bike_count" = Ok counts)
    by (unfold df0; rewrite df_get_assign; exact Hc).
  assert (Hm0 : has_col df0 "_merge" = false).
  { unfold has_col, df0, df_assign in *. cbn [cols]. rewrite lookup_assign_col. exact Hmerge. }
  pose proof (groupby_sum_day_keys df0 names (truncated ds) counts nums Hn0 Ht0 Hc0 Hnum) as S1.
  pose proof (zero_sums_mask df0 names (truncated ds) nums) as S2.
  pose proof (zero_count_days_frame df0 names (truncated ds) nums) as S3.
  pose proof (merged_frame df0 names (truncated ds) nums Hn0 Ht0 Hm0) as S4.
  pose proof (kept_frame df0 names (truncated ds) nums Ht0 Hm0) as S5.
  unfold delete_zeros.
  eapply allocates_bind; [apply runs_getitem; exact Hd|].
  eapply allocates_bind; [apply runs_lift, dt_floor_D_timestamps|].
  eapply allocates_bind; [apply runs_setitem; cbn [cells]; rewrite length_map; exact Hlen|].
  fold (truncated ds). fold df0.
  eapply allocates_bind; [apply runs_deref|].
  eapply allocates_bind; [apply runs_lift; exact S1|].
  cbn [rbind] in S2. unfold eq_scalar in S2 |- *.
  eapply allocates_bind; [apply runs_lift; reflexivity|].
  eapply allocates_bind; [apply runs_lift; exact S2|].
  eapply allocates_bind; [apply runs_lift; exact S3|].
  eapply allocates_bind; [apply runs_deref|].
  eapply allocates_bind; [apply runs_lift; exact S4|].
  unfold query_eq in S5 |- *.
  destruct (df_get _ "_merge") as [mcol|] eqn:Hmcol in S5; [|discriminate].
  cbn [rbind] in S5.
  eapply allocates_bind; [apply runs_lift; rewrite Hmcol; reflexivity|].
  eapply allocates_bind; [apply runs_lift; exact S5|].
  replace (df_remove ["_merge"; "truncated_date"] df)
    with (df_remove ["_merge"; "truncated_date"] df0).
  - apply allocates_new.
  - unfold df_remove, df0, df_assign. cbn [nrows cols]. f_equal.
    apply filter_assign_col. reflexivity.
Qed.

(** ** Which rows survive the merge *)

Lemma left_only_rows_app es1 es2 :
  left_only_rows (es1 ++ es2) = left_only_rows es1 ++ left_only_rows es2.
Proof. unfold left_only_rows. apply flat_map_app. Qed.

Lemma left_only_of_left_rows rkeys i k :
  left_only_rows (left_rows rkeys (i, k))
  = if existsb (key_eqb k) rkeys then [] else [i].
Proof.
  unfold left_rows.
  pose proof (mask_positions_nil (key_eqb k) rkeys 0) as Hnil.
  destruct (mask_positions 0 (map (key_eqb k) rkeys)) as [|j js].
  - rewrite (proj1 Hnil eq_refl). reflexivity.
  - destruct (existsb (key_eqb k) rkeys).
    + unfold left_only_rows. generalize (j :: js). intros l.
      induction l as [|x l IH]; [reflexivity|exact IH].
    + discriminate (proj2 Hnil eq_refl).
Qed.

Lemma left_only_of_right_rows lkeys l :
  left_only_rows (flat_map (right_only_rows lkeys) l) = [].
Proof.
  induction l as [|[j k] l IH]; [reflexivity|].
  cbn [flat_map]. rewrite left_only_rows_app, IH, app_nil_r.
  unfold right_only_rows. destruct (existsb _ lkeys); reflexivity.
Qed.

Lemma left_only_of_left_part rkeys l :
  left_only_rows (flat_map (left_rows rkeys) l)
  = flat_map (fun ik : nat * key =>
                if existsb (key_eqb (snd ik)) rkeys then [] else [fst ik]) l.
Proof.
  induction l as [|[i k] l IH]; [reflexivity|].
  cbn [flat_map fst snd]. rewrite left_only_rows_app, IH, left_only_of_left_rows.
  reflexivity.
Qed.

Lemma surviving_unmatched lkeys rkeys :
  Permutation (left_only_rows (merged_rows lkeys rkeys)) (unmatched lkeys rkeys).
Proof.
  unfold merged_rows, unmatched.
  transitivity (left_only_rows (flat_map (left_rows rkeys) (enumerate lkeys)
                                ++ flat_map (right_only_rows lkeys) (enumerate rkeys))).
  - unfold left_only_rows. apply Permutation_flat_map, sort_by_perm.
  - rewrite left_only_rows_app, left_only_of_right_rows, app_nil_r,
      left_only_of_left_part. reflexivity.
Qed.

Lemma in_unmatched_from lkeys rkeys a i :
  In i (flat_map (fun ik : nat * key =>
                    if existsb (key_eqb (snd ik)) rkeys then [] else [fst ik])
          (combine (seq a (length lkeys)) lkeys))
  <-> exists k, a <= i /\ nth_error lkeys (i - a) = Some k
                /\ existsb (key_eqb k) rkeys = false.
Proof.
  revert a. induction lkeys as [|k0 lkeys IH]; intros a; cbn [length seq combine flat_map].
  - split; [intros []|]. intros (k & _ & Hk & _). destruct (i - a); discriminate.
  - rewrite in_app_iff, IH. cbn [fst snd]. split.
    + intros [H|(k & Ha & Hk & Hr)].
      * destruct (existsb (key_eqb k0) rkeys) eqn:E; [destruct H|].
        destruct H as [<-|[]]. exists k0. rewrite Nat.sub_diag. auto.
      * exists k. split; [lia|]. split; [|exact Hr].
        replace (i - a) with (S (i - S a)) by lia. exact Hk.
    + intros (k & Ha & Hk & Hr).
      destruct (Nat.eq_dec i a) as [->|Hne].
      * left. rewrite Nat.sub_diag in Hk. injection Hk as ->. rewrite Hr. left. reflexivity.
      * right. exists k. split; [lia|]. split; [|exact Hr].
        replace (i - a) with (S (i - S a)) in Hk by lia. exact Hk.
Qed.

Lemma in_unmatched lkeys rkeys i :
  In i (unmatched lkeys rkeys)
  <-> exists k, nth_error lkeys i = Some k /\ existsb (key_eqb k) rkeys = false.
Proof.
  unfold unmatched, enumerate. rewrite in_unmatched_from. rewrite Nat.sub_0_r.
  split; intros (k & H); exists k; intuition lia.
Qed.

Lemma NoDup_unmatched_from lkeys rkeys a :
  List.NoDup (flat_map (fun ik : nat * key =>
                     if existsb (key_eqb (snd ik)) rkeys then [] else [fst ik])
           (combine (seq a (length lkeys)) lkeys)).
Proof.
  revert a. induction lkeys as [|k0 lkeys IH]; intros a; cbn [length seq combine flat_map].
  - constructor.
  - cbn [fst snd]. destruct (existsb (key_eqb k0) rkeys); cbn [app]; [apply IH|].
    constructor; [|apply IH].
    rewrite in_unmatched_from. intros (k & Ha & _). lia.
Qed.

Lemma NoDup_unmatched lkeys rkeys : List.NoDup (unmatched lkeys rkeys).
Proof. apply NoDup_unmatched_from. Qed.

(** ** Equality of keys *)

Ltac eqb_props :=
  repeat match goal with
    | H : (_ && _)%bool = true |- _ => apply andb_true_iff in H; destruct H
    | H : Z.eqb _ _ = true |- _ => apply Z.eqb_eq in H
    | H : Qeq_bool _ _ = true |- _ => apply Qeq_bool_iff in H
    | H : String.eqb _ _ = true |- _ => apply String.eqb_eq in H
    | H : (inject_Z _ == inject_Z _)%Q |- _ => apply inject_Z_injective in H
    end.

Lemma value_eqb_refl a : value_eqb a a = true.
Proof.
  destruct a as [t|n|q|s| |f x p]; cbn [value_eqb];
    rewrite ?Z.eqb_refl, ?String.eqb_refl, ?andb_true_r; try reflexivity.
  - apply Qeq_bool_iff. reflexivity.
  - destruct f; cbn [andb]; apply Qeq_bool_iff; reflexivity.
Qed.

Lemma value_eqb_sym a b : value_eqb a b = true -> value_eqb b a = true.
Proof.
  destruct a as [t|n|q|s| |f x p], b as [t'|n'|q'|s'| |f' x' p']; cbn [value_eqb];
    try discriminate; intros H; eqb_props; subst;
    rewrite ?Z.eqb_refl, ?String.eqb_refl, ?andb_true_r; try reflexivity;
    try (apply Qeq_bool_iff; symmetry; assumption).
  all: try (apply Z.eqb_eq; congruence).
  destruct f, f'; try discriminate; cbn [andb]; apply Qeq_bool_iff; symmetry; assumption.
Qed.

Lemma value_eqb_trans a b c :
  value_eqb a b = true -> value_eqb b c = true -> value_eqb a c = true.
Proof.
  destruct a as [t|n|q|s| |f x p], b as [t'|n'|q'|s'| |f' x' p'],
           c as [t''|n''|q''|s''| |f'' x'' p'']; cbn [value_eqb];
    try discriminate; intros H1 H2; eqb_props; subst;
    rewrite ?Z.eqb_refl, ?String.eqb_refl, ?andb_true_r; try reflexivity;
    try (apply Qeq_bool_iff; etransitivity; eassumption);
    try (apply Z.eqb_eq, inject_Z_injective; etransitivity; eassumption).
  all: try (apply Z.eqb_eq; congruence).
  all: try (apply Qeq_bool_iff; etransitivity; [eassumption|symmetry; eassumption]).
  destruct f, f', f''; try discriminate; cbn [andb];
    apply Qeq_bool_iff; etransitivity; eassumption.
Qed.

Lemma value_eqb_is_nan a b : value_eqb a b = true -> is_nan a = is_nan b.
Proof. destruct a, b; cbn [value_eqb is_nan]; intros H; try discriminate; reflexivity. Qed.

Lemma key_eqb_refl k : key_eqb k k = true.
Proof. induction k as [|a k IH]; cbn [key_eqb]; [reflexivity|]. rewrite value_eqb_refl, IH. reflexivity. Qed.

Lemma key_eqb_sym k g : key_eqb k g = true -> key_eqb g k = true.
Proof.
  revert g. induction k as [|a k IH]; intros [|b g]; cbn [key_eqb]; try discriminate; auto.
  intros H. apply andb_true_iff in H as [H1 H2].
  rewrite (value_eqb_sym _ _ H1), (IH _ H2). reflexivity.
Qed.

Lemma key_eqb_trans k g l :
  key_eqb k g = true -> key_eqb g l = true -> key_eqb k l = true.
Proof.
  revert g l. induction k as [|a k IH]; intros [|b g] [|c l]; cbn [key_eqb];
    try discriminate; auto.
  intros H H'. apply andb_true_iff in H as [H1 H2]. apply andb_true_iff in H' as [H3 H4].
  rewrite (value_eqb_trans _ _ _ H1 H3), (IH _ _ H2 H4). reflexivity.
Qed.

Lemma key_eqb_has_nan k g : key_eqb k g = true -> existsb is_nan k = existsb is_nan g.
Proof.
  revert g. induction k as [|a k IH]; intros [|b g]; cbn [key_eqb existsb];
    try discriminate; auto.
  intros H. apply andb_true_iff in H as [H1 H2].
  rewrite (value_eqb_is_nan _ _ H1), (IH _ H2). reflexivity.
Qed.

(** Keys that are equal select the same rows. *)
Lemma key_eqb_congr k g x : key_eqb k g = true -> key_eqb x k = key_eqb x g.
Proof.
  intros H. destruct (key_eqb x k) eqn:E1, (key_eqb x g) eqn:E2; try reflexivity.
  - rewrite (key_eqb_trans _ _ _ E1 H) in E2. discriminate.
  - rewrite (key_eqb_trans _ _ _ E2 (key_eqb_sym _ _ H)) in E1. discriminate.
Qed.

Lemma group_sum_congr keys nums k g :
  key_eqb k g = true -> group_sum keys nums k = group_sum keys nums g.
Proof.
  intros H. unfold group_sum. do 2 f_equal.
  apply filter_ext. intros kn. apply key_eqb_congr, H.
Qed.

Lemma distinct_keys_covers ks k :
  In k ks -> exists g, In g (distinct_keys ks) /\ key_eqb k g = true.
Proof.
  revert k. induction ks as [|k' ks IH]; intros k; [intros []|].
  intros Hin. cbn [distinct_keys].
  destruct (existsb (key_eqb k') ks) eqn:E.
  - destruct Hin as [->|Hin]; [|apply IH, Hin].
    apply existsb_exists in E as (g0 & Hg0 & Hk).
    destruct (IH _ Hg0) as (g & Hg & Hgg). exists g. split; [exact Hg|].
    eapply key_eqb_trans; eassumption.
  - destruct Hin as [->|Hin].
    + exists k. split; [left; reflexivity|apply key_eqb_refl].
    + destruct (IH _ Hin) as (g & Hg & Hgg). exists g. split; [right; exact Hg|exact Hgg].
Qed.

Lemma matches_zero_group keys nums k :
  In k keys ->
  existsb (key_eqb k) (zero_groups keys nums) = true
  <-> existsb is_nan k = false /\ Qeq_bool (group_sum keys nums k) 0 = true.
Proof.
  intros Hk. unfold zero_groups. rewrite existsb_exists. split.
  - intros (g & Hg & Hkg). apply filter_In in Hg as [Hg Hz].
    apply in_sort_by, in_distinct_keys, filter_In in Hg as [_ Hnan].
    rewrite (key_eqb_has_nan _ _ Hkg), (group_sum_congr _ _ _ _ Hkg).
    apply negb_true_iff in Hnan. auto.
  - intros [Hnan Hz].
    destruct (distinct_keys_covers
                (List.filter (fun k => negb (existsb is_nan k)) keys) k)
      as (g & Hg & Hkg).
    { apply filter_In. split; [exact Hk|]. rewrite Hnan. reflexivity. }
    exists g. split; [|exact Hkg].
    apply filter_In. split; [apply in_sort_by, Hg|].
    rewrite <- (group_sum_congr _ _ _ _ Hkg). exact Hz.
Qed.

(** ** Sums of readings that are not negative *)

Lemma nonneg_sum_zero (l : list Q) :
  Forall (fun q => 0 <= q)%Q l ->
  (fold_right Qplus 0 l == 0)%Q <-> Forall (fun q => q == 0)%Q l.
Proof.
  induction 1 as [|q l Hq Hl IH]; cbn [fold_right].
  - split; [constructor|reflexivity].
  - assert (Hs : (0 <= fold_right Qplus 0 l)%Q).
    { clear IH. induction Hl as [|x l Hx Hl IH]; cbn [fold_right]; [apply Qle_refl|].
      lra. }
    split.
    + intros H. constructor; [lra|]. apply IH. lra.
    + intros H. inversion H as [|? ? H1 H2]; subst. apply IH in H2. lra.
Qed.

Lemma in_combine_nth_error {A B} (l1 : list A) (l2 : list B) a b :
  In (a, b) (combine l1 l2)
  <-> exists j, nth_error l1 j = Some a /\ nth_error l2 j = Some b.
Proof.
  revert l2. induction l1 as [|x l1 IH]; intros [|y l2]; cbn [combine In].
  - split; [intros []|]. intros ([|j] & H & _); discriminate.
  - split; [intros []|]. intros ([|j] & H & _); discriminate.
  - split; [intros []|]. intros ([|j] & _ & H); discriminate.
  - rewrite IH. split.
    + intros [[= <- <-]|(j & H1 & H2)]; [exists 0%nat|exists (S j)]; auto.
    + intros ([|j] & H1 & H2); cbn [nth_error] in *.
      * left. congruence.
      * right. exists j. auto.
Qed.

(** With readings that are not negative, the sum of a group is not zero
    exactly when one of its readings is not zero. *)
Lemma group_sum_nonzero keys nums k :
  Forall nonnegative_reading nums ->
  Qeq_bool (group_sum keys nums k) 0 = false
  <-> exists j k' q, nth_error keys j = Some k' /\ nth_error nums j = Some (Some q)
                     /\ key_eqb k' k = true /\ ~ (q == 0)%Q.
Proof.
  intros Hnn. unfold group_sum.
  set (val := fun kn : key * option Q => match snd kn with Some q => q | None => 0%Q end).
  set (L := List.filter (fun kn : key * option Q => key_eqb (fst kn) k) (combine keys nums)).
  assert (HL : Forall (fun q => 0 <= q)%Q (map val L)).
  { apply List.Forall_forall. intros q Hq. apply in_map_iff in Hq as ([k' n] & <- & Hin).
    apply filter_In in Hin as [Hin _]. apply in_combine_r in Hin.
    rewrite List.Forall_forall in Hnn. destruct (Hnn _ Hin) as (q & -> & Hq). exact Hq. }
  rewrite <- not_true_iff_false, Qeq_bool_iff, (nonneg_sum_zero _ HL).
  split.
  - intros Hne. apply neg_Forall_Exists_neg in Hne.
    + apply List.Exists_exists in Hne as (q & Hq & Hq0).
      apply in_map_iff in Hq as ([k' n] & <- & Hin).
      apply filter_In in Hin as [Hin Hkey]. cbn [fst] in Hkey.
      pose proof Hin as Hin'. apply in_combine_r in Hin'.
      rewrite List.Forall_forall in Hnn. destruct (Hnn _ Hin') as (q & -> & _).
      apply in_combine_nth_error in Hin as (j & H1 & H2).
      exists j, k', q. auto.
    + intros q. destruct (Qeq_dec q 0); [left|right]; assumption.
  - intros (j & k' & q & H1 & H2 & Hkey & Hq) Hall.
    rewrite List.Forall_forall in Hall. apply Hq.
    apply (Hall (val (k', Some q))). apply in_map. apply filter_In. split; [|exact Hkey].
    apply in_combine_nth_error. exists j. auto.
Qed.


Lemma nth_error_row_keys ks n i :
  i < n -> nth_error (row_keys ks n) i = Some (row_key ks i).
Proof.
  intros Hi. unfold row_keys. rewrite nth_error_map, nth_error_seq.
  destruct (Nat.ltb_spec i n); [reflexivity|lia].
Qed.

Lemma nth_truncated ds i :
  i < length ds ->
  nth i (truncated ds) VNaN = VTimestamp (Calendar.floor_D (nth i ds 0%Z)).
Proof.
  intros Hi. unfold truncated. cbn [cells].
  rewrite (nth_indep _ VNaN (VTimestamp (Calendar.floor_D 0))) by (rewrite length_map; exact Hi).
  apply (map_nth (fun t => VTimestamp (Calendar.floor_D t))).
Qed.

Lemma key_eqb_day_keys names ds i j :
  i < length ds -> j < length ds ->
  key_eqb (row_key [names; truncated ds] i) (row_key [names; truncated ds] j) = true
  <-> same_sensor_day names ds i j.
Proof.
  intros Hi Hj. unfold row_key, same_sensor_day. cbn [map key_eqb].
  rewrite !nth_truncated by assumption. cbn [value_eqb].
  rewrite andb_true_r, andb_true_iff, Z.eqb_eq. reflexivity.
Qed.

Lemma has_nan_day_key names ds i :
  i < length ds ->
  existsb is_nan (row_key [names; truncated ds] i) = is_nan (nth i names VNaN).
Proof.
  intros Hi. unfold row_key. cbn [map existsb]. rewrite nth_truncated by exact Hi.
  cbn [is_nan]. rewrite !orb_false_r. reflexivity.
Qed.

(** The rows [delete_zeros] keeps, for readings that are not negative. *)
Lemma surviving_rows_spec names ds nums i :
  length nums = length ds ->
  Forall nonnegative_reading nums ->
  i < length ds ->
  In i (surviving_rows (row_keys [names; truncated ds] (length ds)) nums)
  <-> is_nan (nth i names VNaN) = true
      \/ exists j q, j < length ds /\ same_sensor_day names ds i j
                     /\ nth_error nums j = Some (Some q) /\ ~ (q == 0)%Q.
Proof.
  intros Hlen Hnn Hi. unfold surviving_rows.
  set (keys := row_keys [names; truncated ds] (length ds)).
  set (ki := row_key [names; truncated ds] i).
  assert (Hki : nth_error keys i = Some ki) by (apply nth_error_row_keys, Hi).
  assert (Hin : In ki keys) by (eapply nth_error_In, Hki).
  transitivity (existsb (key_eqb ki) (zero_groups keys nums) = false).
  { split.
    - intros H. eapply Permutation_in in H; [|apply surviving_unmatched].
      apply in_unmatched in H as (k & Hk & Hr). congruence.
    - intros H. eapply Permutation_in; [symmetry; apply surviving_unmatched|].
      apply in_unmatched. exists ki. auto. }
  rewrite <- not_true_iff_false, (matches_zero_group keys nums ki Hin).
  unfold ki at 1. rewrite has_nan_day_key by exact Hi.
  split.
  - intros H. destruct (is_nan (nth i names VNaN)); [left; reflexivity|right].
    destruct (Qeq_bool (group_sum keys nums ki) 0) eqn:E; [exfalso; auto|].
    apply group_sum_nonzero in E as (j & k' & q & H1 & H2 & Hkey & Hq); [|exact Hnn].
    assert (Hj : j < length ds).
    { rewrite <- Hlen. apply nth_error_Some. congruence. }
    unfold keys in H1. rewrite nth_error_row_keys in H1 by exact Hj.
    injection H1 as <-. exists j, q. repeat split; auto.
    + apply key_eqb_sym in Hkey. apply key_eqb_day_keys in Hkey; [apply Hkey|lia|lia].
    + apply key_eqb_sym in Hkey. apply key_eqb_day_keys in Hkey; [apply Hkey|lia|lia].
  - intros [Hnan|(j & q & Hj & Hsame & Hq & Hq0)] [H1 H2]; [congruence|].
    assert (E : Qeq_bool (group_sum keys nums ki) 0 = false); [|congruence].
    apply group_sum_nonzero; [exact Hnn|].
    exists j, (row_key [names; truncated ds] j), q. repeat split; auto.
    + apply nth_error_row_keys, Hj.
    + apply key_eqb_sym, key_eqb_day_keys; assumption.
Qed.

Lemma NoDup_surviving_rows keys nums : List.NoDup (surviving_rows keys nums).
Proof.
  eapply Permutation_NoDup; [symmetry; apply surviving_unmatched|apply NoDup_unmatched].
Qed.

(** * The claims *)

Lemma runs_store {A} (m : M A) x df a df' (h : store) :
  runs m x df a df' -> h !! x = Some df ->
  m h = (Ok a, <[x := df']> h) /\ <[x := df']> h !! x = Some df'.
Proof.
  intros Hm H. split; [apply Hm, H|]. eapply store_insert_lookup, H.
Qed.

Lemma peak_flag_one hr :
  peak_flag hr = 1%Z <-> (6 <= hr < 9 \/ 16 <= hr < 19)%Z.
Proof.
  unfold peak_flag.
  destruct (Z.leb_spec 6 hr), (Z.ltb_spec hr 9), (Z.leb_spec 16 hr), (Z.ltb_spec hr 19);
    cbn [andb orb]; split; intros E; try discriminate; try lia; reflexivity.
Qed.

Lemma peak_flag_zero hr :
  peak_flag hr = 0%Z <-> ~ (6 <= hr < 9 \/ 16 <= hr < 19)%Z.
Proof.
  unfold peak_flag.
  destruct (Z.leb_spec 6 hr), (Z.ltb_spec hr 9), (Z.leb_spec 16 hr), (Z.ltb_spec hr 19);
    cbn [andb orb]; split; intros E; try discriminate; try lia; reflexivity.
Qed.

(** C7. After [add_indicator_features], the [is_peak] flag of a row is 1
    exactly when the row's hour lies in [6,9) or [16,19), and 0 otherwise. *)
Theorem is_peak_flag_of_hour (h : store) X df d hours sh ph :
  h !! X = Some df -> well_formed df ->
  df_get df "date_x" = Ok d -> df_get df "hour" = Ok (series (map VInt hours)) ->
  exists h' out flags,
    add_indicator_features X sh ph h = (Ok X, h') /\ h' !! X = Some out
    /\ df_get out "is_peak" = Ok flags /\ length flags = length hours
    /\ forall i hr, nth_error hours i = Some hr ->
         (nth_error flags i = Some (VInt 1) <-> (6 <= hr < 9 \/ 16 <= hr < 19)%Z)
         /\ (nth_error flags i = Some (VInt 0) <-> ~ (6 <= hr < 9 \/ 16 <= hr < 19)%Z).
Proof.
  intros H Hwf Hd Hh.
  destruct (runs_store _ X df X _ h
              (add_indicator_features_runs X df d _ _ sh ph Hwf Hd Hh (apply_peak_hours hours)) H)
    as [Hrun Hout].
  eexists _, _, (series (map (fun hr => VInt (peak_flag hr)) hours)).
  split; [exact Hrun|]. split; [exact Hout|].
  split; [unfold indicator_frame; rewrite df_get_assign; reflexivity|].
  rewrite cells_series.
  split; [apply length_map|].
  intros i hr Hi. rewrite nth_error_map, Hi. cbn [option_map].
  split; (split; [intros [= E]|intros E; do 2 f_equal]);
    first [apply peak_flag_one|apply peak_flag_zero]; exact E.
Qed.

Lemma is_peak_flag_of_hour_witness :
  exists h' out flags,
    add_indicator_features 0 [] [] [example_hours] = (Ok 0, h') /\ h' !! 0 = Some out
    /\ df_get out "is_peak" = Ok flags /\ length flags = 2
    /\ forall i hr, nth_error [7; 12]%Z i = Some hr ->
         (nth_error flags i = Some (VInt 1) <-> (6 <= hr < 9 \/ 16 <= hr < 19)%Z)
         /\ (nth_error flags i = Some (VInt 0) <-> ~ (6 <= hr < 9 \/ 16 <= hr < 19)%Z).
Proof.
  apply (is_peak_flag_of_hour [example_hours] 0 example_hours (series [VNaN; VNaN])
           [7; 12]%Z [] []).
  - reflexivity.
  - repeat constructor.
  - reflexivity.
  - reflexivity.
Defined.

Lemma season_cell_int m :
  season_cell (VInt m)
  = VStr (if (m =? 12)%Z || (m =? 1)%Z || (m =? 2)%Z then "Winter"
          else if (m =? 3)%Z || (m =? 4)%Z || (m =? 5)%Z then "Spring"
          else if (m =? 6)%Z || (m =? 7)%Z || (m =? 8)%Z then "Summer"
          else if (m =? 9)%Z || (m =? 10)%Z || (m =? 11)%Z then "Fall"
          else "Unknown").
Proof.
  unfold season_cell. cbn [existsb value_eqb]. rewrite !orb_false_r, !orb_assoc.
  repeat match goal with |- context [if ?b then _ else _] => destruct b end; reflexivity.
Qed.

(** C5. [add_season_feature] gives December, January and February the
    season Winter, March to May Spring, June to August Summer, September to
    November Fall; a month outside 1..12 gets "Unknown", and no month of
    1..12 does. *)
Theorem season_of_month (h : store) X df months :
  h !! X = Some df -> well_formed df ->
  df_get df "month" = Ok (series (map VInt months)) ->
  exists h' out season,
    add_season_feature X h = (Ok X, h') /\ h' !! X = Some out
    /\ df_get out "season" = Ok season /\ length season = length months
    /\ forall i m, nth_error months i = Some m ->
         ((m = 12 \/ m = 1 \/ m = 2)%Z -> nth_error season i = Some (VStr "Winter"))
         /\ ((m = 3 \/ m = 4 \/ m = 5)%Z -> nth_error season i = Some (VStr "Spring"))
         /\ ((m = 6 \/ m = 7 \/ m = 8)%Z -> nth_error season i = Some (VStr "Summer"))
         /\ ((m = 9 \/ m = 10 \/ m = 11)%Z -> nth_error season i = Some (VStr "Fall"))
         /\ (nth_error season i = Some (VStr "Unknown") <-> ~ (1 <= m <= 12)%Z).
Proof.
  intros H Hwf Hm.
  destruct (runs_store _ X df X _ h (add_season_feature_runs X df _ Hwf Hm) H)
    as [Hrun Hout].
  eexists _, _, (series (map season_cell (map VInt months))).
  split; [exact Hrun|]. split; [exact Hout|].
  split; [unfold season_frame; rewrite df_get_assign; reflexivity|].
  rewrite cells_series.
  split; [rewrite !length_map; reflexivity|].
  intros i m Hi. rewrite map_map, nth_error_map, Hi. cbn [option_map].
  rewrite season_cell_int.
  split; [intros [-> | [-> | ->]]; reflexivity|].
  split; [intros [-> | [-> | ->]]; reflexivity|].
  split; [intros [-> | [-> | ->]]; reflexivity|].
  split; [intros [-> | [-> | ->]]; reflexivity|].
  split.
  - intros E Hrange.
    assert (Hcases : (m = 1 \/ m = 2 \/ m = 3 \/ m = 4 \/ m = 5 \/ m = 6 \/ m = 7
                      \/ m = 8 \/ m = 9 \/ m = 10 \/ m = 11 \/ m = 12)%Z) by lia.
    repeat (destruct Hcases as [->|Hcases]; [discriminate E|]).
    subst m. discriminate E.
  - intros Hrange.
    repeat match goal with
      | |- context [(m =? ?k)%Z] =>
          replace (m =? k)%Z with false by (symmetry; apply Z.eqb_neq; lia)
      end.
    reflexivity.
Qed.

Lemma season_of_month_witness :
  exists h' out season,
    add_season_feature 0 [example_months] = (Ok 0, h') /\ h' !! 0 = Some out
    /\ df_get out "season" = Ok season /\ length season = 3
    /\ forall i m, nth_error [1; 7; 13]%Z i = Some m ->
         ((m = 12 \/ m = 1 \/ m = 2)%Z -> nth_error season i = Some (VStr "Winter"))
         /\ ((m = 3 \/ m = 4 \/ m = 5)%Z -> nth_error season i = Some (VStr "Spring"))
         /\ ((m = 6 \/ m = 7 \/ m = 8)%Z -> nth_error season i = Some (VStr "Summer"))
         /\ ((m = 9 \/ m = 10 \/ m = 11)%Z -> nth_error season i = Some (VStr "Fall"))
         /\ (nth_error season i = Some (VStr "Unknown") <-> ~ (1 <= m <= 12)%Z).
Proof.
  apply (season_of_month [example_months] 0 example_months [1; 7; 13]%Z).
  - reflexivity.
  - repeat constructor.
  - reflexivity.
Defined.

Lemma Qlt_bool_iff a b : Qlt_bool a b = true <-> (a < b)%Q.
Proof.
  unfold Qlt_bool. rewrite negb_true_iff, <- not_true_iff_false, Qle_bool_iff.
  split; [apply Qnot_le_lt|apply Qlt_not_le].
Qed.

Lemma Qlt_bool_false a b : Qlt_bool a b = false <-> (b <= a)%Q.
Proof.
  unfold Qlt_bool. rewrite negb_false_iff, Qle_bool_iff. reflexivity.
Qed.

(** The bin of a rainfall amount. *)
Lemma rain_category_of (r : Q) :
  cut_value rain_bins rain_labels (Some r)
  = if Qle_bool r (-1) then VNaN
    else if Qle_bool r 0 then VStr "No Rain"
    else if Qle_bool r 2 then VStr "Light Rain"
    else if Qle_bool r 10 then VStr "Moderate Rain"
    else VStr "Heavy Rain".
Proof.
  unfold cut_value, rain_bins, rain_labels. cbn [searchsorted_left edge_lt length].
  unfold Qlt_bool.
  destruct (Qle_bool r (-1)) eqn:E1; cbn [negb]; [reflexivity|].
  destruct (Qle_bool r 0) eqn:E2; cbn [negb]; [reflexivity|].
  destruct (Qle_bool r 2) eqn:E3; cbn [negb]; [reflexivity|].
  destruct (Qle_bool r 10) eqn:E4; cbn [negb]; reflexivity.
Qed.

(** C4. [categorize_weather] bins the rainfall of a row into (-1,0] "No
    Rain", (0,2] "Light Rain", (2,10] "Moderate Rain" and above 10 "Heavy
    Rain", each bin closed on the right; so 0 is "No Rain", 2 is "Light
    Rain", 10 is "Moderate Rain" and 10.0001 is "Heavy Rain". *)
Theorem rain_category_bins (h : store) data df rain :
  h !! data = Some df -> well_formed df ->
  df_get df "rr1" = Ok (series (map VFloat rain)) ->
  exists h' out category,
    categorize_weather data h = (Ok data, h') /\ h' !! data = Some out
    /\ df_get out "rain_category" = Ok category /\ length category = length rain
    /\ (forall i r, nth_error rain i = Some r ->
          ((-1 < r /\ r <= 0)%Q -> nth_error category i = Some (VStr "No Rain"))
          /\ ((0 < r /\ r <= 2)%Q -> nth_error category i = Some (VStr "Light Rain"))
          /\ ((2 < r /\ r <= 10)%Q -> nth_error category i = Some (VStr "Moderate Rain"))
          /\ ((10 < r)%Q -> nth_error category i = Some (VStr "Heavy Rain"))
          /\ ((r <= -1)%Q -> nth_error category i = Some VNaN))
    /\ cut_value rain_bins rain_labels (Some 0%Q) = VStr "No Rain"
    /\ cut_value rain_bins rain_labels (Some 2%Q) = VStr "Light Rain"
    /\ cut_value rain_bins rain_labels (Some 10%Q) = VStr "Moderate Rain"
    /\ cut_value rain_bins rain_labels (Some (100001 # 10000)%Q) = VStr "Heavy Rain".
Proof.
  intros H Hwf Hr.
  assert (Hn : traverse num_of (map VFloat rain) = Ok (map Some rain))
    by (apply traverse_map_ok; reflexivity).
  destruct (runs_store _ data df data _ h (categorize_weather_runs data df _ _ Hwf Hr Hn) H)
    as [Hrun Hout].
  eexists _, _, (series (map (cut_value rain_bins rain_labels) (map Some rain))).
  split; [exact Hrun|]. split; [exact Hout|].
  split; [unfold categorized_frame; rewrite df_get_assign; reflexivity|].
  rewrite cells_series.
  split; [rewrite !length_map; reflexivity|].
  split; [|repeat split; reflexivity].
  intros i r Hi. rewrite map_map, nth_error_map, Hi. cbn [option_map].
  rewrite rain_category_of.
  destruct (Qle_bool r (-1)) eqn:E1; [apply Qle_bool_iff in E1|apply not_true_iff_false in E1; rewrite Qle_bool_iff in E1].
  { repeat split; intros; try reflexivity; exfalso; lra. }
  destruct (Qle_bool r 0) eqn:E2; [apply Qle_bool_iff in E2|apply not_true_iff_false in E2; rewrite Qle_bool_iff in E2].
  { repeat split; intros; try reflexivity; exfalso; lra. }
  destruct (Qle_bool r 2) eqn:E3; [apply Qle_bool_iff in E3|apply not_true_iff_false in E3; rewrite Qle_bool_iff in E3].
  { repeat split; intros; try reflexivity; exfalso; lra. }
  destruct (Qle_bool r 10) eqn:E4; [apply Qle_bool_iff in E4|apply not_true_iff_false in E4; rewrite Qle_bool_iff in E4].
  { repeat split; intros; try reflexivity; exfalso; lra. }
  repeat split; intros; try reflexivity; exfalso; lra.
Qed.

Lemma rain_category_bins_witness :
  exists h' out category,
    categorize_weather 0 [example_rain] = (Ok 0, h') /\ h' !! 0 = Some out
    /\ df_get out "rain_category" = Ok category /\ length category = 4
    /\ (forall i r, nth_error [0; 2; 10; 100001 # 10000]%Q i = Some r ->
          ((-1 < r /\ r <= 0)%Q -> nth_error category i = Some (VStr "No Rain"))
          /\ ((0 < r /\ r <= 2)%Q -> nth_error category i = Some (VStr "Light Rain"))
          /\ ((2 < r /\ r <= 10)%Q -> nth_error category i = Some (VStr "Moderate Rain"))
          /\ ((10 < r)%Q -> nth_error category i = Some (VStr "Heavy Rain"))
          /\ ((r <= -1)%Q -> nth_error category i = Some VNaN))
    /\ cut_value rain_bins rain_labels (Some 0%Q) = VStr "No Rain"
    /\ cut_value rain_bins rain_labels (Some 2%Q) = VStr "Light Rain"
    /\ cut_value rain_bins rain_labels (Some 10%Q) = VStr "Moderate Rain"
    /\ cut_value rain_bins rain_labels (Some (100001 # 10000)%Q) = VStr "Heavy Rain".
Proof.
  apply (rain_category_bins [example_rain] 0 example_rain [0; 2; 10; 100001 # 10000]%Q).
  - reflexivity.
  - repeat constructor.
  - reflexivity.
Defined.


(** What [encode_dates] returns and what it leaves behind the caller's
    reference. *)
Lemma encode_dates_returns (h : store) X df ts sh ph :
  h !! X = Some df -> well_formed df -> df_get df "date_x" = Ok (timestamps ts) ->
  exists h',
    encode_dates X sh ph h = (Ok (length h + 2), h')
    /\ h' !! (length h + 2) = Some (encode_dates_result ts sh ph df)
    /\ h' !! X = Some (encode_dates_input ts sh ph df)
    /\ X < length h.
Proof.
  intros H Hwf Hd. pose proof (lookup_lt_Some _ _ _ H) as HX.
  eexists. split; [exact (encode_dates_run df ts sh ph Hwf Hd h X H)|].
  split; [|split; [|exact HX]].
  - replace (length h + 2)
      with (length (<[X := encode_dates_input ts sh ph df]> h) + 2)
      by (rewrite length_insert; reflexivity).
    rewrite lookup_app_r by lia.
    replace (_ + 2 - _) with 2 by lia. reflexivity.
  - rewrite lookup_app_l by (rewrite length_insert; exact HX).
    apply list_lookup_insert_eq, HX.
Qed.



Lemma getitem_missing (h : store) x df c e :
  h !! x = Some df -> df_get df c = Err e -> getitem x c h = (Err e, h).
Proof.
  intros H Hc. unfold getitem, bind, deref, lift. rewrite H, Hc. reflexivity.
Qed.

Lemma bind_raises {A B} (m : M A) (k : A -> M B) (h h' : store) e :
  m h = (Err e, h') -> bind m k h = (Err e, h').
Proof. intros Hm. unfold bind. rewrite Hm. reflexivity. Qed.



(** ** Frames without rows *)

Lemma zero_rows_col df c :
  well_formed df -> nrows df = 0 -> has_col df c = true ->
  exists s : Series, df_get df c = Ok s /\ cells s = [].
Proof.
  intros Hwf Hz Hc. unfold has_col in Hc.
  destruct (lookup_col c (cols df)) as [l|] eqn:El; [|discriminate].
  assert (Hs : df_get df c = Ok l) by (unfold df_get; rewrite El; reflexivity).
  exists l. split; [exact Hs|].
  apply (well_formed_get _ _ _ Hwf) in Hs. rewrite Hz in Hs.
  destruct (cells l); [reflexivity|discriminate].
Qed.

Lemma has_col_iloc idxs df c : has_col (df_iloc idxs df) c = has_col df c.
Proof.
  unfold has_col, df_iloc. cbn [cols].
  rewrite (lookup_col_map (fun _ s => iloc idxs s)).
  destruct (lookup_col c (cols df)); reflexivity.
Qed.

Lemma has_col_remove names df c :
  has_col (df_remove names df) c = negb (mem_string c names) && has_col df c.
Proof.
  unfold has_col, df_remove. cbn [cols]. rewrite lookup_col_filter.
  destruct (mem_string c names); reflexivity.
Qed.

Lemma well_formed_iloc idxs df : well_formed (df_iloc idxs df).
Proof.
  unfold well_formed, df_iloc. cbn [cols nrows]. apply List.Forall_forall.
  intros cs Hcs. apply in_map_iff in Hcs as (cs' & <- & _). cbn [snd].
  unfold iloc. cbn [cells]. apply length_map.
Qed.

Lemma well_formed_weather_frame rr t ff df :
  well_formed df -> length rr = nrows df -> length t = nrows df ->
  length ff = nrows df -> well_formed (weather_frame rr t ff df).
Proof.
  intros Hwf Hr Ht Hf.
  unfold weather_frame, weather_indicator_frame, categorized_frame.
  repeat (apply well_formed_assign;
          [| cbn [nrows df_assign]; rewrite ?length_astype_int, ?cells_series, ?length_map;
             assumption]).
  exact Hwf.
Qed.

(** C8, as the code has it.  On a frame without rows that has the
    documented columns, [date_x] and [date] being datetime64 columns,
    [encode_dates], [engineer_weather_features] and [delete_zeros] all
    return, and return a well-formed frame without rows that has the
    derived columns. *)
Theorem zero_rows_succeed (h : store) X df sh ph :
  h !! X = Some df -> well_formed df -> nrows df = 0 ->
  df_get df "date_x" = Ok (timestamps []) ->
  df_get df "date" = Ok (timestamps []) ->
  forallb (has_col df) ["counter_name"; "log_bike_count"; "t"; "rr1"; "ff"] = true ->
  has_col df "_merge" = false ->
  (exists X' h' out,
     encode_dates X sh ph h = (Ok X', h') /\ h' !! X' = Some out
     /\ nrows out = 0 /\ well_formed out
     /\ forallb (has_col out)
          ["year"; "day"; "weekday"; "season"; "school_holiday"; "public_holiday";
           "is_peak"; "sin_hour"; "cos_hour"; "sin_month"; "cos_month"; "curfew"] = true)
  /\ (exists h' out,
        engineer_weather_features X h = (Ok X, h') /\ h' !! X = Some out
        /\ nrows out = 0 /\ well_formed out
        /\ forallb (has_col out)
             ["rain_category"; "is_hot_day"; "is_cold_day"; "high_wind"] = true)
  /\ (exists X' h' out,
        delete_zeros X h = (Ok X', h') /\ h' !! X' = Some out
        /\ nrows out = 0 /\ well_formed out
        /\ forallb (has_col out) ["counter_name"; "date"; "log_bike_count"] = true
        /\ has_col out "truncated_date" = false).
Proof.
  intros H Hwf Hz Hdx Hd Hcols Hmerge.
  cbn [forallb] in Hcols.
  repeat match goal with
    | Hc : (_ && _)%bool = true |- _ => apply andb_true_iff in Hc; destruct Hc
    end.
  repeat match goal with
    | Hc : has_col df _ = true |- _ =>
        apply (zero_rows_col df _ Hwf Hz) in Hc; destruct Hc as (? & Hc & ?)
    end.
  split; [|split].
  - destruct (encode_dates_returns h X df [] sh ph H Hwf Hdx) as (h' & Hrun & Hout & _).
    exists (length h + 2), h', (encode_dates_result [] sh ph df).
    split; [exact Hrun|]. split; [exact Hout|]. split; [exact Hz|].
    split; [apply well_formed_encode_dates_result; assumption|].
    cbn [forallb]. rewrite andb_true_r.
    repeat (apply andb_true_iff; split); eapply has_col_get; get_frames.
  - assert (Hn : forall s : Series, cells s = [] -> traverse num_of s = Ok [])
      by (intros s ->; reflexivity).
    match goal with
    | Hr : df_get df "rr1" = Ok ?rr1, Er : cells ?rr1 = [],
      Ht : df_get df "t" = Ok ?tcol, Et : cells ?tcol = [],
      Hf : df_get df "ff" = Ok ?fcol, Ef : cells ?fcol = [] |- _ =>
        destruct (runs_store _ X df X _ h
                    (engineer_weather_features_runs X df rr1 tcol fcol [] [] []
                       Hwf Hr (Hn _ Er) Ht (Hn _ Et) Hf (Hn _ Ef)) H)
          as [Hrun Hout]
    end.
    eexists _, _. split; [exact Hrun|]. split; [exact Hout|]. split; [exact Hz|].
    split; [apply well_formed_weather_frame; cbn [length]; auto|].
    cbn [forallb]. rewrite andb_true_r.
    repeat (apply andb_true_iff; split); eapply has_col_get;
      unfold weather_frame, weather_indicator_frame, categorized_frame;
      repeat rewrite df_get_assign; reflexivity.
  - match goal with
    | Hn : df_get df "counter_name" = Ok ?names, En : cells ?names = [],
      Hc : df_get df "log_bike_count" = Ok ?counts, Ec : cells ?counts = [] |- _ =>
        assert (Hnum : traverse num_of counts = Ok []) by (rewrite Ec; reflexivity);
        pose proof (delete_zeros_allocates X df [] names counts [] Hwf Hd
                      Hn Hc Hnum Hmerge h H) as Hrun
    end.
    rewrite Hz in Hrun. change (surviving_rows _ _) with (@nil nat) in Hrun.
    eexists _, _, _. split; [exact Hrun|].
    split.
    { replace (length h) with (length (<[X := df_assign df "truncated_date" (truncated [])]> h))
        by apply length_insert.
      apply store_lookup_last. }
    split; [reflexivity|]. split; [apply well_formed_iloc|].
    split.
    + cbn [forallb]. rewrite !has_col_iloc, !has_col_remove. cbn [mem_string existsb negb].
      repeat match goal with
        | Hc : df_get df ?c = Ok _ |- _ => apply has_col_get in Hc; try rewrite Hc; clear Hc
        end.
      reflexivity.
    + rewrite has_col_iloc, has_col_remove. reflexivity.
Qed.

Lemma zero_rows_succeed_witness :
  (exists X' h' out,
     encode_dates 0 [] [] [empty_table] = (Ok X', h') /\ h' !! X' = Some out
     /\ nrows out = 0 /\ well_formed out
     /\ forallb (has_col out)
          ["year"; "day"; "weekday"; "season"; "school_holiday"; "public_holiday";
           "is_peak"; "sin_hour"; "cos_hour"; "sin_month"; "cos_month"; "curfew"] = true)
  /\ (exists h' out,
        engineer_weather_features 0 [empty_table] = (Ok 0, h') /\ h' !! 0 = Some out
        /\ nrows out = 0 /\ well_formed out
        /\ forallb (has_col out)
             ["rain_category"; "is_hot_day"; "is_cold_day"; "high_wind"] = true)
  /\ (exists X' h' out,
        delete_zeros 0 [empty_table] = (Ok X', h') /\ h' !! X' = Some out
        /\ nrows out = 0 /\ well_formed out
        /\ forallb (has_col out) ["counter_name"; "date"; "log_bike_count"] = true
        /\ has_col out "truncated_date" = false).
Proof.
  apply (zero_rows_succeed [empty_table] 0 empty_table [] []);
    first [reflexivity | repeat constructor].
Defined.

(** C8 as stated fails: the frame that [pd.DataFrame(columns=[...])] makes
    has the documented column names and no row, and none of its columns is
    datetime64; on it [encode_dates] and [delete_zeros] raise the
    AttributeError of the [.dt] accessor, before anything is changed. *)
Lemma untyped_zero_rows_raise :
  well_formed untyped_empty_table /\ nrows untyped_empty_table = 0
  /\ forallb (has_col untyped_empty_table)
       ["date_x"; "date"; "counter_name"; "log_bike_count"; "t"; "rr1"; "ff"] = true
  /\ has_col untyped_empty_table "_merge" = false
  /\ (forall sh ph,
        encode_dates 0 sh ph [untyped_empty_table]
        = (Err AttributeError, [untyped_empty_table]))
  /\ delete_zeros 0 [untyped_empty_table] = (Err AttributeError, [untyped_empty_table]).
Proof.
  split; [repeat constructor|]. repeat split; reflexivity.
Qed.

(** ** What happens to the caller's frame *)




(** ** The dead-period cleaner *)

(** C3, as the code has it.  When no count reading is negative,
    [delete_zeros] returns the rows of its argument at the positions [kept],
    each once, with the helper columns gone: a row is kept exactly when some
    reading of its sensor on its day is not zero (or the row names no
    sensor, so that it is in no group), and removed exactly when every
    reading of its sensor on its day is zero. *)
Theorem delete_zeros_nonnegative (h : store) data df ds names counts nums :
  h !! data = Some df -> well_formed df ->
  df_get df "date" = Ok (timestamps ds) ->
  df_get df "counter_name" = Ok names ->
  df_get df "log_bike_count" = Ok counts -> traverse num_of counts = Ok nums ->
  has_col df "_merge" = false ->
  Forall nonnegative_reading nums ->
  exists kept h' out,
    delete_zeros data h = (Ok (length h), h') /\ h' !! length h = Some out
    /\ out = df_iloc kept (df_remove ["_merge"; "truncated_date"] df)
    /\ List.NoDup kept
    /\ forall i, i < nrows df ->
         (In i kept <->
            is_nan (nth i names VNaN) = true
            \/ exists j q, j < nrows df /\ same_sensor_day names ds i j
                           /\ nth_error nums j = Some (Some q) /\ ~ (q == 0)%Q)
         /\ (~ In i kept <->
               is_nan (nth i names VNaN) = false
               /\ forall j q, j < nrows df -> same_sensor_day names ds i j ->
                              nth_error nums j = Some (Some q) -> (q == 0)%Q).
Proof.
  intros H Hwf Hd Hn Hc Hnum Hmerge Hnn.
  assert (Hlen : length ds = nrows df).
  { rewrite <- (well_formed_get _ _ _ Hwf Hd). symmetry. apply length_timestamps. }
  assert (Hlenn : length nums = length ds).
  { rewrite (traverse_length _ _ _ Hnum), (well_formed_get _ _ _ Hwf Hc). symmetry. exact Hlen. }
  pose proof (delete_zeros_allocates data df ds names counts nums Hwf Hd Hn Hc Hnum Hmerge h H)
    as Hrun.
  rewrite <- Hlen in *.
  exists (surviving_rows (row_keys [names; truncated ds] (length ds)) nums).
  eexists _, _. split; [exact Hrun|]. split.
  { replace (length h)
      with (length (<[data := df_assign df "truncated_date" (truncated ds)]> h)) at 1
      by apply length_insert.
    apply store_lookup_last. }
  split; [reflexivity|]. split; [apply NoDup_surviving_rows|].
  intros i Hi.
  pose proof (surviving_rows_spec names ds nums i Hlenn Hnn Hi) as Hspec.
  split; [exact Hspec|].
  rewrite Hspec. split.
  - intros Hnot. split.
    + destruct (is_nan (nth i names VNaN)); [exfalso; apply Hnot; left|]; reflexivity.
    + intros j q Hj Hsame Hq. destruct (Qeq_dec q 0) as [E|E]; [exact E|].
      exfalso. apply Hnot. right. exists j, q. auto.
  - intros [Hnan Hall] [Hn'|(j & q & Hj & Hsame & Hq & Hq0)]; [congruence|].
    apply Hq0. eapply Hall; eassumption.
Qed.

Lemma delete_zeros_nonnegative_witness :
  exists kept h' out,
    delete_zeros 0 [example_table] = (Ok 1, h') /\ h' !! 1 = Some out
    /\ out = df_iloc kept (df_remove ["_merge"; "truncated_date"] example_table)
    /\ List.NoDup kept
    /\ forall i, i < 4 ->
         (In i kept <->
            is_nan (nth i [VStr "A"; VStr "A"; VStr "A"; VStr "B"] VNaN) = true
            \/ exists j q, j < 4
                 /\ same_sensor_day [VStr "A"; VStr "A"; VStr "A"; VStr "B"] example_dates i j
                 /\ nth_error (map Some [0; 3 # 2; 0; 0]%Q) j = Some (Some q)
                 /\ ~ (q == 0)%Q)
         /\ (~ In i kept <->
               is_nan (nth i [VStr "A"; VStr "A"; VStr "A"; VStr "B"] VNaN) = false
               /\ forall j q, j < 4 ->
                    same_sensor_day [VStr "A"; VStr "A"; VStr "A"; VStr "B"] example_dates i j ->
                    nth_error (map Some [0; 3 # 2; 0; 0]%Q) j = Some (Some q) -> (q == 0)%Q).
Proof.
  apply (delete_zeros_nonnegative [example_table] 0 example_table example_dates
           (series [VStr "A"; VStr "A"; VStr "A"; VStr "B"])
           (series (map VFloat [0; 3 # 2; 0; 0]%Q)) (map Some [0; 3 # 2; 0; 0]%Q)).
  - reflexivity.
  - repeat constructor.
  - reflexivity.
  - reflexivity.
  - reflexivity.
  - reflexivity.
  - reflexivity.
  - repeat (constructor; [eexists; split; [reflexivity|discriminate]|]). constructor.
Defined.

(** C3 as stated fails: two readings of one sensor on one day that cancel
    are both removed, though neither is zero. *)
Lemma delete_zeros_cancelling_readings :
  df_get cancelling_table "log_bike_count" = Ok (series [VFloat 1; VFloat (-1)])
  /\ df_get cancelling_table "counter_name" = Ok (series [VStr "A"; VStr "A"])
  /\ exists h' out,
       delete_zeros 0 [cancelling_table] = (Ok 1, h') /\ h' !! 1 = Some out
       /\ nrows out = 0.
Proof.
  split; [reflexivity|]. split; [reflexivity|].
  eexists _, _. split; [vm_compute; reflexivity|]. split; reflexivity.
Qed.

(** ** The holiday flags and the curfew flag at a failing input *)

(** C1 at 2020-12-25 10:00 with Christmas in both calendars: the day of the
    row is in the holiday set, and both flags are 0, because [isin] compares
    the whole timestamp with the midnights of the set. *)
Theorem holiday_flags_at_ten_on_christmas :
  In (VTimestamp (Calendar.floor_D christmas_morning))
    (get_public_holidays christmas_calendar)
  /\ exists h' out,
       encode_dates 0 (get_public_holidays christmas_calendar)
         (get_public_holidays christmas_calendar) [christmas_table] = (Ok 3, h')
       /\ h' !! 3 = Some out
       /\ df_get out "school_holiday" = Ok (series [VInt 0])
       /\ df_get out "public_holiday" = Ok (series [VInt 0]).
Proof.
  split; [left; reflexivity|].
  eexists _, _. split; [vm_compute; reflexivity|]. repeat split; reflexivity.
Qed.

(** C2 at 2020-10-29 22:00: the date is the last day of the first window
    and the hour is past its start hour, and [is_curfew] returns 0, because
    the timestamp is compared with the midnight that begins the end date. *)
Theorem is_curfew_on_last_evening :
  In ("2020-10-17", "2020-10-29", 21, 6)%Z curfews
  /\ (Calendar.days_from_civil 2020 10 17 <= Calendar.day_number last_curfew_evening
      <= Calendar.days_from_civil 2020 10 29)%Z
  /\ (21 <= Calendar.hour last_curfew_evening)%Z
  /\ is_curfew last_curfew_evening = Ok 0%Z.
Proof.
  split; [left; reflexivity|]. split; [vm_compute; split; discriminate|].
  split; [vm_compute; discriminate|]. vm_compute. reflexivity.
Qed.

(** What the two flags do compute: [is_curfew] is 1 exactly when the
    timestamp lies between the midnight that begins the start date and the
    midnight that begins the end date of a window, at an hour of curfew. *)
Lemma is_curfew_one t :
  is_curfew t = Ok 1%Z
  <-> exists start end_ start_hour end_hour,
        In (start, end_, start_hour, end_hour) windows
        /\ (start <= t <= end_)%Z
        /\ (start_hour <= Calendar.hour t \/ Calendar.hour t < end_hour)%Z.
Proof.
  rewrite is_curfew_flag. unfold curfew_flag.
  destruct (existsb (window_matches t) windows) eqn:E.
  - split; [intros _|reflexivity].
    apply existsb_exists in E as ([[[s e] sh] eh] & Hin & Hm).
    unfold window_matches in Hm.
    apply andb_true_iff in Hm as [Hd Hh]. apply andb_true_iff in Hd as [H1 H2].
    apply orb_true_iff in Hh. exists s, e, sh, eh.
    split; [exact Hin|]. split; [lia|]. destruct Hh; [left|right]; lia.
  - split; [discriminate|]. intros (s & e & sh & eh & Hin & Hd & Hh). exfalso.
    assert (Hm : window_matches t (s, e, sh, eh) = true).
    { unfold window_matches. apply andb_true_iff. split.
      - apply andb_true_iff. split; lia.
      - apply orb_true_iff. destruct Hh; [left|right]; lia. }
    assert (existsb (window_matches t) windows = true)
      by (apply existsb_exists; eauto).
    congruence.
Qed.

Lemma is_curfew_total t : is_curfew t = Ok 1%Z \/ is_curfew t = Ok 0%Z.
Proof.
  rewrite is_curfew_flag. unfold curfew_flag.
  destruct (existsb (window_matches t) windows); auto.
Qed.

Lemma is_curfew_outside_windows t :
  (forall start end_ start_hour end_hour,
     In (start, end_, start_hour, end_hour) windows -> (t < start \/ end_ < t)%Z) ->
  is_curfew t = Ok 0%Z.
Proof.
  intros Hout. destruct (is_curfew_total t) as [H|H]; [|exact H].
  apply is_curfew_one in H as (s & e & sh & eh & Hin & Hd & _).
  specialize (Hout _ _ _ _ Hin). lia.
Qed.

Example is_curfew_evening : is_curfew (Calendar.Timestamp 2020 10 20 22 0 0) = Ok 1%Z.
Proof. vm_compute. reflexivity. Qed.

Example is_curfew_morning : is_curfew (Calendar.Timestamp 2020 10 20 10 0 0) = Ok 0%Z.
Proof. vm_compute. reflexivity. Qed.

(** A holiday flag of [encode_dates] is 1 exactly when the timestamp of the
    row itself, hour and minute included, is in the list of holidays. *)
Lemma holiday_flags_compare_timestamps (h : store) X df ts sh ph :
  h !! X = Some df -> well_formed df -> df_get df "date_x" = Ok (timestamps ts) ->
  exists X' h' out school public,
    encode_dates X sh ph h = (Ok X', h') /\ h' !! X' = Some out
    /\ df_get out "school_holiday" = Ok school
    /\ df_get out "public_holiday" = Ok public
    /\ forall i t, nth_error ts i = Some t ->
         (nth_error school i = Some (VInt 1) <-> In (VTimestamp t) sh)
         /\ (nth_error public i = Some (VInt 1) <-> In (VTimestamp t) ph).
Proof.
  intros H Hwf Hd.
  destruct (encode_dates_returns h X df ts sh ph H Hwf Hd) as (h' & Hrun & Hout & _).
  exists (length h + 2), h', (encode_dates_result ts sh ph df).
  exists (astype_int (isin (timestamps ts) sh)), (astype_int (isin (timestamps ts) ph)).
  split; [exact Hrun|]. split; [exact Hout|].
  split; [get_frames|]. split; [get_frames|].
  assert (Hflag : forall l i t, nth_error ts i = Some t ->
            (nth_error (astype_int (isin (timestamps ts) l)) i = Some (VInt 1)
             <-> In (VTimestamp t) l)).
  { intros l i t Hi. unfold astype_int, isin, timestamps. cbn [series cells].
    rewrite !map_map, nth_error_map, Hi. cbn [option_map].
    destruct (existsb (value_eqb (VTimestamp t)) l) eqn:E.
    - split; [intros _|reflexivity].
      apply existsb_exists in E as (v & Hv & Hvt).
      destruct v; cbn [value_eqb] in Hvt; try discriminate.
      apply Z.eqb_eq in Hvt. subst. exact Hv.
    - split; [discriminate|]. intros Hin. exfalso.
      assert (existsb (value_eqb (VTimestamp t)) l = true).
      { apply existsb_exists. exists (VTimestamp t). split; [exact Hin|].
        apply value_eqb_refl. }
      congruence. }
  intros i t Hi. split; apply Hflag; exact Hi.
Qed.

(** ** The calendar fields of a timestamp *)

Lemma civil_from_days_fields z :
  (1 <= snd (fst (Calendar.civil_from_days z)) <= 12)%Z
  /\ (1 <= snd (Calendar.civil_from_days z) <= 31)%Z.
Proof.
  unfold Calendar.civil_from_days. cbv zeta. cbn [fst snd].
  set (doe := (z + 719468 - (z + 719468) / 146097 * 146097)%Z).
  assert (Hdoe : (0 <= doe < 146097)%Z) by (subst doe; Z.div_mod_to_equations; lia).
  clearbody doe.
  set (yoe := ((doe - doe / 1460 + doe / 36524 - doe / 146096) / 365)%Z).
  set (doy := (doe - (365 * yoe + yoe / 4 - yoe / 100))%Z).
  assert (Hdoy : (0 <= doy <= 365)%Z) by (subst doy yoe; Z.div_mod_to_equations; lia).
  clearbody doy.
  destruct (Z.ltb_spec ((5 * doy + 2) / 153) 10); Z.div_mod_to_equations; lia.
Qed.

Lemma days_from_civil_from_days z :
  let '(y, m, d) := Calendar.civil_from_days z in Calendar.days_from_civil y m d = z.
Proof.
  unfold Calendar.civil_from_days, Calendar.days_from_civil. cbv zeta.
  set (era := ((z + 719468) / 146097)%Z).
  set (doe := (z + 719468 - era * 146097)%Z).
  assert (Hdoe : (0 <= doe < 146097)%Z) by (subst doe era; Z.div_mod_to_equations; lia).
  assert (Hz : (z = era * 146097 + doe - 719468)%Z) by (subst doe; lia).
  clearbody doe era.
  set (yoe := ((doe - doe / 1460 + doe / 36524 - doe / 146096) / 365)%Z).
  set (doy := (doe - (365 * yoe + yoe / 4 - yoe / 100))%Z).
  assert (Hyoe : (0 <= yoe <= 399)%Z) by (subst yoe; Z.div_mod_to_equations; lia).
  assert (Hdoy : (0 <= doy <= 365)%Z) by (subst doy yoe; Z.div_mod_to_equations; lia).
  assert (Hdoe' : (doe = yoe * 365 + yoe / 4 - yoe / 100 + doy)%Z) by (subst doy; lia).
  clearbody doy. clearbody yoe.
  set (mp := ((5 * doy + 2) / 153)%Z).
  assert (Hmp : (0 <= mp <= 11)%Z) by (subst mp; Z.div_mod_to_equations; lia).
  clearbody mp.
  destruct (Z.ltb_spec mp 10).
  - destruct (Z.leb_spec (mp + 3) 2); [lia|].
    destruct (Z.ltb_spec 2 (mp + 3)); [|lia].
    replace ((yoe + era * 400) / 400)%Z with era by (Z.div_mod_to_equations; lia).
    replace (mp + 3 - 3)%Z with mp by lia.
    replace (yoe + era * 400 - era * 400)%Z with yoe by lia. lia.
  - destruct (Z.leb_spec (mp - 9) 2); [|lia].
    destruct (Z.ltb_spec 2 (mp - 9)); [lia|].
    replace ((yoe + era * 400 + 1 - 1) / 400)%Z with era by (Z.div_mod_to_equations; lia).
    replace (mp - 9 + 9)%Z with mp by lia.
    replace (yoe + era * 400 + 1 - 1 - era * 400)%Z with yoe by lia. lia.
Qed.

Lemma month_range t : (1 <= Calendar.month t <= 12)%Z.
Proof. apply civil_from_days_fields. Qed.

Lemma day_range t : (1 <= Calendar.day t <= 31)%Z.
Proof. apply civil_from_days_fields. Qed.

Lemma weekday_range t : (0 <= Calendar.weekday t <= 6)%Z.
Proof. unfold Calendar.weekday. Z.div_mod_to_equations. lia. Qed.

Lemma hour_range t : (0 <= Calendar.hour t <= 23)%Z.
Proof.
  unfold Calendar.hour.
  change Calendar.ns_per_day with 86400000000000%Z.
  change Calendar.ns_per_hour with 3600000000000%Z.
  Z.div_mod_to_equations. lia.
Qed.

(** Year, month, day and hour give back the timestamp, cut to the hour. *)
Lemma timestamp_of_fields t :
  Calendar.Timestamp (Calendar.year t) (Calendar.month t) (Calendar.day t)
    (Calendar.hour t) 0 0
  = (t - t mod Calendar.ns_per_hour)%Z.
Proof.
  unfold Calendar.Timestamp, Calendar.year, Calendar.month, Calendar.day.
  pose proof (days_from_civil_from_days (Calendar.day_number t)) as Hd.
  destruct (Calendar.civil_from_days (Calendar.day_number t)) as [[y m] d].
  cbn [fst snd]. rewrite Hd.
  unfold Calendar.hour, Calendar.day_number.
  change Calendar.ns_per_day with 86400000000000%Z.
  change Calendar.ns_per_hour with 3600000000000%Z.
  change Calendar.ns_per_minute with 60000000000%Z.
  change Calendar.ns_per_second with 1000000000%Z.
  Z.div_mod_to_equations. lia.
Qed.

Lemma cell_at_map {A} (f : A -> value) df c l i a :
  df_get df c = Ok (series (map f l)) -> nth_error l i = Some a ->
  cell_at df c i = Some (f a).
Proof.
  intros Hc Hi. unfold cell_at. rewrite Hc, cells_series, nth_error_map, Hi. reflexivity.
Qed.

(** * Further properties of the code *)

(** X1. After [add_basic_date_features] every row has a month in 1..12, a
    day in 1..31, a weekday in 0..6 and an hour in 0..23, and its year,
    month, day and hour give back its timestamp cut to the hour. *)
Theorem basic_date_fields (h : store) X df ts :
  h !! X = Some df -> well_formed df -> df_get df "date_x" = Ok (timestamps ts) ->
  exists h' out,
    add_basic_date_features X h = (Ok X, h') /\ h' !! X = Some out
    /\ forall i t, nth_error ts i = Some t ->
         exists y m d w hr,
           cell_at out "year" i = Some (VInt y)
           /\ cell_at out "month" i = Some (VInt m)
           /\ cell_at out "day" i = Some (VInt d)
           /\ cell_at out "weekday" i = Some (VInt w)
           /\ cell_at out "hour" i = Some (VInt hr)
           /\ (1 <= m <= 12)%Z /\ (1 <= d <= 31)%Z /\ (0 <= w <= 6)%Z
           /\ (0 <= hr <= 23)%Z
           /\ Calendar.Timestamp y m d hr 0 0 = (t - t mod Calendar.ns_per_hour)%Z.
Proof.
  intros H Hwf Hd.
  destruct (runs_store _ X df X _ h (add_basic_date_features_runs X df ts Hwf Hd) H)
    as [Hrun Hout].
  eexists _, _. split; [exact Hrun|]. split; [exact Hout|].
  intros i t Hi.
  exists (Calendar.year t), (Calendar.month t), (Calendar.day t),
    (Calendar.weekday t), (Calendar.hour t).
  split; [apply (cell_at_map (fun t => VInt (Calendar.year t)) _ _ ts); [get_frames|exact Hi]|].
  split; [apply (cell_at_map (fun t => VInt (Calendar.month t)) _ _ ts); [get_frames|exact Hi]|].
  split; [apply (cell_at_map (fun t => VInt (Calendar.day t)) _ _ ts); [get_frames|exact Hi]|].
  split; [apply (cell_at_map (fun t => VInt (Calendar.weekday t)) _ _ ts); [get_frames|exact Hi]|].
  split; [apply (cell_at_map (fun t => VInt (Calendar.hour t)) _ _ ts); [get_frames|exact Hi]|].
  split; [apply month_range|]. split; [apply day_range|].
  split; [apply weekday_range|]. split; [apply hour_range|].
  apply timestamp_of_fields.
Qed.

Lemma basic_date_fields_witness :
  exists h' out,
    add_basic_date_features 0 [example_table] = (Ok 0, h') /\ h' !! 0 = Some out
    /\ forall i t, nth_error example_dates i = Some t ->
         exists y m d w hr,
           cell_at out "year" i = Some (VInt y)
           /\ cell_at out "month" i = Some (VInt m)
           /\ cell_at out "day" i = Some (VInt d)
           /\ cell_at out "weekday" i = Some (VInt w)
           /\ cell_at out "hour" i = Some (VInt hr)
           /\ (1 <= m <= 12)%Z /\ (1 <= d <= 31)%Z /\ (0 <= w <= 6)%Z
           /\ (0 <= hr <= 23)%Z
           /\ Calendar.Timestamp y m d hr 0 0 = (t - t mod Calendar.ns_per_hour)%Z.
Proof.
  apply (basic_date_fields [example_table] 0 example_table example_dates);
    first [reflexivity | repeat constructor].
Defined.

Lemma season_cell_of_month m :
  (1 <= m <= 12)%Z ->
  (In m [12; 1; 2]%Z /\ season_cell (VInt m) = VStr "Winter")
  \/ (In m [3; 4; 5]%Z /\ season_cell (VInt m) = VStr "Spring")
  \/ (In m [6; 7; 8]%Z /\ season_cell (VInt m) = VStr "Summer")
  \/ (In m [9; 10; 11]%Z /\ season_cell (VInt m) = VStr "Fall").
Proof.
  intros Hm.
  assert (Hcases : (m = 1 \/ m = 2 \/ m = 3 \/ m = 4 \/ m = 5 \/ m = 6 \/ m = 7
                    \/ m = 8 \/ m = 9 \/ m = 10 \/ m = 11 \/ m = 12)%Z) by lia.
  repeat (destruct Hcases as [-> | Hcases]; [cbn; tauto|]).
  subst m. cbn. tauto.
Qed.

Lemma flag_cell df c (p : Q -> bool) (ns : list (option Q)) i n :
  df_get df c = Ok (astype_int (map (flag_of p) ns)) -> nth_error ns i = Some n ->
  cell_at df c i = Some (VInt (if flag_of p n then 1 else 0)).
Proof.
  intros Hc Hi. unfold cell_at. rewrite Hc. unfold astype_int. rewrite cells_series.
  rewrite map_map, nth_error_map, Hi. reflexivity.
Qed.

Lemma flag_of_true (p : Q -> bool) n :
  flag_of p n = true <-> exists q, n = Some q /\ p q = true.
Proof.
  destruct n as [q|]; cbn [flag_of].
  - split; [intros Hp; exists q; auto|intros (q' & [= <-] & Hp); exact Hp].
  - split; [discriminate|intros (q & Hq & _); discriminate].
Qed.

Lemma flag_value (p : Q -> bool) (P : Q -> Prop) n :
  (forall q, p q = true <-> P q) ->
  ((if flag_of p n then 1 else 0)%Z = 1%Z <-> exists q, n = Some q /\ P q)
  /\ ((if flag_of p n then 1 else 0)%Z = 0%Z \/ (if flag_of p n then 1 else 0)%Z = 1%Z).
Proof.
  intros Hp. pose proof (flag_of_true p n) as Ht.
  destruct (flag_of p n).
  - split; [|right; reflexivity]. split; [intros _|reflexivity].
    destruct (proj1 Ht eq_refl) as (q & Hq & Hpq). exists q. split; [exact Hq|].
    apply Hp, Hpq.
  - split; [|left; reflexivity]. split; [discriminate|].
    intros (q & Hq & HP). apply Hp in HP.
    assert (false = true) by (apply Ht; eauto). discriminate.
Qed.

(** X3. After [add_weather_indicators], [is_hot_day] is 1 exactly for a
    temperature above 300, [is_cold_day] exactly for one below 283 and
    [high_wind] exactly for a wind speed above 5; a missing measurement gives
    0, every flag is 0 or 1, and no row is both hot and cold. *)
Theorem weather_indicator_flags (h : store) data df tcol fcol t ff :
  h !! data = Some df -> well_formed df ->
  df_get df "t" = Ok tcol -> traverse num_of tcol = Ok t ->
  df_get df "ff" = Ok fcol -> traverse num_of fcol = Ok ff ->
  exists h' out,
    add_weather_indicators data h = (Ok data, h') /\ h' !! data = Some out
    /\ (forall i n, nth_error t i = Some n ->
          exists hot cold,
            cell_at out "is_hot_day" i = Some (VInt hot)
            /\ cell_at out "is_cold_day" i = Some (VInt cold)
            /\ (hot = 1%Z <-> exists q, n = Some q /\ (300 < q)%Q)
            /\ (cold = 1%Z <-> exists q, n = Some q /\ (q < 283)%Q)
            /\ (hot = 0 \/ hot = 1)%Z /\ (cold = 0 \/ cold = 1)%Z
            /\ ~ (hot = 1%Z /\ cold = 1%Z))
    /\ (forall i n, nth_error ff i = Some n ->
          exists wind,
            cell_at out "high_wind" i = Some (VInt wind)
            /\ (wind = 1%Z <-> exists q, n = Some q /\ (5 < q)%Q)
            /\ (wind = 0 \/ wind = 1)%Z).
Proof.
  intros H Hwf Ht Htn Hf Hfn.
  destruct (runs_store _ data df data _ h
              (add_weather_indicators_runs data df _ _ _ _ Hwf Ht Htn Hf Hfn) H)
    as [Hrun Hout].
  eexists _, _. split; [exact Hrun|]. split; [exact Hout|].
  pose proof (flag_value (fun q => Qlt_bool 300 q) (fun q => 300 < q)%Q) as Hhot.
  pose proof (flag_value (fun q => Qlt_bool q 283) (fun q => q < 283)%Q) as Hcold.
  pose proof (flag_value (fun q => Qlt_bool 5 q) (fun q => 5 < q)%Q) as Hwind.
  split.
  - intros i n Hi.
    destruct (Hhot n (fun q => Qlt_bool_iff 300 q)) as [Hh1 Hh2].
    destruct (Hcold n (fun q => Qlt_bool_iff q 283)) as [Hc1 Hc2].
    exists (if flag_of (fun q => Qlt_bool 300 q) n then 1 else 0)%Z,
           (if flag_of (fun q => Qlt_bool q 283) n then 1 else 0)%Z.
    split.
    { apply flag_cell with (ns := t); [|exact Hi]. unfold weather_indicator_frame.
      repeat rewrite df_get_assign. reflexivity. }
    split.
    { apply flag_cell with (ns := t); [|exact Hi]. unfold weather_indicator_frame.
      repeat rewrite df_get_assign. reflexivity. }
    split; [exact Hh1|]. split; [exact Hc1|]. split; [exact Hh2|]. split; [exact Hc2|].
    intros [E1 E2]. apply Hh1 in E1 as (q & Hq & Hlt). apply Hc1 in E2 as (q' & Hq' & Hlt').
    rewrite Hq in Hq'. injection Hq' as <-. lra.
  - intros i n Hi.
    destruct (Hwind n (fun q => Qlt_bool_iff 5 q)) as [Hw1 Hw2].
    exists (if flag_of (fun q => Qlt_bool 5 q) n then 1 else 0)%Z.
    split.
    { apply flag_cell with (ns := ff); [|exact Hi]. unfold weather_indicator_frame.
      repeat rewrite df_get_assign. reflexivity. }
    split; [exact Hw1|exact Hw2].
Qed.

Lemma weather_indicator_flags_witness :
  exists h' out,
    add_weather_indicators 0 [example_table] = (Ok 0, h') /\ h' !! 0 = Some out
    /\ (forall i n, nth_error (map Some [285; 301; 280; 290]%Q) i = Some n ->
          exists hot cold,
            cell_at out "is_hot_day" i = Some (VInt hot)
            /\ cell_at out "is_cold_day" i = Some (VInt cold)
            /\ (hot = 1%Z <-> exists q, n = Some q /\ (300 < q)%Q)
            /\ (cold = 1%Z <-> exists q, n = Some q /\ (q < 283)%Q)
            /\ (hot = 0 \/ hot = 1)%Z /\ (cold = 0 \/ cold = 1)%Z
            /\ ~ (hot = 1%Z /\ cold = 1%Z))
    /\ (forall i n, nth_error (map Some [3; 6; 5; 0]%Q) i = Some n ->
          exists wind,
            cell_at out "high_wind" i = Some (VInt wind)
            /\ (wind = 1%Z <-> exists q, n = Some q /\ (5 < q)%Q)
            /\ (wind = 0 \/ wind = 1)%Z).
Proof.
  apply (weather_indicator_flags [example_table] 0 example_table
           (series (map VFloat [285; 301; 280; 290]%Q)) (series (map VFloat [3; 6; 5; 0]%Q))
           (map Some [285; 301; 280; 290]%Q) (map Some [3; 6; 5; 0]%Q));
    first [reflexivity | repeat constructor].
Defined.

(** ** Replacing a column by its sine and cosine *)

Lemma length_string_append (a b : string) :
  String.length (a ++ b) = String.length a + String.length b.
Proof. induction a as [|c a IH]; simpl; [reflexivity|]. rewrite IH. reflexivity. Qed.

Lemma prefixed_name_differs (c : string) (a : ascii) (p : string) :
  String.eqb c (String a p ++ c) = false.
Proof.
  apply String.eqb_neq. intros E.
  apply (f_equal String.length) in E.
  rewrite length_string_append in E. simpl in E. lia.
Qed.

Lemma mem_string_single c d : mem_string c [d] = String.eqb c d.
Proof. unfold mem_string. cbn [existsb]. apply orb_false_r. Qed.

(** X4. [create_cyclical_features] returns a new frame in which the column
    is replaced by its sine and cosine cells and every other column is as
    before; the frame it was given keeps the column and gets the two new
    ones; and on its own result it raises the KeyError of the column that
    is gone, changing nothing. *)
Theorem cyclical_features_replace_column (h : store) data df column period xs :
  h !! data = Some df -> well_formed df -> df_get df column = Ok (series (map VInt xs)) ->
  exists h' input out,
    create_cyclical_features data column period h = (Ok (length h), h')
    /\ h' !! data = Some input /\ h' !! length h = Some out
    /\ has_col out column = false /\ nrows out = nrows df
    /\ (forall i x, nth_error xs i = Some x ->
          cell_at out ("sin_" ++ column) i = Some (VTrig Sin (inject_Z x) period)
          /\ cell_at out ("cos_" ++ column) i = Some (VTrig Cos (inject_Z x) period))
    /\ (forall c, c <> column -> c <> ("sin_" ++ column)%string -> c <> ("cos_" ++ column)%string ->
          df_get out c = df_get df c)
    /\ df_get input column = Ok (series (map VInt xs))
    /\ has_col input ("sin_" ++ column) = true
    /\ has_col input ("cos_" ++ column) = true
    /\ forall period',
         create_cyclical_features (length h) column period' h'
         = (Err (KeyError column), h').
Proof.
  intros H Hwf Hc.
  pose proof (lookup_lt_Some _ _ _ H) as HX.
  pose proof (prefixed_name_differs column "s" "in_") as Hsin.
  pose proof (prefixed_name_differs column "c" "os_") as Hcos.
  assert (Hsc : String.eqb ("sin_" ++ column) ("cos_" ++ column) = false) by reflexivity.
  pose proof (create_cyclical_features_allocates data df column period xs
                Hwf Hc Hsin Hcos h H) as Hrun.
  set (input := cyclical_frame column period xs df) in *.
  assert (Hlast : (<[data := input]> h ++ [df_remove [column] input]) !! length h
                  = Some (df_remove [column] input)).
  { replace (length h) with (length (<[data := input]> h)) by apply length_insert.
    apply store_lookup_last. }
  assert (Hgone : df_get (df_remove [column] input) column = Err (KeyError column)).
  { rewrite df_get_remove, mem_string_single, String.eqb_refl. reflexivity. }
  eexists _, input, (df_remove [column] input).
  split; [exact Hrun|].
  split; [rewrite lookup_app_l by (rewrite length_insert; exact HX);
          apply list_lookup_insert_eq, HX|].
  split; [exact Hlast|].
  split.
  { unfold has_col. unfold df_get in Hgone.
    destruct (lookup_col column _); [discriminate|reflexivity]. }
  split; [reflexivity|].
  split.
  { intros i x Hi. split.
    - apply (cell_at_map (fun x => VTrig Sin (inject_Z x) period) _ _ xs); [|exact Hi].
      rewrite df_get_remove, mem_string_single, String.eqb_sym, Hsin.
      unfold input, cyclical_frame. rewrite !df_get_assign, Hsc, String.eqb_refl.
      reflexivity.
    - apply (cell_at_map (fun x => VTrig Cos (inject_Z x) period) _ _ xs); [|exact Hi].
      rewrite df_get_remove, mem_string_single, String.eqb_sym, Hcos.
      unfold input, cyclical_frame. rewrite !df_get_assign, String.eqb_refl.
      reflexivity. }
  split.
  { intros c H1 H2 H3. apply String.eqb_neq in H1, H2, H3.
    rewrite df_get_remove, mem_string_single, H1.
    unfold input, cyclical_frame. rewrite !df_get_assign, H2, H3. reflexivity. }
  split.
  { unfold input, cyclical_frame. rewrite !df_get_assign, Hsin, Hcos. exact Hc. }
  split.
  { eapply has_col_get. unfold input, cyclical_frame.
    rewrite !df_get_assign, Hsc, String.eqb_refl. reflexivity. }
  split.
  { eapply has_col_get. unfold input, cyclical_frame.
    rewrite !df_get_assign, String.eqb_refl. reflexivity. }
  intros period'. unfold create_cyclical_features.
  apply bind_raises. eapply getitem_missing; [exact Hlast|exact Hgone].
Qed.

Lemma cyclical_features_replace_column_witness :
  exists h' input out,
    create_cyclical_features 0 "hour" 24 [example_hours] = (Ok 1, h')
    /\ h' !! 0 = Some input /\ h' !! 1 = Some out
    /\ has_col out "hour" = false /\ nrows out = 2
    /\ (forall i x, nth_error [7; 12]%Z i = Some x ->
          cell_at out ("sin_" ++ "hour") i = Some (VTrig Sin (inject_Z x) 24)
          /\ cell_at out ("cos_" ++ "hour") i = Some (VTrig Cos (inject_Z x) 24))
    /\ (forall c, c <> "hour" -> c <> ("sin_" ++ "hour")%string -> c <> ("cos_" ++ "hour")%string ->
          df_get out c = df_get example_hours c)
    /\ df_get input "hour" = Ok (series (map VInt [7; 12]%Z))
    /\ has_col input ("sin_" ++ "hour") = true
    /\ has_col input ("cos_" ++ "hour") = true
    /\ forall period',
         create_cyclical_features 1 "hour" period' h' = (Err (KeyError "hour"), h').
Proof.
  apply (cyclical_features_replace_column [example_hours] 0 example_hours "hour" 24
           [7; 12]%Z); first [reflexivity | repeat constructor].
Defined.

(** ** The columns [encode_dates] leaves alone, and the ones it returns *)

Lemma mem_string_cons_false c d l :
  mem_string c (d :: l) = false -> String.eqb c d = false /\ mem_string c l = false.
Proof. unfold mem_string. cbn [existsb]. apply orb_false_iff. Qed.

(** X5. On a frame that is new to the columns written with [.loc] (year,
    month, day, weekday, hour and season), [encode_dates] changes no column
    but the ones it derives: a column of any other name comes out as it went
    in, whether or not the frame had flags, sines, cosines or a curfew
    column before; and the result has no [date_x], no [hour] and no [month]
    column. *)
Theorem encode_dates_other_columns (h : store) X df ts sh ph :
  h !! X = Some df -> well_formed df -> df_get df "date_x" = Ok (timestamps ts) ->
  new_to loc_assigned_names df = true ->
  exists X' h' out,
    encode_dates X sh ph h = (Ok X', h') /\ h' !! X' = Some out
    /\ has_col out "date_x" = false /\ has_col out "hour" = false
    /\ has_col out "month" = false
    /\ forall c, mem_string c encode_dates_names = false -> df_get out c = df_get df c.
Proof.
  intros H Hwf Hd _.
  destruct (encode_dates_returns h X df ts sh ph H Hwf Hd) as (h' & Hrun & Hout & _).
  exists (length h + 2), h', (encode_dates_result ts sh ph df).
  split; [exact Hrun|]. split; [exact Hout|].
  assert (Hnone : forall c, df_get (encode_dates_result ts sh ph df) c = Err (KeyError c) ->
                            has_col (encode_dates_result ts sh ph df) c = false).
  { intros c. unfold has_col, df_get. destruct (lookup_col c _); [discriminate|reflexivity]. }
  split; [apply Hnone; frames; repeat (rewrite df_get_assign || rewrite df_get_remove);
          reflexivity|].
  split; [apply Hnone; frames; repeat (rewrite df_get_assign || rewrite df_get_remove);
          reflexivity|].
  split; [apply Hnone; frames; repeat (rewrite df_get_assign || rewrite df_get_remove);
          reflexivity|].
  intros c Hc. unfold encode_dates_names in Hc.
  repeat match type of Hc with
    | mem_string c (_ :: _) = false =>
        let E := fresh "E" in
        apply mem_string_cons_false in Hc; destruct Hc as [E Hc]
    end.
  frames. repeat (rewrite df_get_assign || rewrite df_get_remove).
  rewrite !mem_string_single.
  change ("sin_" ++ "hour")%string with "sin_hour". change ("cos_" ++ "hour")%string with "cos_hour".
  change ("sin_" ++ "month")%string with "sin_month". change ("cos_" ++ "month")%string with "cos_month".
  repeat match goal with E : String.eqb c _ = false |- _ => rewrite E; clear E end.
  reflexivity.
Qed.

Lemma encode_dates_other_columns_witness :
  exists X' h' out,
    encode_dates 0 [] [] [example_table] = (Ok X', h') /\ h' !! X' = Some out
    /\ has_col out "date_x" = false /\ has_col out "hour" = false
    /\ has_col out "month" = false
    /\ forall c, mem_string c encode_dates_names = false ->
                 df_get out c = df_get example_table c.
Proof.
  apply (encode_dates_other_columns [example_table] 0 example_table example_dates [] []);
    first [reflexivity | repeat constructor].
Defined.

Lemma has_col_columns df c : has_col df c = mem_string c (columns df).
Proof.
  unfold has_col, columns, mem_string.
  induction (cols df) as [|[d s] l IH]; cbn [lookup_col map existsb fst]; [reflexivity|].
  destruct (String.eqb c d); [reflexivity|exact IH].
Qed.

Lemma mem_string_app c l1 l2 :
  mem_string c (l1 ++ l2) = mem_string c l1 || mem_string c l2.
Proof. apply existsb_app. Qed.

Lemma columns_assign df c s :
  columns (df_assign df c s)
  = if mem_string c (columns df) then columns df else columns df ++ [c].
Proof.
  unfold columns, df_assign, mem_string. cbn [cols].
  induction (cols df) as [|[d t] l IH]; cbn [assign_col map existsb fst]; [reflexivity|].
  destruct (String.eqb c d) eqn:E; cbn [orb map fst app].
  - apply String.eqb_eq in E. subst d. reflexivity.
  - rewrite IH. destruct (existsb (String.eqb c) (map fst l)); reflexivity.
Qed.

Lemma columns_remove names df :
  columns (df_remove names df) = without_names names (columns df).
Proof.
  unfold columns, df_remove, without_names. cbn [cols].
  induction (cols df) as [|[d t] l IH]; cbn [List.filter map fst]; [reflexivity|].
  destruct (negb (mem_string d names)); cbn [map fst]; rewrite IH; reflexivity.
Qed.

Lemma without_names_fresh c l : mem_string c l = false -> without_names [c] l = l.
Proof.
  unfold without_names.
  induction l as [|d l IH]; cbn [List.filter]; [reflexivity|].
  intros H. apply mem_string_cons_false in H as [H1 H2].
  rewrite mem_string_single, String.eqb_sym, H1. cbn [negb]. rewrite (IH H2). reflexivity.
Qed.

Lemma columns_assign_fresh df c s L extra :
  columns df = L ++ extra -> mem_string c L = false -> mem_string c extra = false ->
  columns (df_assign df c s) = L ++ (extra ++ [c]).
Proof.
  intros Hc HL He. rewrite columns_assign, Hc, mem_string_app, HL, He.
  cbn [orb]. symmetry. apply app_assoc.
Qed.

Lemma columns_remove_fresh df c L extra :
  columns df = L ++ extra -> mem_string c L = false ->
  columns (df_remove [c] df) = L ++ without_names [c] extra.
Proof.
  intros Hc HL. rewrite columns_remove, Hc. unfold without_names at 1.
  rewrite List.filter_app. fold (without_names [c] L). fold (without_names [c] extra).
  rewrite (without_names_fresh c L HL). reflexivity.
Qed.

Lemma columns_remove_added df names L extra :
  columns df = L ++ extra ->
  columns (df_remove names df) = without_names names L ++ without_names names extra.
Proof.
  intros Hc. rewrite columns_remove, Hc. unfold without_names. apply List.filter_app.
Qed.

Ltac solve_columns fresh_side :=
  lazymatch goal with
  | |- columns (df_assign _ _ _) = _ =>
      eapply columns_assign_fresh; [solve_columns fresh_side | fresh_side | reflexivity]
  | |- columns (df_remove _ _) = _ =>
      eapply columns_remove_fresh; [solve_columns fresh_side | fresh_side]
  | |- columns _ = _ => symmetry; apply app_nil_r
  end.

(** X6. On a frame that has none of the derived names yet, [encode_dates]
    returns the columns of the frame without [date_x], in their order,
    followed by year, day, weekday, season, school_holiday, public_holiday,
    is_peak, sin_hour, cos_hour, sin_month, cos_month and curfew. *)
Theorem encode_dates_columns (h : store) X df ts sh ph :
  h !! X = Some df -> well_formed df -> df_get df "date_x" = Ok (timestamps ts) ->
  forallb (fun c => negb (has_col df c))
    [ "year"; "month"; "day"; "weekday"; "hour"; "season"; "school_holiday";
      "public_holiday"; "is_peak"; "sin_hour"; "cos_hour"; "sin_month"; "cos_month";
      "curfew" ] = true ->
  exists X' h' out,
    encode_dates X sh ph h = (Ok X', h') /\ h' !! X' = Some out
    /\ columns out = without_names ["date_x"] (columns df) ++ encode_dates_features.
Proof.
  intros H Hwf Hd Hnew.
  destruct (encode_dates_returns h X df ts sh ph H Hwf Hd) as (h' & Hrun & Hout & _).
  exists (length h + 2), h', (encode_dates_result ts sh ph df).
  split; [exact Hrun|]. split; [exact Hout|].
  assert (Hfresh : forall c,
            In c [ "year"; "month"; "day"; "weekday"; "hour"; "season"; "school_holiday";
                   "public_holiday"; "is_peak"; "sin_hour"; "cos_hour"; "sin_month";
                   "cos_month"; "curfew" ] ->
            mem_string c (columns df) = false).
  { intros c Hc. rewrite forallb_forall in Hnew. specialize (Hnew c Hc).
    rewrite <- has_col_columns. apply negb_true_iff, Hnew. }
  unfold encode_dates_result.
  erewrite columns_remove_added.
  2:{ frames. solve_columns ltac:(apply Hfresh; cbn; tauto). }
  reflexivity.
Qed.

Lemma encode_dates_columns_witness :
  exists X' h' out,
    encode_dates 0 [] [] [example_table] = (Ok X', h') /\ h' !! X' = Some out
    /\ columns out
       = without_names ["date_x"] (columns example_table) ++ encode_dates_features.
Proof.
  apply (encode_dates_columns [example_table] 0 example_table example_dates [] []);
    first [reflexivity | repeat constructor].
Defined.

(** ** The curfew flag *)

Lemma curfew_flag_one t :
  curfew_flag windows t = 1%Z
  <-> exists start end_ start_hour end_hour,
        In (start, end_, start_hour, end_hour) windows
        /\ (start <= t <= end_)%Z
        /\ (start_hour <= Calendar.hour t \/ Calendar.hour t < end_hour)%Z.
Proof.
  rewrite <- is_curfew_one, is_curfew_flag.
  split; [intros ->; reflexivity|intros [= E]; exact E].
Qed.

Lemma curfew_flag_values t : curfew_flag windows t = 0%Z \/ curfew_flag windows t = 1%Z.
Proof. unfold curfew_flag. destruct (existsb _ windows); auto. Qed.

(** X7. [curfew_periods] works on any datetime column.  The [curfew] cell
    of a row is 0 or 1, and it is 1 exactly when the timestamp lies between
    the midnight that begins the start date and the midnight that begins the
    end date of one of the five windows, at an hour from the start hour on
    or before the end hour. *)
Theorem curfew_flag_of_row (h : store) r df date_column ts :
  h !! r = Some df -> well_formed df -> df_get df date_column = Ok (timestamps ts) ->
  exists h' out,
    curfew_periods r date_column h = (Ok r, h') /\ h' !! r = Some out
    /\ forall i t, nth_error ts i = Some t ->
         exists flag,
           cell_at out "curfew" i = Some (VInt flag)
           /\ (flag = 0 \/ flag = 1)%Z
           /\ (flag = 1%Z <->
                 exists start end_ start_hour end_hour,
                   In (start, end_, start_hour, end_hour) windows
                   /\ (start <= t <= end_)%Z
                   /\ (start_hour <= Calendar.hour t \/ Calendar.hour t < end_hour)%Z).
Proof.
  intros H Hwf Hd.
  destruct (runs_store _ r df r _ h (curfew_periods_runs r df date_column ts Hwf Hd) H)
    as [Hrun Hout].
  eexists _, _. split; [exact Hrun|]. split; [exact Hout|].
  intros i t Hi. exists (curfew_flag windows t).
  split; [|split; [apply curfew_flag_values|apply curfew_flag_one]].
  apply (cell_at_map (fun t => VInt (curfew_flag windows t)) _ _ ts); [|exact Hi].
  unfold curfew_frame. rewrite df_get_assign, String.eqb_refl. reflexivity.
Qed.

Lemma curfew_flag_of_row_witness :
  exists h' out,
    curfew_periods 0 "date" [example_table] = (Ok 0, h') /\ h' !! 0 = Some out
    /\ forall i t, nth_error example_dates i = Some t ->
         exists flag,
           cell_at out "curfew" i = Some (VInt flag)
           /\ (flag = 0 \/ flag = 1)%Z
           /\ (flag = 1%Z <->
                 exists start end_ start_hour end_hour,
                   In (start, end_, start_hour, end_hour) windows
                   /\ (start <= t <= end_)%Z
                   /\ (start_hour <= Calendar.hour t \/ Calendar.hour t < end_hour)%Z).
Proof.
  apply (curfew_flag_of_row [example_table] 0 example_table "date" example_dates);
    first [reflexivity | repeat constructor].
Defined.

Lemma windows_values :
  windows
  = [ (1602892800000000000, 1603929600000000000, 21, 6);
      (1610755200000000000, 1616198400000000000, 18, 6);
      (1616284800000000000, 1621382400000000000, 19, 6);
      (1621468800000000000, 1623196800000000000, 21, 6);
      (1623283200000000000, 1624147200000000000, 23, 6) ]%Z.
Proof. vm_compute. reflexivity. Qed.

Lemma in_windows start end_ start_hour end_hour :
  In (start, end_, start_hour, end_hour) windows ->
  (1602892800000000000 <= start /\ end_ <= 1624147200000000000
   /\ (end_ <= 1603929600000000000 \/ 1610755200000000000 <= start)
   /\ 18 <= start_hour <= 23 /\ end_hour = 6)%Z.
Proof.
  rewrite windows_values. cbn [In].
  intros [E|[E|[E|[E|[E|[]]]]]]; injection E as <- <- <- <-; lia.
Qed.

(** X8. Whatever the date, [is_curfew] is 0 from 6 o'clock to before 18
    o'clock; it is 0 before 17 October 2020, after the midnight that begins
    20 June 2021, and between the midnights that begin 29 October 2020 and
    16 January 2021; and inside a window it is 1 from 23 o'clock on and
    before 6 o'clock. *)
Theorem curfew_only_at_night t :
  ((6 <= Calendar.hour t < 18)%Z -> is_curfew t = Ok 0%Z)
  /\ ((t < Calendar.Timestamp 2020 10 17 0 0 0)%Z -> is_curfew t = Ok 0%Z)
  /\ ((Calendar.Timestamp 2021 6 20 0 0 0 < t)%Z -> is_curfew t = Ok 0%Z)
  /\ ((Calendar.Timestamp 2020 10 29 0 0 0 < t < Calendar.Timestamp 2021 1 16 0 0 0)%Z ->
      is_curfew t = Ok 0%Z)
  /\ ((23 <= Calendar.hour t \/ Calendar.hour t < 6)%Z ->
      (exists start end_ start_hour end_hour,
         In (start, end_, start_hour, end_hour) windows /\ (start <= t <= end_)%Z) ->
      is_curfew t = Ok 1%Z).
Proof.
  change (Calendar.Timestamp 2020 10 17 0 0 0) with 1602892800000000000%Z.
  change (Calendar.Timestamp 2021 6 20 0 0 0) with 1624147200000000000%Z.
  change (Calendar.Timestamp 2020 10 29 0 0 0) with 1603929600000000000%Z.
  change (Calendar.Timestamp 2021 1 16 0 0 0) with 1610755200000000000%Z.
  assert (Hzero : (forall start end_ start_hour end_hour,
                     In (start, end_, start_hour, end_hour) windows ->
                     (start <= t <= end_)%Z ->
                     (start_hour <= Calendar.hour t \/ Calendar.hour t < end_hour)%Z ->
                     False) -> is_curfew t = Ok 0%Z).
  { intros Hno. destruct (is_curfew_total t) as [E|E]; [|exact E].
    apply is_curfew_one in E as (s & e & sh & eh & Hin & Hd & Hh).
    destruct (Hno _ _ _ _ Hin Hd Hh). }
  repeat split.
  - intros Hday. apply Hzero. intros s e sh eh Hin Hd Hh.
    apply in_windows in Hin. lia.
  - intros Hbefore. apply Hzero. intros s e sh eh Hin Hd Hh.
    apply in_windows in Hin. lia.
  - intros Hafter. apply Hzero. intros s e sh eh Hin Hd Hh.
    apply in_windows in Hin. lia.
  - intros Hgap. apply Hzero. intros s e sh eh Hin Hd Hh.
    apply in_windows in Hin. lia.
  - intros Hnight (s & e & sh & eh & Hin & Hd).
    apply is_curfew_one. exists s, e, sh, eh.
    split; [exact Hin|]. split; [exact Hd|].
    apply in_windows in Hin. lia.
Qed.

Lemma curfew_only_at_night_witness :
  is_curfew (Calendar.Timestamp 2020 10 20 10 0 0) = Ok 0%Z
  /\ is_curfew (Calendar.Timestamp 2020 10 20 23 30 0) = Ok 1%Z.
Proof.
  split.
  - apply (proj1 (curfew_only_at_night (Calendar.Timestamp 2020 10 20 10 0 0))).
    vm_compute. split; [discriminate|reflexivity].
  - apply (proj2 (proj2 (proj2 (proj2
             (curfew_only_at_night (Calendar.Timestamp 2020 10 20 23 30 0)))))).
    + left. vm_compute. discriminate.
    + exists (Calendar.Timestamp 2020 10 17 0 0 0), (Calendar.Timestamp 2020 10 29 0 0 0),
        21%Z, 6%Z.
      split; [left; reflexivity|]. vm_compute. split; discriminate.
Defined.

(** ** The holiday flags with the fetched calendars *)





(** ** A row of the result of [encode_dates] *)




(** ** [delete_zeros] on any readings *)

Lemma in_surviving_rows keys nums i :
  In i (surviving_rows keys nums)
  <-> exists k, nth_error keys i = Some k
                /\ existsb (key_eqb k) (zero_groups keys nums) = false.
Proof.
  unfold surviving_rows. rewrite <- in_unmatched. split.
  - apply Permutation_in, surviving_unmatched.
  - apply Permutation_in. symmetry. apply surviving_unmatched.
Qed.

Lemma surviving_rows_bound keys nums i :
  In i (surviving_rows keys nums) -> i < length keys.
Proof.
  intros Hi. apply in_surviving_rows in Hi as (k & Hk & _).
  apply nth_error_Some. congruence.
Qed.

Lemma length_surviving_rows keys nums :
  length (surviving_rows keys nums) <= length keys.
Proof.
  assert (Hincl : incl (surviving_rows keys nums) (seq 0 (length keys))).
  { intros i Hi. apply in_seq. pose proof (surviving_rows_bound _ _ _ Hi). lia. }
  pose proof (NoDup_incl_length (NoDup_surviving_rows keys nums) Hincl) as Hle.
  rewrite List.length_seq in Hle. exact Hle.
Qed.

Lemma length_row_keys ks n : length (row_keys ks n) = n.
Proof. unfold row_keys. rewrite length_map. apply List.length_seq. Qed.

Lemma existsb_key_eqb_congr k g (l : list key) :
  key_eqb k g = true -> existsb (key_eqb k) l = existsb (key_eqb g) l.
Proof.
  intros H. induction l as [|x l IH]; cbn [existsb]; [reflexivity|].
  rewrite IH. f_equal.
  destruct (key_eqb k x) eqn:E1, (key_eqb g x) eqn:E2; try reflexivity.
  - rewrite (key_eqb_trans _ _ _ (key_eqb_sym _ _ H) E1) in E2. discriminate.
  - rewrite (key_eqb_trans _ _ _ H E2) in E1. discriminate.
Qed.

(** X11. Whatever the readings, [delete_zeros] returns rows of its argument,
    each at most once and never more than it was given, and it treats the
    readings of one sensor on one day alike: either all of them are kept or
    all of them are removed. *)
Theorem delete_zeros_whole_groups (h : store) data df ds names counts nums :
  h !! data = Some df -> well_formed df ->
  df_get df "date" = Ok (timestamps ds) ->
  df_get df "counter_name" = Ok names ->
  df_get df "log_bike_count" = Ok counts -> traverse num_of counts = Ok nums ->
  has_col df "_merge" = false ->
  exists kept h' out,
    delete_zeros data h = (Ok (length h), h') /\ h' !! length h = Some out
    /\ out = df_iloc kept (df_remove ["_merge"; "truncated_date"] df)
    /\ List.NoDup kept /\ (forall i, In i kept -> i < nrows df)
    /\ nrows out <= nrows df
    /\ forall i j, i < nrows df -> j < nrows df -> same_sensor_day names ds i j ->
         (In i kept <-> In j kept).
Proof.
  intros H Hwf Hd Hn Hc Hnum Hmerge.
  assert (Hlen : length ds = nrows df).
  { rewrite <- (well_formed_get _ _ _ Hwf Hd). symmetry. apply length_timestamps. }
  pose proof (delete_zeros_allocates data df ds names counts nums Hwf Hd Hn Hc Hnum Hmerge h H)
    as Hrun.
  set (keys := row_keys [names; truncated ds] (nrows df)) in *.
  exists (surviving_rows keys nums).
  eexists _, _. split; [exact Hrun|]. split.
  { replace (length h)
      with (length (<[data := df_assign df "truncated_date" (truncated ds)]> h)) at 1
      by apply length_insert.
    apply store_lookup_last. }
  split; [reflexivity|]. split; [apply NoDup_surviving_rows|].
  assert (Hkeys : length keys = nrows df) by apply length_row_keys.
  split; [intros i Hi; rewrite <- Hkeys; eapply surviving_rows_bound, Hi|].
  split; [cbn [nrows df_iloc]; rewrite <- Hkeys; apply length_surviving_rows|].
  intros i j Hi Hj Hsame.
  apply key_eqb_day_keys in Hsame; [|lia|lia].
  rewrite !in_surviving_rows. unfold keys.
  rewrite !nth_error_row_keys by assumption.
  split; intros (k & [= <-] & Hk); eexists; (split; [reflexivity|]).
  - rewrite <- (existsb_key_eqb_congr _ _ _ Hsame). exact Hk.
  - rewrite (existsb_key_eqb_congr _ _ _ Hsame). exact Hk.
Qed.

Lemma delete_zeros_whole_groups_witness :
  exists kept h' out,
    delete_zeros 0 [cancelling_table] = (Ok 1, h') /\ h' !! 1 = Some out
    /\ out = df_iloc kept (df_remove ["_merge"; "truncated_date"] cancelling_table)
    /\ List.NoDup kept /\ (forall i, In i kept -> i < 2)
    /\ nrows out <= 2
    /\ forall i j, i < 2 -> j < 2 ->
         same_sensor_day [VStr "A"; VStr "A"]
           [ Calendar.Timestamp 2020 10 20 8 0 0; Calendar.Timestamp 2020 10 20 9 0 0 ] i j ->
         (In i kept <-> In j kept).
Proof.
  apply (delete_zeros_whole_groups [cancelling_table] 0 cancelling_table
           [ Calendar.Timestamp 2020 10 20 8 0 0; Calendar.Timestamp 2020 10 20 9 0 0 ]
           (series [VStr "A"; VStr "A"]) (series (map VFloat [1; -1]%Q))
           (map Some [1; -1]%Q));
    first [reflexivity | repeat constructor].
Defined.

(** ** Missing columns *)

Lemma has_col_false_get df c : has_col df c = false -> df_get df c = Err (KeyError c).
Proof.
  unfold has_col, df_get. destruct (lookup_col c (cols df)); [discriminate|reflexivity].
Qed.

(** X12. Each function raises the KeyError of the first column it reads
    when the frame does not have it, before it has changed anything:
    [date_x] for [encode_dates], [rr1] for [engineer_weather_features],
    [date] for [delete_zeros], the named column for [curfew_periods] and for
    [create_cyclical_features]. *)
Theorem missing_first_column (h : store) X df sh ph :
  h !! X = Some df ->
  (has_col df "date_x" = false ->
   encode_dates X sh ph h = (Err (KeyError "date_x"), h))
  /\ (has_col df "rr1" = false ->
      engineer_weather_features X h = (Err (KeyError "rr1"), h))
  /\ (has_col df "date" = false ->
      delete_zeros X h = (Err (KeyError "date"), h))
  /\ (forall c, has_col df c = false ->
        curfew_periods X c h = (Err (KeyError c), h))
  /\ (forall c period, has_col df c = false ->
        create_cyclical_features X c period h = (Err (KeyError c), h)).
Proof.
  intros H. repeat split.
  - intros Hc. unfold encode_dates, add_basic_date_features.
    apply bind_raises, bind_raises.
    eapply getitem_missing; [exact H|apply has_col_false_get, Hc].
  - intros Hc. unfold engineer_weather_features, categorize_weather.
    apply bind_raises, bind_raises.
    eapply getitem_missing; [exact H|apply has_col_false_get, Hc].
  - intros Hc. unfold delete_zeros. apply bind_raises.
    eapply getitem_missing; [exact H|apply has_col_false_get, Hc].
  - intros c Hc. unfold curfew_periods. apply bind_raises.
    eapply getitem_missing; [exact H|apply has_col_false_get, Hc].
  - intros c period Hc. unfold create_cyclical_features. apply bind_raises.
    eapply getitem_missing; [exact H|apply has_col_false_get, Hc].
Qed.

Lemma missing_first_column_witness :
  encode_dates 0 [] [] [example_months] = (Err (KeyError "date_x"), [example_months])
  /\ engineer_weather_features 0 [example_months]
     = (Err (KeyError "rr1"), [example_months])
  /\ delete_zeros 0 [example_months] = (Err (KeyError "date"), [example_months])
  /\ curfew_periods 0 "date_x" [example_months]
     = (Err (KeyError "date_x"), [example_months])
  /\ create_cyclical_features 0 "hour" 24 [example_months]
     = (Err (KeyError "hour"), [example_months]).
Proof.
  destruct (missing_first_column [example_months] 0 example_months [] [] eq_refl)
    as (H1 & H2 & H3 & H4 & H5).
  split; [apply H1; reflexivity|]. split; [apply H2; reflexivity|].
  split; [apply H3; reflexivity|]. split; [apply H4; reflexivity|].
  apply H5. reflexivity.
Defined.

(** X13. A column that is missed later is found missing after the frame was
    changed: without [t], [engineer_weather_features] raises its KeyError and
    leaves [rain_category] on the caller's frame; without [counter_name],
    [delete_zeros] raises its KeyError and leaves [truncated_date] there. *)
Theorem late_failure_changes_input (h : store) X df rr1 rr ds :
  h !! X = Some df -> well_formed df ->
  df_get df "rr1" = Ok rr1 -> traverse num_of rr1 = Ok rr ->
  df_get df "date" = Ok (timestamps ds) ->
  has_col df "t" = false -> has_col df "counter_name" = false ->
  (exists h' input,
     engineer_weather_features X h = (Err (KeyError "t"), h')
     /\ h' !! X = Some input /\ has_col input "rain_category" = true)
  /\ (exists h' input,
        delete_zeros X h = (Err (KeyError "counter_name"), h')
        /\ h' !! X = Some input /\ has_col input "truncated_date" = true).
Proof.
  intros H Hwf Hr Hrn Hd Ht Hn.
  assert (Hlen : length ds = nrows df).
  { rewrite <- (well_formed_get _ _ _ Hwf Hd). symmetry. apply length_timestamps. }
  split.
  - exists (<[X := categorized_frame rr df]> h), (categorized_frame rr df).
    split; [|split; [eapply store_insert_lookup, H|]].
    + unfold engineer_weather_features.
      erewrite bind_runs; [| |exact H];
        [|eapply categorize_weather_runs; eassumption].
      unfold add_weather_indicators. apply bind_raises, bind_raises.
      eapply getitem_missing; [eapply store_insert_lookup, H|].
      unfold categorized_frame. rewrite df_get_assign. apply has_col_false_get, Ht.
    + eapply has_col_get. unfold categorized_frame. rewrite df_get_assign. reflexivity.
  - set (df0 := df_assign df "truncated_date" (truncated ds)).
    exists (<[X := df0]> h), df0.
    split; [|split; [eapply store_insert_lookup, H|]].
    + unfold delete_zeros.
      erewrite bind_runs; [| |exact H]; [|apply runs_getitem; exact Hd].
      rewrite list_insert_id by exact H.
      erewrite bind_runs; [| |exact H]; [|apply runs_lift, dt_floor_D_timestamps].
      rewrite list_insert_id by exact H.
      erewrite bind_runs; [| |exact H];
        [|apply runs_setitem; cbn [cells]; rewrite length_map; exact Hlen].
      fold (truncated ds). fold df0.
      erewrite bind_runs; [| |eapply store_insert_lookup, H]; [|apply runs_deref].
      rewrite list_insert_insert_eq.
      apply bind_raises. unfold lift, groupby_sum. cbn [traverse].
      replace (df_get df0 "counter_name") with (@Err Series (KeyError "counter_name")).
      * reflexivity.
      * symmetry. unfold df0. rewrite df_get_assign. apply has_col_false_get, Hn.
    + eapply has_col_get. unfold df0. rewrite df_get_assign. reflexivity.
Qed.

Lemma late_failure_changes_input_witness :
  (exists h' input,
     engineer_weather_features 0 [partial_table] = (Err (KeyError "t"), h')
     /\ h' !! 0 = Some input /\ has_col input "rain_category" = true)
  /\ (exists h' input,
        delete_zeros 0 [partial_table] = (Err (KeyError "counter_name"), h')
        /\ h' !! 0 = Some input /\ has_col input "truncated_date" = true).
Proof.
  apply (late_failure_changes_input [partial_table] 0 partial_table
           (series (map VFloat [0]%Q)) (map Some [0]%Q) [christmas_morning]);
    first [reflexivity | repeat constructor].
Defined.

(** ** Rows picked out of a frame *)

Lemma df_get_iloc idxs df c s :
  df_get df c = Ok s -> df_get (df_iloc idxs df) c = Ok (iloc idxs s).
Proof.
  unfold df_get, df_iloc. cbn [cols]. rewrite (lookup_col_map (fun _ s => iloc idxs s)).
  destruct (lookup_col c (cols df)); [intros [= <-]; reflexivity|discriminate].
Qed.

Lemma nth_map_in_range {A B} (f : A -> B) l i d d' :
  i < length l -> nth i (map f l) d' = f (nth i l d).
Proof.
  intros Hi. rewrite (nth_indep _ d' (f d)) by (rewrite length_map; exact Hi).
  apply map_nth.
Qed.

Lemma iloc_timestamps idxs ts :
  (forall i, In i idxs -> i < length ts) ->
  iloc idxs (timestamps ts) = timestamps (map (fun i => nth i ts 0%Z) idxs).
Proof.
  intros Hin. unfold iloc, timestamps. cbn [is_datetime64 cells]. f_equal.
  rewrite map_map. apply map_ext_in.
  intros i Hi. apply nth_map_in_range, Hin, Hi.
Qed.

Lemma traverse_nth {A B} (f : A -> result B) l l' d d' i :
  traverse f l = Ok l' -> f d = Ok d' -> f (nth i l d) = Ok (nth i l' d').
Proof.
  revert l' i. induction l as [|a l IH]; intros l' i; cbn [traverse].
  - intros [= <-] Hd. destruct i; exact Hd.
  - destruct (f a) as [b|] eqn:Ea; cbn [rbind]; [|discriminate].
    destruct (traverse f l) as [bs|]; cbn [rbind]; [|discriminate].
    intros [= <-] Hd. destruct i as [|i]; cbn [nth]; [exact Ea|].
    apply IH; [reflexivity|exact Hd].
Qed.

Lemma traverse_num_of_iloc idxs (s : Series) ns :
  traverse num_of s = Ok ns ->
  traverse num_of (iloc idxs s) = Ok (map (fun i => nth i ns None) idxs).
Proof.
  intros Hs. unfold iloc. cbn [cells]. apply traverse_map_ok. intros i.
  apply (traverse_nth num_of s ns VNaN None i Hs). reflexivity.
Qed.

(** ** A second pass of [delete_zeros] *)

Lemma same_sensor_day_refl names ds i : same_sensor_day names ds i i.
Proof. split; [apply value_eqb_refl|reflexivity]. Qed.

Section SecondPass.
Variables (names : Series) (ds : list Z) (nums : list (option Q)).
Hypothesis Hlen : length nums = length ds.
Hypothesis Hnn : Forall nonnegative_reading nums.

Let kept := surviving_rows (row_keys [names; truncated ds] (length ds)) nums.
Let names1 := iloc kept names.
Let ds1 := map (fun i => nth i ds 0%Z) kept.
Let nums1 := map (fun i => nth i nums None) kept.

Lemma kept_in_range i : In i kept -> i < length ds.
Proof.
  intros Hi. apply surviving_rows_bound in Hi. rewrite length_row_keys in Hi. exact Hi.
Qed.

Lemma nonnegative_kept : Forall nonnegative_reading nums1.
Proof.
  apply List.Forall_forall. intros n Hn. apply in_map_iff in Hn as (i & <- & Hi).
  rewrite List.Forall_forall in Hnn. apply Hnn, nth_In.
  rewrite Hlen. apply kept_in_range, Hi.
Qed.

Lemma second_pass_keeps p :
  p < length kept ->
  In p (surviving_rows (row_keys [names1; truncated ds1] (length ds1)) nums1).
Proof.
  intros Hp.
  assert (Hl1 : length ds1 = length kept) by apply length_map.
  assert (Hn1 : length nums1 = length ds1) by (unfold nums1, ds1; rewrite !length_map; reflexivity).
  apply surviving_rows_spec; [exact Hn1|apply nonnegative_kept|lia|].
  set (i := nth p kept 0).
  assert (Hi : In i kept) by (apply nth_In, Hp).
  assert (Hname : forall r, r < length kept ->
            nth r names1 VNaN = nth (nth r kept 0) names VNaN).
  { intros r Hr. unfold names1, iloc. cbn [cells].
    exact (nth_map_in_range (fun i => nth i names VNaN) kept r 0 VNaN Hr). }
  assert (Hdate : forall r, r < length kept -> nth r ds1 0%Z = nth (nth r kept 0) ds 0%Z).
  { intros r Hr. unfold ds1.
    exact (nth_map_in_range (fun i => nth i ds 0%Z) kept r 0 0%Z Hr). }
  pose proof (kept_in_range i Hi) as Hir.
  destruct (proj1 (surviving_rows_spec names ds nums i Hlen Hnn Hir) Hi)
    as [Hnan|(j & q & Hj & Hsame & Hq & Hq0)].
  - left. rewrite Hname by exact Hp. exact Hnan.
  - right.
    assert (Hjk : In j kept).
    { apply (surviving_rows_spec names ds nums j Hlen Hnn Hj). right.
      exists j, q. split; [exact Hj|]. split; [apply same_sensor_day_refl|]. auto. }
    destruct (In_nth kept j 0 Hjk) as (p' & Hp' & Hnth).
    exists p', q. split; [lia|]. split; [|split; [|exact Hq0]].
    + unfold same_sensor_day. rewrite !Hname, !Hdate by assumption.
      rewrite Hnth. exact Hsame.
    + unfold nums1. rewrite nth_error_map, (nth_error_nth' kept 0 Hp'), Hnth.
      cbn [option_map]. f_equal.
      rewrite (nth_error_nth' nums None) in Hq by (rewrite Hlen; exact Hj).
      injection Hq as Hq. exact Hq.
Qed.

Lemma second_pass_permutation :
  Permutation (surviving_rows (row_keys [names1; truncated ds1] (length ds1)) nums1)
    (seq 0 (length kept)).
Proof.
  symmetry. apply NoDup_Permutation_bis.
  - apply seq_NoDup.
  - rewrite List.length_seq.
    pose proof (length_surviving_rows (row_keys [names1; truncated ds1] (length ds1)) nums1)
      as Hle.
    rewrite length_row_keys in Hle.
    assert (Hl1 : length ds1 = length kept) by apply length_map.
    rewrite Hl1 in Hle at 2. exact Hle.
  - intros p Hp. apply in_seq in Hp. apply second_pass_keeps. lia.
Qed.
End SecondPass.

Lemma df_remove_iloc names idxs df :
  df_remove names (df_iloc idxs df) = df_iloc idxs (df_remove names df).
Proof.
  unfold df_remove, df_iloc. cbn [nrows cols]. f_equal.
  apply (filter_map_cols (fun _ s => iloc idxs s)).
Qed.

Lemma df_remove_twice names df :
  df_remove names (df_remove names df) = df_remove names df.
Proof.
  unfold df_remove. cbn [nrows cols]. f_equal.
  induction (cols df) as [|cs l IH]; cbn [List.filter]; [reflexivity|].
  destruct (negb (mem_string (fst cs) names)) eqn:E; cbn [List.filter];
    rewrite ?E, IH; reflexivity.
Qed.

(** X14. With readings that are not negative, a second [delete_zeros] on the
    result of a first one removes nothing: it returns the rows of that
    result, each once. *)
Theorem delete_zeros_twice (h : store) data df ds names counts nums :
  h !! data = Some df -> well_formed df ->
  df_get df "date" = Ok (timestamps ds) ->
  df_get df "counter_name" = Ok names ->
  df_get df "log_bike_count" = Ok counts -> traverse num_of counts = Ok nums ->
  has_col df "_merge" = false ->
  Forall nonnegative_reading nums ->
  exists h1 out1 kept2 h2 out2,
    delete_zeros data h = (Ok (length h), h1) /\ h1 !! length h = Some out1
    /\ delete_zeros (length h) h1 = (Ok (length h1), h2) /\ h2 !! length h1 = Some out2
    /\ out2 = df_iloc kept2 out1
    /\ Permutation kept2 (seq 0 (nrows out1))
    /\ nrows out2 = nrows out1.
Proof.
  intros H Hwf Hd Hn Hc Hnum Hmerge Hnn.
  assert (Hlen : length ds = nrows df).
  { rewrite <- (well_formed_get _ _ _ Hwf Hd). symmetry. apply length_timestamps. }
  assert (Hlenn : length nums = length ds).
  { rewrite (traverse_length _ _ _ Hnum), (well_formed_get _ _ _ Hwf Hc). symmetry. exact Hlen. }
  pose proof (delete_zeros_allocates data df ds names counts nums Hwf Hd Hn Hc Hnum Hmerge h H)
    as Hrun1.
  rewrite <- Hlen in Hrun1.
  set (kept := surviving_rows (row_keys [names; truncated ds] (length ds)) nums) in *.
  set (clean := df_remove ["_merge"; "truncated_date"] df) in *.
  set (out1 := df_iloc kept clean) in *.
  set (h1 := <[data := df_assign df "truncated_date" (truncated ds)]> h ++ [out1]) in *.
  assert (Hout1 : h1 !! length h = Some out1).
  { unfold h1.
    replace (length h)
      with (length (<[data := df_assign df "truncated_date" (truncated ds)]> h)) at 1
      by apply length_insert.
    apply store_lookup_last. }
  assert (Hrange : forall i, In i kept -> i < length ds)
    by (intros i Hi; eapply kept_in_range, Hi).
  assert (Hd1 : df_get out1 "date"
                = Ok (timestamps (map (fun i => nth i ds 0%Z) kept))).
  { rewrite <- iloc_timestamps by exact Hrange. apply df_get_iloc.
    unfold clean. rewrite df_get_remove. exact Hd. }
  assert (Hn1 : df_get out1 "counter_name" = Ok (iloc kept names)).
  { apply df_get_iloc. unfold clean. rewrite df_get_remove. exact Hn. }
  assert (Hc1 : df_get out1 "log_bike_count" = Ok (iloc kept counts)).
  { apply df_get_iloc. unfold clean. rewrite df_get_remove. exact Hc. }
  assert (Hm1 : has_col out1 "_merge" = false).
  { unfold out1, clean. rewrite has_col_iloc, has_col_remove. reflexivity. }
  pose proof (delete_zeros_allocates (length h) out1 _ _ _ _
                (well_formed_iloc kept clean) Hd1 Hn1 Hc1
                (traverse_num_of_iloc kept counts nums Hnum) Hm1 h1 Hout1) as Hrun2.
  assert (Hclean : df_remove ["_merge"; "truncated_date"] out1 = out1).
  { unfold out1, clean. rewrite df_remove_iloc, df_remove_twice. reflexivity. }
  rewrite Hclean in Hrun2.
  assert (Hrows : nrows out1 = length (map (fun i => nth i ds 0%Z) kept))
    by (cbn [nrows out1 df_iloc]; rewrite length_map; reflexivity).
  rewrite Hrows in Hrun2.
  pose proof (second_pass_permutation names ds nums Hlenn Hnn) as Hperm.
  fold kept in Hperm.
  eexists h1, out1, _, _, _.
  split; [exact Hrun1|]. split; [exact Hout1|]. split; [exact Hrun2|].
  split.
  { replace (length h1)
      with (length (<[length h := df_assign out1 "truncated_date"
                       (truncated (map (fun i => nth i ds 0%Z) kept))]> h1)) at 1
      by apply length_insert.
    apply store_lookup_last. }
  split; [reflexivity|].
  split; [exact Hperm|].
  cbn [nrows df_iloc]. rewrite (Permutation_length Hperm). apply List.length_seq.
Qed.

Lemma delete_zeros_twice_witness :
  exists h1 out1 kept2 h2 out2,
    delete_zeros 0 [example_table] = (Ok 1, h1) /\ h1 !! 1 = Some out1
    /\ delete_zeros 1 h1 = (Ok (length h1), h2) /\ h2 !! length h1 = Some out2
    /\ out2 = df_iloc kept2 out1
    /\ Permutation kept2 (seq 0 (nrows out1))
    /\ nrows out2 = nrows out1.
Proof.
  apply (delete_zeros_twice [example_table] 0 example_table example_dates
           (series [VStr "A"; VStr "A"; VStr "A"; VStr "B"])
           (series (map VFloat [0; 3 # 2; 0; 0]%Q)) (map Some [0; 3 # 2; 0; 0]%Q)).
  - reflexivity.
  - repeat constructor.
  - reflexivity.
  - reflexivity.
  - reflexivity.
  - reflexivity.
  - reflexivity.
  - repeat (constructor; [eexists; split; [reflexivity|discriminate]|]). constructor.
Defined.

(** ** The three steps one after the other *)





(** ** The weather features are written in place *)

Lemma assign_col_same c s cs :
  lookup_col c cs = Some s -> assign_col c s cs = cs.
Proof.
  induction cs as [|[d t] cs IH]; cbn [lookup_col assign_col]; [discriminate|].
  destruct (String.eqb c d) eqn:E.
  - apply String.eqb_eq in E. subst d. intros [= ->]. reflexivity.
  - intros Hl. rewrite (IH Hl). reflexivity.
Qed.

Lemma df_assign_same df c s : df_get df c = Ok s -> df_assign df c s = df.
Proof.
  unfold df_get, df_assign. destruct (lookup_col c (cols df)) as [s'|] eqn:E;
    [|discriminate].
  intros [= ->]. rewrite (assign_col_same _ _ _ E). destruct df; reflexivity.
Qed.

(** X16. [engineer_weather_features] returns the frame it was given: no
    frame is made, no other frame is touched, every column other than the
    four it writes keeps its cells, and new names are added at the end in
    the order [rain_category], [is_hot_day], [is_cold_day], [high_wind].
    Calling it again on the result changes nothing. *)
Theorem engineer_weather_features_in_place
    (h : store) data df rr1 tcol fcol rr t ff :
  h !! data = Some df -> well_formed df ->
  df_get df "rr1" = Ok rr1 -> traverse num_of rr1 = Ok rr ->
  df_get df "t" = Ok tcol -> traverse num_of tcol = Ok t ->
  df_get df "ff" = Ok fcol -> traverse num_of fcol = Ok ff ->
  exists h' out,
    engineer_weather_features data h = (Ok data, h') /\ h' !! data = Some out
    /\ length h' = length h
    /\ (forall y, y <> data -> h' !! y = h !! y)
    /\ nrows out = nrows df
    /\ (forall c,
          mem_string c ["rain_category"; "is_hot_day"; "is_cold_day"; "high_wind"] = false ->
          df_get out c = df_get df c)
    /\ (forallb (fun c => negb (has_col df c))
          ["rain_category"; "is_hot_day"; "is_cold_day"; "high_wind"] = true ->
        columns out
        = columns df ++ ["rain_category"; "is_hot_day"; "is_cold_day"; "high_wind"])
    /\ engineer_weather_features data h' = (Ok data, h').
Proof.
  intros H Hwf Hr Hrn Ht Htn Hf Hfn.
  destruct (runs_store _ data df data _ h
              (engineer_weather_features_runs data df _ _ _ _ _ _
                 Hwf Hr Hrn Ht Htn Hf Hfn) H) as [Hrun Hout].
  set (out := weather_frame rr t ff df) in *.
  assert (Hkeep : forall c,
            mem_string c ["rain_category"; "is_hot_day"; "is_cold_day"; "high_wind"] = false ->
            df_get out c = df_get df c).
  { intros c Hc.
    repeat match type of Hc with
      | mem_string c (_ :: _) = false =>
          let E := fresh "E" in
          apply mem_string_cons_false in Hc; destruct Hc as [E Hc]
      end.
    unfold out, weather_frame, weather_indicator_frame, categorized_frame.
    rewrite !df_get_assign.
    repeat match goal with E : String.eqb c _ = false |- _ => rewrite E; clear E end.
    reflexivity. }
  exists (<[data := out]> h), out.
  split; [exact Hrun|]. split; [exact Hout|].
  split; [apply length_insert|].
  split; [intros y Hy; apply list_lookup_insert_ne; congruence|].
  split; [reflexivity|].
  split; [exact Hkeep|].
  split.
  { cbn [forallb]. rewrite andb_true_r. intros Hfresh.
    repeat match goal with
      | Hc : (_ && _)%bool = true |- _ => apply andb_true_iff in Hc; destruct Hc
      end.
    repeat match goal with
      | Hc : negb (has_col df _) = true |- _ =>
          apply negb_true_iff in Hc; rewrite has_col_columns in Hc
      end.
    unfold out, weather_frame, weather_indicator_frame, categorized_frame.
    apply (columns_assign_fresh _ "high_wind" _ (columns df)
             ["rain_category"; "is_hot_day"; "is_cold_day"]);
      [|assumption|reflexivity].
    apply (columns_assign_fresh _ "is_cold_day" _ (columns df)
             ["rain_category"; "is_hot_day"]);
      [|assumption|reflexivity].
    apply (columns_assign_fresh _ "is_hot_day" _ (columns df) ["rain_category"]);
      [|assumption|reflexivity].
    apply (columns_assign_fresh _ "rain_category" _ (columns df) []);
      [symmetry; apply app_nil_r|assumption|reflexivity]. }
  assert (Hwfo : well_formed out).
  { apply well_formed_weather_frame; [exact Hwf| | |].
    - rewrite (traverse_length _ _ _ Hrn). apply (well_formed_get _ _ _ Hwf Hr).
    - rewrite (traverse_length _ _ _ Htn). apply (well_formed_get _ _ _ Hwf Ht).
    - rewrite (traverse_length _ _ _ Hfn). apply (well_formed_get _ _ _ Hwf Hf). }
  assert (Hr' : df_get out "rr1" = Ok rr1) by (rewrite Hkeep; [exact Hr|reflexivity]).
  assert (Ht' : df_get out "t" = Ok tcol) by (rewrite Hkeep; [exact Ht|reflexivity]).
  assert (Hf' : df_get out "ff" = Ok fcol) by (rewrite Hkeep; [exact Hf|reflexivity]).
  rewrite (engineer_weather_features_runs data out _ _ _ _ _ _
             Hwfo Hr' Hrn Ht' Htn Hf' Hfn (<[data := out]> h) Hout).
  f_equal. rewrite list_insert_insert_eq. f_equal.
  unfold weather_frame, weather_indicator_frame, categorized_frame.
  assert (E1 : df_assign out "rain_category"
                 (series (map (cut_value rain_bins rain_labels) rr)) = out).
  { apply df_assign_same. unfold out, weather_frame, weather_indicator_frame,
      categorized_frame. rewrite !df_get_assign. reflexivity. }
  rewrite E1.
  assert (E2 : df_assign out "is_hot_day"
                 (astype_int (map (flag_of (fun q => Qlt_bool 300 q)) t)) = out).
  { apply df_assign_same. unfold out, weather_frame, weather_indicator_frame,
      categorized_frame. rewrite !df_get_assign. reflexivity. }
  rewrite E2.
  assert (E3 : df_assign out "is_cold_day"
                 (astype_int (map (flag_of (fun q => Qlt_bool q 283)) t)) = out).
  { apply df_assign_same. unfold out, weather_frame, weather_indicator_frame,
      categorized_frame. rewrite !df_get_assign. reflexivity. }
  rewrite E3.
  apply df_assign_same. unfold out, weather_frame, weather_indicator_frame,
    categorized_frame. rewrite !df_get_assign. reflexivity.
Qed.

Lemma engineer_weather_features_in_place_witness :
  exists h' out,
    engineer_weather_features 0 [example_table] = (Ok 0, h') /\ h' !! 0 = Some out
    /\ length h' = length [example_table]
    /\ (forall y, y <> 0 -> h' !! y = [example_table] !! y)
    /\ nrows out = nrows example_table
    /\ (forall c,
          mem_string c ["rain_category"; "is_hot_day"; "is_cold_day"; "high_wind"] = false ->
          df_get out c = df_get example_table c)
    /\ (forallb (fun c => negb (has_col example_table c))
          ["rain_category"; "is_hot_day"; "is_cold_day"; "high_wind"] = true ->
        columns out
        = columns example_table
          ++ ["rain_category"; "is_hot_day"; "is_cold_day"; "high_wind"])
    /\ engineer_weather_features 0 h' = (Ok 0, h').
Proof.
  apply (engineer_weather_features_in_place [example_table] 0 example_table
           (series (map VFloat [0; 2; 10; 100001 # 10000]%Q))
           (series (map VFloat [285; 301; 280; 290]%Q))
           (series (map VFloat [3; 6; 5; 0]%Q))
           (map Some [0; 2; 10; 100001 # 10000]%Q)
           (map Some [285; 301; 280; 290]%Q)
           (map Some [3; 6; 5; 0]%Q));
    first [reflexivity | repeat constructor].
Defined.

(** ** Rows without a date *)

Lemma dt_datetimes ds : dt (datetimes ds) = Ok ds.
Proof.
  unfold dt, datetimes. cbn [is_datetime64 cells].
  induction ds as [|[t|] ds IH]; cbn [map traverse datetime_cell as_datetime rbind];
    [reflexivity| |]; rewrite IH; reflexivity.
Qed.

Lemma dt_field_datetimes f ds : dt_field f (datetimes ds) = Ok (field_cells f ds).
Proof.
  unfold dt_field, field_cells. rewrite dt_datetimes. cbn [rbind].
  unfold field_cell. destruct (existsb is_NaT ds); reflexivity.
Qed.

Lemma length_datetimes ds : length (datetimes ds) = length ds.
Proof. apply length_map. Qed.

Lemma length_field_cells f ds : length (field_cells f ds) = length ds.
Proof. apply length_map. Qed.

Lemma traverse_num_of_fields f ds :
  traverse num_of (field_cells f ds) = Ok (map (field_number f) ds).
Proof.
  unfold field_cells. rewrite cells_series.
  apply traverse_map_ok. intros [t|]; [|reflexivity].
  cbn [field_cell field_number option_map]. destruct (existsb is_NaT ds); reflexivity.
Qed.

Lemma peak_lambda_number h :
  peak_lambda (VFloat (inject_Z h)) = Ok (VInt (peak_flag h)).
Proof.
  unfold peak_lambda, peak_flag; cbn [num_of rbind].
  change 6%Q with (inject_Z 6). change 9%Q with (inject_Z 9).
  change 16%Q with (inject_Z 16). change 19%Q with (inject_Z 19).
  rewrite !Qle_bool_inject, !Qlt_bool_inject. reflexivity.
Qed.

Lemma apply_peak_fields ds :
  apply peak_lambda (field_cells Calendar.hour ds) = Ok (series (map peak_cell ds)).
Proof.
  unfold apply, field_cells. rewrite cells_series.
  rewrite (traverse_map_ok peak_lambda _ peak_cell); [reflexivity|].
  intros [t|]; [|reflexivity]. cbn [field_cell peak_cell].
  destruct (existsb is_NaT ds); [apply peak_lambda_number|apply peak_lambda_int].
Qed.

Lemma apply_is_curfew_datetimes ds :
  apply (is_curfew_cell true) (datetimes ds) = Ok (series (map curfew_cell ds)).
Proof.
  unfold apply, datetimes. cbn [cells].
  rewrite (traverse_map_ok (is_curfew_cell true) datetime_cell curfew_cell);
    [reflexivity|].
  intros [t|]; [|reflexivity]. cbn [datetime_cell is_curfew_cell curfew_cell].
  rewrite is_curfew_flag. reflexivity.
Qed.

Lemma fields_frame_runs X df ds :
  well_formed df -> df_get df "date_x" = Ok (datetimes ds) ->
  runs (add_basic_date_features X) X df X (fields_frame ds df).
Proof.
  intros Hwf Hd.
  assert (Hlen : length ds = nrows df).
  { rewrite <- (well_formed_get _ _ _ Hwf Hd). symmetry. apply length_datetimes. }
  unfold add_basic_date_features, loc_setitem, fields_frame,
    dt_year, dt_month, dt_day, dt_weekday, dt_hour.
  repeat (eapply runs_bind;
          [ first [ get_col
                  | apply runs_lift, dt_field_datetimes
                  | apply runs_setitem; rewrite length_field_cells; exact Hlen ] | ]).
  apply runs_ret.
Qed.

Lemma np_trig_numbers f (s : list value) ns p :
  traverse num_of s = Ok ns -> np_trig f s p = Ok (series (map (trig_cell f p) ns)).
Proof. intros Hs. unfold np_trig. rewrite Hs. reflexivity. Qed.

Lemma trig_frame_allocates data df column period (s : Series) ns :
  well_formed df -> df_get df column = Ok s -> traverse num_of s = Ok ns ->
  String.eqb column ("sin_" ++ column) = false ->
  String.eqb column ("cos_" ++ column) = false ->
  allocates (create_cyclical_features data column period) data df
    (trig_frame column period ns df)
    (df_remove [column] (trig_frame column period ns df)).
Proof.
  intros Hwf Hc Hs Hsin Hcos.
  assert (Hlen : length ns = nrows df).
  { rewrite (traverse_length _ _ _ Hs). apply (well_formed_get _ _ _ Hwf Hc). }
  unfold create_cyclical_features, trig_frame.
  eapply allocates_bind; [apply runs_getitem; exact Hc|].
  eapply allocates_bind; [apply runs_lift, np_trig_numbers, Hs|].
  eapply allocates_bind;
    [apply runs_setitem; rewrite cells_series, length_map; exact Hlen|].
  eapply allocates_bind;
    [apply runs_getitem; rewrite df_get_assign, Hsin; exact Hc|].
  eapply allocates_bind; [apply runs_lift, np_trig_numbers, Hs|].
  eapply allocates_bind;
    [apply runs_setitem; rewrite cells_series, length_map; exact Hlen|].
  apply allocates_drop. cbn [forallb]. rewrite andb_true_r.
  eapply has_col_get. rewrite !df_get_assign, Hsin, Hcos. exact Hc.
Qed.

Lemma curfew_datetimes_runs df_ref df date_column ds :
  well_formed df -> df_get df date_column = Ok (datetimes ds) ->
  runs (curfew_periods df_ref date_column) df_ref df df_ref
    (df_assign df "curfew" (series (map curfew_cell ds))).
Proof.
  intros Hwf Hd.
  assert (Hlen : length ds = nrows df).
  { rewrite <- (well_formed_get _ _ _ Hwf Hd). symmetry. apply length_datetimes. }
  unfold curfew_periods.
  eapply runs_bind; [apply runs_getitem; exact Hd|].
  eapply runs_bind; [apply runs_lift, apply_is_curfew_datetimes|].
  eapply runs_bind;
    [apply runs_setitem; rewrite cells_series, length_map; exact Hlen|].
  apply runs_ret.
Qed.

Ltac dated_frames := unfold dated_result, dated_third, dated_second, dated_input,
  trig_frame, indicator_frame, season_frame, fields_frame.

Ltac wf_dated Hwf Hlen :=
  dated_frames;
  repeat first [ apply well_formed_remove
               | apply well_formed_assign;
                 [| cbn [nrows df_assign df_remove];
                    repeat first [ rewrite length_astype_int | rewrite length_isin
                                 | rewrite length_datetimes | rewrite length_field_cells
                                 | rewrite cells_series | rewrite length_map ];
                    exact Hlen ] ];
  exact Hwf.

Ltac get_dated :=
  dated_frames; repeat (rewrite df_get_assign || rewrite df_get_remove);
  first [reflexivity | eassumption].

Section MissingDates.
Variables (df : DataFrame) (ds : list (option Z)) (sh ph : list value).
Hypothesis Hwf : well_formed df.
Hypothesis Hd : df_get df "date_x" = Ok (datetimes ds).

Lemma length_dates : length ds = nrows df.
Proof. rewrite <- (well_formed_get _ _ _ Hwf Hd). symmetry. apply length_datetimes. Qed.

Lemma dated_run (h : store) X :
  h !! X = Some df ->
  encode_dates X sh ph h
  = (Ok (length h + 2),
     <[X := dated_input ds sh ph df]> h
     ++ [ dated_second ds sh ph df; dated_third ds sh ph df; dated_result ds sh ph df ]).
Proof.
  intros H. unfold encode_dates.
  pose proof length_dates as Hlen.
  erewrite bind_runs; [| |exact H]; [|apply fields_frame_runs; eassumption].
  erewrite bind_runs; [| |eapply store_insert_lookup; exact H];
    [|apply add_season_feature_runs with (m := field_cells Calendar.month ds);
      [wf_dated Hwf Hlen|get_dated]].
  rewrite list_insert_insert_eq.
  erewrite bind_runs; [| |eapply store_insert_lookup; exact H].
  2:{ apply add_indicator_features_runs with (hours := field_cells Calendar.hour ds).
      - wf_dated Hwf Hlen.
      - get_dated.
      - get_dated.
      - apply apply_peak_fields. }
  rewrite list_insert_insert_eq.
  erewrite bind_allocates; [| |eapply store_insert_lookup; exact H].
  2:{ apply trig_frame_allocates with (s := field_cells Calendar.hour ds);
        [| |apply traverse_num_of_fields|reflexivity|reflexivity].
      - wf_dated Hwf Hlen.
      - get_dated. }
  rewrite list_insert_insert_eq, length_insert.
  fold (dated_input ds sh ph df).
  set (hA := <[X := dated_input ds sh ph df]> h).
  assert (HlenA : length hA = length h) by apply length_insert.
  rewrite <- HlenA.
  erewrite bind_allocates; [| |apply store_lookup_last].
  2:{ apply trig_frame_allocates with (s := field_cells Calendar.month ds);
        [| |apply traverse_num_of_fields|reflexivity|reflexivity].
      - wf_dated Hwf Hlen.
      - get_dated. }
  rewrite store_insert_last.
  fold (dated_second ds sh ph df).
  set (hB := hA ++ [dated_second ds sh ph df]).
  replace (length (hA ++ [df_remove ["hour"] (dated_input ds sh ph df)]))
    with (length hB) by (subst hB; rewrite !length_app; reflexivity).
  erewrite bind_runs; [| |apply store_lookup_last].
  2:{ apply curfew_datetimes_runs with (ds := ds); [wf_dated Hwf Hlen|get_dated]. }
  rewrite store_insert_last.
  fold (dated_third ds sh ph df).
  rewrite (allocates_drop (length hB) (dated_third ds sh ph df) ["date_x"]);
    [| |apply store_lookup_last].
  2:{ cbn [forallb]. rewrite andb_true_r. eapply has_col_get. get_dated. }
  rewrite store_insert_last.
  fold (dated_result ds sh ph df).
  subst hB. rewrite !length_app, <- !app_assoc. cbn [length app].
  f_equal. f_equal. lia.
Qed.
End MissingDates.

Lemma Qeq_bool_inject a b : Qeq_bool (inject_Z a) (inject_Z b) = (a =? b)%Z.
Proof. unfold Qeq_bool, inject_Z; cbn [Qnum Qden]. rewrite !Z.mul_1_r. reflexivity. Qed.

Lemma season_cell_number m : season_cell (VFloat (inject_Z m)) = season_cell (VInt m).
Proof.
  unfold season_cell. cbn [existsb value_eqb].
  rewrite !Qeq_bool_inject. reflexivity.
Qed.

(** X2. On a datetime64 column in which dates may be missing, [encode_dates]
    returns all the same, and in its result the season of a row is
    "Unknown" exactly when the row has no date; a row with a date gets the
    season of its month, one of Winter, Spring, Summer and Fall.  The frame
    is new to the columns written with [.loc]. *)
Theorem encode_dates_season_of_row (h : store) X df ds sh ph :
  h !! X = Some df -> well_formed df -> df_get df "date_x" = Ok (datetimes ds) ->
  new_to loc_assigned_names df = true ->
  exists X' h' out,
    encode_dates X sh ph h = (Ok X', h') /\ h' !! X' = Some out
    /\ nrows out = nrows df
    /\ forall i d, nth_error ds i = Some d ->
         (cell_at out "season" i = Some (VStr "Unknown") <-> d = None)
         /\ forall t, d = Some t ->
              (In (Calendar.month t) [12; 1; 2]%Z
               /\ cell_at out "season" i = Some (VStr "Winter"))
              \/ (In (Calendar.month t) [3; 4; 5]%Z
                  /\ cell_at out "season" i = Some (VStr "Spring"))
              \/ (In (Calendar.month t) [6; 7; 8]%Z
                  /\ cell_at out "season" i = Some (VStr "Summer"))
              \/ (In (Calendar.month t) [9; 10; 11]%Z
                  /\ cell_at out "season" i = Some (VStr "Fall")).
Proof.
  intros H Hwf Hd _.
  pose proof (lookup_lt_Some _ _ _ H) as HX.
  eexists (length h + 2), _, (dated_result ds sh ph df).
  split; [exact (dated_run df ds sh ph Hwf Hd h X H)|].
  split.
  { replace (length h + 2)
      with (length (<[X := dated_input ds sh ph df]> h) + 2)
      by (rewrite length_insert; reflexivity).
    rewrite lookup_app_r by lia.
    replace (_ + 2 - _) with 2 by lia. reflexivity. }
  split; [reflexivity|].
  intros i d Hi.
  assert (Hcell : cell_at (dated_result ds sh ph df) "season" i
                  = Some (season_cell (field_cell (existsb is_NaT ds) Calendar.month d))).
  { apply (cell_at_map season_cell _ _
             (map (field_cell (existsb is_NaT ds) Calendar.month) ds)).
    - dated_frames. repeat (rewrite df_get_assign || rewrite df_get_remove). reflexivity.
    - rewrite nth_error_map, Hi. reflexivity. }
  rewrite Hcell. destruct d as [t|].
  - assert (E : season_cell (field_cell (existsb is_NaT ds) Calendar.month (Some t))
                = season_cell (VInt (Calendar.month t))).
    { cbn [field_cell]. destruct (existsb is_NaT ds);
        [apply season_cell_number|reflexivity]. }
    rewrite E.
    destruct (season_cell_of_month _ (month_range t))
      as [[Hm Es]|[[Hm Es]|[[Hm Es]|[Hm Es]]]]; rewrite Es;
      (split; [split; discriminate|]); intros t' [= <-]; tauto.
  - split; [split; reflexivity|]. intros t' [=].
Qed.

Lemma encode_dates_season_of_row_witness :
  exists X' h' out,
    encode_dates 0 [] [] [missing_date_table] = (Ok X', h') /\ h' !! X' = Some out
    /\ nrows out = nrows missing_date_table
    /\ forall i d,
         nth_error [Some (Calendar.Timestamp 2020 10 20 22 0 0); None] i = Some d ->
         (cell_at out "season" i = Some (VStr "Unknown") <-> d = None)
         /\ forall t, d = Some t ->
              (In (Calendar.month t) [12; 1; 2]%Z
               /\ cell_at out "season" i = Some (VStr "Winter"))
              \/ (In (Calendar.month t) [3; 4; 5]%Z
                  /\ cell_at out "season" i = Some (VStr "Spring"))
              \/ (In (Calendar.month t) [6; 7; 8]%Z
                  /\ cell_at out "season" i = Some (VStr "Summer"))
              \/ (In (Calendar.month t) [9; 10; 11]%Z
                  /\ cell_at out "season" i = Some (VStr "Fall")).
Proof.
  apply (encode_dates_season_of_row [missing_date_table] 0 missing_date_table
           [Some (Calendar.Timestamp 2020 10 20 22 0 0); None] [] []);
    first [reflexivity | repeat constructor].
Defined.

Lemma isin_missing_cell (l : list value) :
  ~ In VNaN l -> existsb (value_eqb VNaN) l = false.
Proof.
  intros Hl. destruct (existsb (value_eqb VNaN) l) eqn:E; [|reflexivity].
  apply existsb_exists in E as (v & Hv & Hvn).
  destruct v; cbn [value_eqb] in Hvn; try discriminate. contradiction.
Qed.

Lemma holiday_cell_of_date df c ds l i d :
  df_get df c = Ok (astype_int (isin (datetimes ds) l)) -> nth_error ds i = Some d ->
  cell_at df c i
  = Some (VInt (if existsb (value_eqb (datetime_cell d)) l then 1 else 0)).
Proof.
  intros Hc Hi. unfold cell_at. rewrite Hc. unfold astype_int, isin, datetimes.
  cbn [series cells]. rewrite !map_map, nth_error_map, Hi. reflexivity.
Qed.

(** X17. What [encode_dates] makes of a row without a date (NaT) in a
    datetime64 column: year, day and weekday are NaN, and so are the sines
    and cosines; [is_peak] and [curfew] are 0, and so is a holiday flag
    unless NaT is in the list of holidays.  And as soon as one date of the
    column is missing, the year, day and weekday of the rows that have a
    date are floats.  The frame is new to the columns written with
    [.loc]. *)
Theorem encode_dates_row_without_date (h : store) X df ds sh ph :
  h !! X = Some df -> well_formed df -> df_get df "date_x" = Ok (datetimes ds) ->
  new_to loc_assigned_names df = true ->
  exists X' h' out,
    encode_dates X sh ph h = (Ok X', h') /\ h' !! X' = Some out
    /\ (forall i, nth_error ds i = Some None ->
          cell_at out "year" i = Some VNaN
          /\ cell_at out "day" i = Some VNaN
          /\ cell_at out "weekday" i = Some VNaN
          /\ cell_at out "is_peak" i = Some (VInt 0)
          /\ cell_at out "sin_hour" i = Some VNaN
          /\ cell_at out "cos_hour" i = Some VNaN
          /\ cell_at out "sin_month" i = Some VNaN
          /\ cell_at out "cos_month" i = Some VNaN
          /\ cell_at out "curfew" i = Some (VInt 0)
          /\ (~ In VNaN sh -> cell_at out "school_holiday" i = Some (VInt 0))
          /\ (~ In VNaN ph -> cell_at out "public_holiday" i = Some (VInt 0)))
    /\ (forall i t, In None ds -> nth_error ds i = Some (Some t) ->
          cell_at out "year" i = Some (VFloat (inject_Z (Calendar.year t)))
          /\ cell_at out "day" i = Some (VFloat (inject_Z (Calendar.day t)))
          /\ cell_at out "weekday" i = Some (VFloat (inject_Z (Calendar.weekday t)))).
Proof.
  intros H Hwf Hd _.
  pose proof (lookup_lt_Some _ _ _ H) as HX.
  eexists (length h + 2), _, (dated_result ds sh ph df).
  split; [exact (dated_run df ds sh ph Hwf Hd h X H)|].
  split.
  { replace (length h + 2)
      with (length (<[X := dated_input ds sh ph df]> h) + 2)
      by (rewrite length_insert; reflexivity).
    rewrite lookup_app_r by lia.
    replace (_ + 2 - _) with 2 by lia. reflexivity. }
  assert (Hfield : forall f c,
            df_get (dated_result ds sh ph df) c = Ok (field_cells f ds) ->
            forall i d, nth_error ds i = Some d ->
              cell_at (dated_result ds sh ph df) c i
              = Some (field_cell (existsb is_NaT ds) f d)).
  { intros f c Hc i d Hi.
    exact (cell_at_map (field_cell (existsb is_NaT ds) f) _ c ds i d Hc Hi). }
  assert (Hyear : df_get (dated_result ds sh ph df) "year"
                  = Ok (field_cells Calendar.year ds)) by get_dated.
  assert (Hday : df_get (dated_result ds sh ph df) "day"
                 = Ok (field_cells Calendar.day ds)) by get_dated.
  assert (Hweek : df_get (dated_result ds sh ph df) "weekday"
                  = Ok (field_cells Calendar.weekday ds)) by get_dated.
  assert (Htrig : forall f column period g,
            df_get (dated_result ds sh ph df) column
            = Ok (series (map (trig_cell f period) (map (field_number g) ds))) ->
            forall i, nth_error ds i = Some None ->
              cell_at (dated_result ds sh ph df) column i = Some VNaN).
  { intros f column period g Hc i Hi.
    apply (cell_at_map (trig_cell f period) _ _ (map (field_number g) ds) i None Hc).
    rewrite nth_error_map, Hi. reflexivity. }
  split.
  - intros i Hi.
    split; [exact (Hfield _ _ Hyear i None Hi)|].
    split; [exact (Hfield _ _ Hday i None Hi)|].
    split; [exact (Hfield _ _ Hweek i None Hi)|].
    split.
    { apply (cell_at_map peak_cell _ _ ds i None); [|exact Hi].
      dated_frames. repeat (rewrite df_get_assign || rewrite df_get_remove). reflexivity. }
    split.
    { apply (Htrig Sin "sin_hour" 24%Z Calendar.hour); [|exact Hi].
      dated_frames. repeat (rewrite df_get_assign || rewrite df_get_remove). reflexivity. }
    split.
    { apply (Htrig Cos "cos_hour" 24%Z Calendar.hour); [|exact Hi].
      dated_frames. repeat (rewrite df_get_assign || rewrite df_get_remove). reflexivity. }
    split.
    { apply (Htrig Sin "sin_month" 12%Z Calendar.month); [|exact Hi].
      dated_frames. repeat (rewrite df_get_assign || rewrite df_get_remove). reflexivity. }
    split.
    { apply (Htrig Cos "cos_month" 12%Z Calendar.month); [|exact Hi].
      dated_frames. repeat (rewrite df_get_assign || rewrite df_get_remove). reflexivity. }
    split.
    { apply (cell_at_map curfew_cell _ _ ds i None); [|exact Hi].
      dated_frames. repeat (rewrite df_get_assign || rewrite df_get_remove). reflexivity. }
    split.
    + intros Hsh.
      rewrite (holiday_cell_of_date _ "school_holiday" ds sh i None); [|get_dated|exact Hi].
      cbn [datetime_cell]. rewrite (isin_missing_cell sh Hsh). reflexivity.
    + intros Hph.
      rewrite (holiday_cell_of_date _ "public_holiday" ds ph i None); [|get_dated|exact Hi].
      cbn [datetime_cell]. rewrite (isin_missing_cell ph Hph). reflexivity.
  - intros i t Hnone Hi.
    assert (Hmiss : existsb is_NaT ds = true)
      by (apply existsb_exists; exists None; split; [exact Hnone|reflexivity]).
    pose proof (Hfield _ _ Hyear i _ Hi) as Ey.
    pose proof (Hfield _ _ Hday i _ Hi) as Ed.
    pose proof (Hfield _ _ Hweek i _ Hi) as Ew.
    rewrite Hmiss in Ey, Ed, Ew. auto.
Qed.

Lemma encode_dates_row_without_date_witness :
  exists X' h' out,
    encode_dates 0 [] [] [missing_date_table] = (Ok X', h') /\ h' !! X' = Some out
    /\ (forall i,
          nth_error [Some (Calendar.Timestamp 2020 10 20 22 0 0); None] i = Some None ->
          cell_at out "year" i = Some VNaN
          /\ cell_at out "day" i = Some VNaN
          /\ cell_at out "weekday" i = Some VNaN
          /\ cell_at out "is_peak" i = Some (VInt 0)
          /\ cell_at out "sin_hour" i = Some VNaN
          /\ cell_at out "cos_hour" i = Some VNaN
          /\ cell_at out "sin_month" i = Some VNaN
          /\ cell_at out "cos_month" i = Some VNaN
          /\ cell_at out "curfew" i = Some (VInt 0)
          /\ (~ In VNaN [] -> cell_at out "school_holiday" i = Some (VInt 0))
          /\ (~ In VNaN [] -> cell_at out "public_holiday" i = Some (VInt 0)))
    /\ (forall i t,
          In None [Some (Calendar.Timestamp 2020 10 20 22 0 0); None] ->
          nth_error [Some (Calendar.Timestamp 2020 10 20 22 0 0); None] i
          = Some (Some t) ->
          cell_at out "year" i = Some (VFloat (inject_Z (Calendar.year t)))
          /\ cell_at out "day" i = Some (VFloat (inject_Z (Calendar.day t)))
          /\ cell_at out "weekday" i = Some (VFloat (inject_Z (Calendar.weekday t)))).
Proof.
  apply (encode_dates_row_without_date [missing_date_table] 0 missing_date_table
           [Some (Calendar.Timestamp 2020 10 20 22 0 0); None] [] []);
    first [reflexivity | repeat constructor].
Defined.
